(** * Chapterize-Audiobooks: timecode extraction and cue sidecar

    A shallow embedding of the timecode engine of [chapterize_ab.py]:
    [parse_timestamp], [convert_time], [format_timestamp_from_float],
    [parse_timecodes], [apply_chapters] (its first statement),
    [write_cue_file] and [read_cue_file], together with the properties of
    the design document that concern them. A second part embeds the rest
    of the script as far as it works on texts, lists and files:
    [verify_language], [parse_config], [print_table], [extract_metadata],
    the whole of [apply_chapters], the transcript that
    [generate_timecodes] writes and the path of [main] from the sidecar
    to [apply_chapters].

    Conventions of the embedding.
    - Python [str] is [string]; a character is an [ascii] and is read as an
      ASCII code point: codes above 127 are caseless, are no digit and no
      white space.
    - Python [int] is [Z].
    - A Python [float] is a [pyfloat]: a finite double, given by the
      rational it denotes, an infinity or a NaN. A float operation that
      rounds (the product inside [timedelta(seconds=x)], the quotient of
      [total_seconds]) rounds its exact result to the nearest double,
      [double_round].
    - A call that can end in [sys.exit(n)] or in an exception that nothing
      catches returns a [result]: [Ok v], [Exit n] or [Raise e].
    - A timecode dictionary has the three keys ['start'], ['chapter_type']
      and ['end']; it is a record of three optional texts, [None] meaning
      the key is absent.
    - The file system is a finite map from path texts to file contents. *)

From Stdlib Require Import String Ascii List ZArith Lia Bool QArith Qround.
From Stdlib Require Import DecimalString.
From Stdlib Require DecimalPos.
From stdpp Require Import base gmap strings.
Import ListNotations.

Local Open Scope string_scope.
Local Open Scope Z_scope.

(** Texts are built and taken apart character by character here, so the
    concatenation of texts is left free to compute. *)
#[global] Arguments String.append !s1 s2 : simpl nomatch.

(** ** Results of calls *)

Inductive exn : Type :=
| ValueError
| TypeError
| IndexError
| KeyError
| FileNotFoundError
| OverflowError.

Inductive result (A : Type) : Type :=
| Ok (a : A)
| Exit (code : Z)
| Raise (e : exn).

Arguments Ok {A} a.
Arguments Exit {A} code.
Arguments Raise {A} e.

#[global] Instance result_ret : MRet result := fun A a => Ok a.

#[global] Instance result_bind : MBind result := fun A B k r =>
  match r with
  | Ok a => k a
  | Exit c => Exit c
  | Raise e => Raise e
  end.

(** ** Python text primitives *)

Module Py.

Definition is_digit (c : ascii) : bool :=
  let n := nat_of_ascii c in (48 <=? n)%nat && (n <=? 57)%nat.

(** [\s] and [str.isspace] on ASCII: TAB, LF, VT, FF, CR, FS, GS, RS, US
    and the space. *)
Definition is_space (c : ascii) : bool :=
  let n := nat_of_ascii c in
  ((9 <=? n)%nat && (n <=? 13)%nat) || ((28 <=? n)%nat && (n <=? 32)%nat).

Definition is_upper (c : ascii) : bool :=
  let n := nat_of_ascii c in (65 <=? n)%nat && (n <=? 90)%nat.

Definition is_lower (c : ascii) : bool :=
  let n := nat_of_ascii c in (97 <=? n)%nat && (n <=? 122)%nat.

Definition is_cased (c : ascii) : bool := is_upper c || is_lower c.

Definition to_upper (c : ascii) : ascii :=
  if is_lower c then ascii_of_nat (nat_of_ascii c - 32) else c.

Definition to_lower (c : ascii) : ascii :=
  if is_upper c then ascii_of_nat (nat_of_ascii c + 32) else c.

(** [s.startswith(p)] *)
Fixpoint startswith (p s : string) : bool :=
  match p, s with
  | EmptyString, _ => true
  | String a p', String b s' => Ascii.eqb a b && startswith p' s'
  | String _ _, EmptyString => false
  end.

(** [sub in s] *)
Fixpoint contains (sub s : string) : bool :=
  startswith sub s ||
  match s with
  | EmptyString => false
  | String _ s' => contains sub s'
  end.

(** [c in s] for a one-character [c] *)
Fixpoint has_char (c : ascii) (s : string) : bool :=
  match s with
  | EmptyString => false
  | String a s' => Ascii.eqb a c || has_char c s'
  end.

(** [s.split(c)] for a one-character separator: never the empty list. *)
Fixpoint split (c : ascii) (s : string) : list string :=
  match s with
  | EmptyString => [EmptyString]
  | String a s' =>
      if Ascii.eqb a c then EmptyString :: split c s'
      else match split c s' with
           | p :: ps => String a p :: ps
           | [] => [String a EmptyString]
           end
  end.

(** [sep.join(parts)] *)
Definition join (sep : string) (parts : list string) : string :=
  String.concat sep parts.

(** [s.replace(a, b)] for one-character [a] and [b] *)
Fixpoint replace (a b : ascii) (s : string) : string :=
  match s with
  | EmptyString => EmptyString
  | String c s' => String (if Ascii.eqb c a then b else c) (replace a b s')
  end.

(** [s.title()]: a cased character is upper-cased when it follows an
    uncased one (or starts the text) and lower-cased otherwise. *)
Fixpoint title_from (previous_is_cased : bool) (s : string) : string :=
  match s with
  | EmptyString => EmptyString
  | String c s' =>
      String (if previous_is_cased then to_lower c else to_upper c)
             (title_from (is_cased c) s')
  end.

Definition title (s : string) : string := title_from false s.

(** [str(n)] *)
Definition str (n : Z) : string := NilZero.string_of_int (Z.to_int n).

Fixpoint lstrip (s : string) : string :=
  match s with
  | String c s' => if is_space c then lstrip s' else s
  | EmptyString => EmptyString
  end.

Fixpoint rstrip (s : string) : string :=
  match s with
  | EmptyString => EmptyString
  | String c s' =>
      match rstrip s' with
      | EmptyString => if is_space c then EmptyString else String c EmptyString
      | r => String c r
      end
  end.

Definition digit_val (c : ascii) : Z := Z.of_nat (nat_of_ascii c) - 48.

(** The digits of an [int] literal after a first digit has been read:
    digits, a single underscore allowed between two digits. *)
Fixpoint int_digits (acc : Z) (s : string) : option Z :=
  match s with
  | EmptyString => Some acc
  | String c s' =>
      if is_digit c then int_digits (10 * acc + digit_val c) s'
      else if Ascii.eqb c "_" then
        match s' with
        | String d s'' =>
            if is_digit d then int_digits (10 * acc + digit_val d) s''
            else None
        | EmptyString => None
        end
      else None
  end.

Definition int_unsigned (s : string) : option Z :=
  match s with
  | String c s' => if is_digit c then int_digits (digit_val c) s' else None
  | EmptyString => None
  end.

(** [int(s)] in base 10: surrounding white space, an optional sign, then
    digits; [None] stands for [ValueError]. *)
Definition int (s : string) : option Z :=
  match rstrip (lstrip s) with
  | String "+" s' => int_unsigned s'
  | String "-" s' => option_map Z.opp (int_unsigned s')
  | s' => int_unsigned s'
  end.

End Py.

(** ** [convert_time] *)

(** [re.compile(r'0\d').match(s)] as a truth value *)
Definition pattern_match (s : string) : bool :=
  match s with
  | String "0" (String d _) => Py.is_digit d
  | _ => false
  end.

(** [parts[-1] = x] on a non-empty list *)
Fixpoint set_last (parts : list string) (x : string) : list string :=
  match parts with
  | [] => []
  | [_] => [x]
  | p :: ps => p :: set_last ps x
  end.

(** The body of the [try]; [None] is any exception, all of which the
    [except Exception] clause turns into [sys.exit(6)]. The second
    component is [milliseconds]. *)
Definition convert_time_parts (time : string) : option (list string * string) :=
  let parts := Py.split ":" time in
  match Py.split "." (List.last parts EmptyString) with
  | [last; milliseconds] =>
      if pattern_match last then
        match nth_error parts 1 with
        | None => None
        | Some p1 =>
            let p0 := nth 0 parts EmptyString in
            if String.eqb p1 "00" && String.eqb last "00" then
              match Py.int p0 with
              | None => None
              | Some h =>
                  let first :=
                    if pattern_match p0 then "0" ++ Py.str (h - 1)
                    else Py.str (h - 1) in
                  Some ([first; "59"; "59"], milliseconds)
              end
            else if String.eqb last "00" then
              match Py.int p1 with
              | None => None
              | Some m =>
                  let mid :=
                    if pattern_match p1 then "0" ++ Py.str (m - 1)
                    else Py.str (m - 1) in
                  Some ([p0; mid; "59"], milliseconds)
              end
            else
              match Py.int last with
              | None => None
              | Some s => Some (set_last parts ("0" ++ Py.str (s - 1)), milliseconds)
              end
        end
      else
        match Py.int last with
        | None => None
        | Some s => Some (set_last parts (Py.str (s - 1)), milliseconds)
        end
  | _ => None
  end.

Definition convert_time (time : string) : result string :=
  match convert_time_parts time with
  | Some (parts, milliseconds) => Ok (Py.join ":" parts ++ "." ++ milliseconds)
  | None => Exit 6
  end.


(** ** Durations: [datetime.timedelta] *)

(** A normalized [timedelta]: [0 <= seconds < 86400] and
    [0 <= microseconds < 1000000]; [days] carries the rest. *)
Record timedelta : Type := mk_timedelta {
  days : Z;
  seconds : Z;
  microseconds : Z
}.

Definition timedelta_of_us (us : Z) : timedelta :=
  {| days := us / 86400000000;
     seconds := (us / 1000000) mod 86400;
     microseconds := us mod 1000000 |}.

Definition total_us (td : timedelta) : Z :=
  (days td * 86400 + seconds td) * 1000000 + microseconds td.

(** [round(q)]: to the nearest integer, ties to the even one. *)
Definition round_half_even (q : Q) : Z :=
  let f := Qfloor q in
  match Qcompare (q - inject_Z f) (1 # 2) with
  | Lt => f
  | Gt => f + 1
  | Eq => if Z.even f then f else f + 1
  end.

(** [math.modf]: the integral part, towards zero. *)
Definition Qtrunc (q : Q) : Z :=
  if Qle_bool 0 q then Qfloor q else Qceiling q.

(** A Python float: a finite double, given by the rational it denotes,
    an infinity or a NaN. *)
Inductive pyfloat : Type :=
| Finite (q : Q)
| Infinity (negative : bool)
| NaN.

(** [2 ** e] for an integer [e] of either sign. *)
Definition Qpow2 (e : Z) : Q :=
  if 0 <=? e then inject_Z (2 ^ e) else (1 # Z.to_pos (2 ^ (- e)))%Q.

(** The double nearest to a rational, ties to the even mantissa: a
    mantissa of 53 bits and exponents from -1074 on. The numbers rounded
    in this file stay far below the largest double, so the overflow to an
    infinity is left out. *)
Definition double_round (q : Q) : Q :=
  if Qnum q =? 0 then 0%Q else
  let a := (Z.abs (Qnum q) # Qden q)%Q in
  let k := Z.log2 (Qnum a) - Z.log2 (Zpos (Qden a)) in
  let e0 := if Qle_bool (Qpow2 k) a then k else k - 1 in
  let e := Z.max (e0 - 52) (-1074) in
  let m := round_half_even (a / Qpow2 e) in
  let v := (inject_Z m * Qpow2 e)%Q in
  Qred (if 0 <? Qnum q then v else (- v)%Q).

(** [timedelta(seconds=x)] for a float [x]. The whole seconds are turned
    into microseconds exactly; the fraction is multiplied by a million as
    a float, and that product is rounded to a whole microsecond, a tie
    going to the even sum. A NaN and an infinity are refused when the
    whole part is made an [int]; more than 999999999 days either way
    raise [OverflowError]. *)
Definition timedelta_of_seconds (x : pyfloat) : result timedelta :=
  match x with
  | NaN => Raise ValueError
  | Infinity _ => Raise OverflowError
  | Finite q =>
      let whole := Qtrunc q in
      let frac := (q - inject_Z whole)%Q in
      let td :=
        timedelta_of_us
          (whole * 1000000
           + round_half_even (double_round (frac * inject_Z 1000000))) in
      if (-999999999 <=? days td) && (days td <=? 999999999)
      then Ok td
      else Raise OverflowError
  end.

(** [td.total_seconds()]: the microseconds divided by a million, a
    quotient of two [int]s, which is the nearest double. *)
Definition total_seconds (td : timedelta) : Q :=
  double_round (total_us td # 1000000).

(** ** [parse_timestamp] *)

Fixpoint span_digits (s : string) : string * string :=
  match s with
  | String c s' =>
      if Py.is_digit c then
        let (d, r) := span_digits s' in (String c d, r)
      else (EmptyString, s)
  | EmptyString => (EmptyString, EmptyString)
  end.

Fixpoint digits_val (acc : Z) (s : string) : Z :=
  match s with
  | String c s' => digits_val (10 * acc + Py.digit_val c) s'
  | EmptyString => acc
  end.

(** One of the directives [%H], [%M], [%S] followed by the literal [sep]:
    one or two digits of value at most [hi]. The pattern of each directive
    tries its two-digit alternatives first and the separator has to
    follow, so the field is the whole run of digits before [sep]. *)
Definition strptime_field (hi : Z) (sep : ascii) (s : string) : option (Z * string) :=
  let (d, r) := span_digits s in
  match r with
  | String c r' =>
      if Ascii.eqb c sep
         && (1 <=? String.length d)%nat && (String.length d <=? 2)%nat
         && (digits_val 0 d <=? hi)
      then Some (digits_val 0 d, r')
      else None
  | EmptyString => None
  end.

Fixpoint zeros (n : nat) : string :=
  match n with
  | O => EmptyString
  | S n' => String "0" (zeros n')
  end.

(** [%f] at the end of the text: one to six digits, read as a fraction of
    a second in microseconds. *)
Definition strptime_fraction (s : string) : option Z :=
  let (d, r) := span_digits s in
  match r with
  | EmptyString =>
      if (1 <=? String.length d)%nat && (String.length d <=? 6)%nat
      then Some (digits_val 0 (d ++ zeros (6 - String.length d)))
      else None
  | _ => None
  end.

(** [datetime.strptime(time, "%H:%M:%S.%f")]: hour, minute, second and
    microsecond, or [None] for [ValueError]. [%S] reads 60 and 61, which
    the [datetime] constructor then refuses. *)
Definition strptime (time : string) : option (Z * Z * Z * Z) :=
  match strptime_field 23 ":" time with
  | None => None
  | Some (h, r1) =>
      match strptime_field 59 ":" r1 with
      | None => None
      | Some (m, r2) =>
          match strptime_field 61 "." r2 with
          | None => None
          | Some (s, r3) =>
              match strptime_fraction r3 with
              | None => None
              | Some us => if s <=? 59 then Some (h, m, s, us) else None
              end
          end
      end
  end.

Definition parse_timestamp (time : string) : result timedelta :=
  let time := if Py.has_char "." time then time else time ++ ".0" in
  match strptime time with
  | None => Raise ValueError
  | Some (h, m, s, us) =>
      Ok (timedelta_of_us (((h * 60 + m) * 60 + s) * 1000000 + us))
  end.

(** ** [format_timestamp_from_float] *)

(** [format(n, '0w')]: the sign first, then zeros up to the width [w]. *)
Definition format_zero (w : nat) (n : Z) : string :=
  if n <? 0 then
    let d := Py.str (- n) in "-" ++ zeros (w - 1 - String.length d) ++ d
  else
    let d := Py.str n in zeros (w - String.length d) ++ d.

(** The statements after the first: the text made of [td.seconds] and
    [td.microseconds]. *)
Definition format_timedelta (td : timedelta) : string :=
  let hours := seconds td / 3600 in
  let remainder := seconds td mod 3600 in
  let minutes := remainder / 60 in
  let secs' := remainder mod 60 in
  let milliseconds := microseconds td / 1000 in
  format_zero 2 hours ++ ":" ++ format_zero 2 minutes ++ ":"
    ++ format_zero 2 secs' ++ "," ++ format_zero 3 milliseconds.

(** The first statement builds the [timedelta], and raises what it
    raises. *)
Definition format_timestamp_from_float (secs : pyfloat) : result string :=
  td ← timedelta_of_seconds secs;
  Ok (format_timedelta td).


(** ** Timecode dictionaries *)

Record timecode : Type := mk_timecode {
  start : option string;
  chapter_type : option string;
  end_ : option string
}.

Definition empty_dict : timecode :=
  {| start := None; chapter_type := None; end_ := None |}.

(** The truth value of a dictionary: it has a key. *)
Definition nonempty_dict (d : timecode) : bool :=
  match start d, chapter_type d, end_ d with
  | None, None, None => false
  | _, _, _ => true
  end.

Definition set_start (d : timecode) (x : string) : timecode :=
  {| start := Some x; chapter_type := chapter_type d; end_ := end_ d |}.

Definition set_chapter_type (d : timecode) (x : string) : timecode :=
  {| start := start d; chapter_type := Some x; end_ := end_ d |}.

Definition set_end (d : timecode) (x : string) : timecode :=
  {| start := start d; chapter_type := chapter_type d; end_ := Some x |}.

(** [d[key]]: [KeyError] when the key is absent. *)
Definition getitem (v : option string) : result string :=
  match v with
  | Some x => Ok x
  | None => Raise KeyError
  end.

(** ** [parse_timecodes] *)

(** The pattern [\d\d:\d\d:\d\d,\d+(?=\s-)] tried at the head of [s].
    The run of digits after the comma is taken whole: a shorter run would
    be followed by a digit, which the lookahead refuses. *)
Definition start_regexp_here (s : string) : option string :=
  match s with
  | String h1 (String h2 (String c1 (String m1 (String m2 (String c2
      (String s1 (String s2 (String c3 r)))))))) =>
      if Py.is_digit h1 && Py.is_digit h2 && Ascii.eqb c1 ":"
         && Py.is_digit m1 && Py.is_digit m2 && Ascii.eqb c2 ":"
         && Py.is_digit s1 && Py.is_digit s2 && Ascii.eqb c3 ","
      then
        let (d, r') := span_digits r in
        match d, r' with
        | String _ _, String w (String "-" _) =>
            if Py.is_space w then
              Some (String h1 (String h2 (String ":" (String m1 (String m2
                     (String ":" (String s1 (String s2 (String "," d)))))))))
            else None
        | _, _ => None
        end
      else None
  | _ => None
  end.

(** [re.search] of that pattern: the leftmost match, [group(0)]. *)
Fixpoint start_regexp (line : string) : option string :=
  match start_regexp_here line with
  | Some g => Some g
  | None =>
      match line with
      | String _ line' => start_regexp line'
      | EmptyString => None
      end
  end.

(** [any(x in s for x in xs)] *)
Definition any_in (xs : list string) (s : string) : bool :=
  existsb (fun x => Py.contains x s) xs.

(** [markers[k]] *)
Definition marker (markers : list string) (k : nat) : result string :=
  match nth_error markers k with
  | Some m => Ok m
  | None => Raise IndexError
  end.

Definition chapter_count (counter : Z) : string :=
  if counter <? 10 then "0" ++ Py.str counter else Py.str counter.

(** The chain of [if]/[elif] that names a recognized line: the chapter
    type and the counter after it. *)
Definition classify (markers : list string) (next : string) (counter : Z)
  : result (string * Z) :=
  m0 ← marker markers 0;
  prologue ← (if Py.contains m0 next then Ok true
              else m1 ← marker markers 1; Ok (Py.contains m1 next));
  if prologue : bool then Ok (Py.title m0, counter)
  else
    m2 ← marker markers 2;
    if Py.contains m2 next then
      Ok (Py.title m2 ++ " " ++ chapter_count counter, counter + 1)
    else
      m3 ← marker markers 3;
      if Py.contains m3 next then Ok (Py.title m2, counter)
      else Ok (EmptyString, counter).

(** The test of the outer [if], apart from "not the end of the list". *)
Definition candidate (excluded_phrases markers : list string) (next : string) : bool :=
  negb (any_in excluded_phrases next) && any_in markers next.

(** The first loop: [line] is [srt_content[i]] and [next] is
    [srt_content[i+1]]; the last line has no [next] and is passed over. *)
Fixpoint scan (excluded_phrases markers : list string) (srt_content : list string)
    (timecodes : list timecode) (counter : Z) : result (list timecode) :=
  match srt_content with
  | line :: ((next :: _) as rest) =>
      if candidate excluded_phrases markers next then
        match start_regexp line with
        | Some g =>
            let start := Py.replace "," "." g in
            r ← classify markers next counter;
            let time_dict :=
              if (List.length timecodes =? 0)%nat
              then {| start := Some "00:00:00"; chapter_type := Some (fst r); end_ := None |}
              else {| start := Some start; chapter_type := Some (fst r); end_ := None |} in
            scan excluded_phrases markers rest (timecodes ++ [time_dict])%list (snd r)
        | None => scan excluded_phrases markers rest timecodes counter
        end
      else scan excluded_phrases markers rest timecodes counter
  | _ => Ok timecodes
  end.

(** The second loop: every dictionary but the last gets the key ['end']. *)
Fixpoint add_ends (timecodes : list timecode) : result (list timecode) :=
  match timecodes with
  | d :: ((d' :: _) as rest) =>
      s ← getitem (start d');
      e ← convert_time s;
      rest' ← add_ends rest;
      Ok (set_end d e :: rest')
  | _ => Ok timecodes
  end.

(** [excluded_phrases] and [markers] are what [get_language_features]
    returns for the language; the tables themselves are not part of this
    file and are parameters. *)
Definition parse_timecodes (srt_content : list string)
    (excluded_phrases markers : list string) : result (list timecode) :=
  match excluded_phrases, markers with
  | [], _ | _, [] => Exit 13
  | _, _ =>
      timecodes ← scan excluded_phrases markers srt_content [] 1;
      timecodes ← add_ends timecodes;
      match timecodes with
      | [] => Exit 8
      | _ => Ok timecodes
      end
  end.

(** ** [apply_chapters], its first statement *)

Fixpoint set_last_end (timecodes : list timecode) (e : string) : list timecode :=
  match timecodes with
  | [] => []
  | [d] => [set_end d e]
  | d :: ds => d :: set_last_end ds e
  end.

(** [get_total_duration] runs ffprobe, an external program, and makes a
    float of its output. A [probe] is what running it on the audiobook
    gives: the program is not found, or it prints an output, which
    [float] reads as a number or refuses. *)
Inductive probe : Type :=
| ProbeMissing
| ProbeOutput (value : option pyfloat).

Definition get_total_duration (input_file : probe) : result pyfloat :=
  match input_file with
  | ProbeMissing => Raise FileNotFoundError
  | ProbeOutput None => Raise ValueError
  | ProbeOutput (Some x) => Ok x
  end.

(** [timecodes[-1]['end'] =
    format_timestamp_from_float(get_total_duration(audiobook_path)).replace(',', '.')]:
    the right-hand side is evaluated first, then [timecodes[-1]].
    [duration] is the probe of the audiobook. *)
Definition apply_chapters_end (timecodes : list timecode) (duration : probe)
  : result (list timecode) :=
  total ← get_total_duration duration;
  text ← format_timestamp_from_float total;
  match timecodes with
  | [] => Raise IndexError
  | _ => Ok (set_last_end timecodes (Py.replace "," "." text))
  end.

(** ** The cue sidecar *)

Definition TAB : string := String "009" EmptyString.
Definition LF : string := String "010" EmptyString.
Definition QUOTE : string := String "034" EmptyString.

(** A [pathlib.Path]: its text, which names the file, and its [stem]. *)
Record Path : Type := mk_Path {
  path_str : string;
  stem : string
}.

(** *** [write_cue_file] *)

(** The three lines that [fp.writelines] gets for track [i]. *)
Definition track_block (i : nat) (ct st : string) : list string :=
  [ "TRACK " ++ Py.str (Z.of_nat i) ++ " AUDIO" ++ LF;
    "  TITLE" ++ TAB ++ QUOTE ++ ct ++ QUOTE ++ LF;
    "  START" ++ TAB ++ st ++ LF ].

Definition end_chunk (en : string) : string :=
  "  END" ++ TAB ++ TAB ++ en ++ LF.

(** The texts handed to [fp.write] and [fp.writelines] for the tracks from
    number [i] on, in order, and the [KeyError] that ends them early when
    a dictionary lacks a key that is read. [n] is [len(timecodes)]. *)
Fixpoint track_chunks (i n : nat) (timecodes : list timecode)
  : list string * option exn :=
  match timecodes with
  | [] => ([], None)
  | time :: rest =>
      match chapter_type time, start time with
      | Some ct, Some st =>
          if (i =? n)%nat then
            let (chunks, e) := track_chunks (S i) n rest in
            (List.app (track_block i ct st) chunks, e)
          else
            match end_ time with
            | Some en =>
                let (chunks, e) := track_chunks (S i) n rest in
                (List.app (track_block i ct st) (end_chunk en :: chunks), e)
            | None => (track_block i ct st, Some KeyError)
            end
      | _, _ => ([], Some KeyError)
      end
  end.

Definition cue_chunks (timecodes : list timecode) (cue_path : Path)
  : list string * option exn :=
  let (chunks, e) := track_chunks 1 (List.length timecodes) timecodes in
  (("FILE " ++ QUOTE ++ stem cue_path ++ ".mp3" ++ QUOTE ++ " MP3" ++ LF) :: chunks, e).

(** [fault] is the environment: [Some k] makes the write number [k]
    (from 0) raise [OSError], [None] lets every write succeed. The file is
    opened in mode ['x'], which raises [FileExistsError], an [OSError],
    when the path exists. On a POSIX system the text is written as it
    is. The result is the returned flag, or the exception that leaves the
    function, and the file system afterwards. *)
Definition write_cue_file (timecodes : list timecode) (cue_path : Path)
    (fault : option nat) (fs : gmap string string)
  : result bool * gmap string string :=
  let p := path_str cue_path in
  match fs !! p with
  | Some _ =>
      (* except OSError: the path exists, so it is unlinked *)
      (Ok false, delete p fs)
  | None =>
      let (chunks, e) := cue_chunks timecodes cue_path in
      let failed :=
        match fault with
        | Some k => (k <? List.length chunks)%nat
        | None => false
        end in
      if failed then
        (* except OSError: the file was created by [open], it is unlinked *)
        (Ok false, delete p (<[p := EmptyString]> fs))
      else
        let fs' := <[p := String.concat EmptyString chunks]> fs in
        match e with
        | Some x => (Raise x, fs')
        | None => (Ok true, fs')
        end
  end.

(** *** [read_cue_file] *)

(** Reading in text mode: [\r\n] and [\r] become [\n]. *)
Fixpoint universal_newlines (s : string) : string :=
  match s with
  | EmptyString => EmptyString
  | String c s' =>
      if Ascii.eqb c "013" then
        String "010"
          match s' with
          | String c' s'' =>
              if Ascii.eqb c' "010" then universal_newlines s''
              else universal_newlines s'
          | EmptyString => EmptyString
          end
      else String c (universal_newlines s')
  end.

(** [fp.readlines()]: every line keeps its line feed. *)
Fixpoint readlines (s : string) : list string :=
  match s with
  | EmptyString => []
  | String c s' =>
      if Ascii.eqb c "010" then String c EmptyString :: readlines s'
      else match readlines s' with
           | l :: ls => String c l :: ls
           | [] => [String c EmptyString]
           end
  end.

Fixpoint lstrip_lf (s : string) : string :=
  match s with
  | String c s' => if Ascii.eqb c "010" then lstrip_lf s' else s
  | EmptyString => EmptyString
  end.

Fixpoint rstrip_lf (s : string) : string :=
  match s with
  | EmptyString => EmptyString
  | String c s' =>
      match rstrip_lf s' with
      | EmptyString => if Ascii.eqb c "010" then EmptyString else String c EmptyString
      | r => String c r
      end
  end.

(** [l.strip('\n')] *)
Definition strip_lf (s : string) : string := rstrip_lf (lstrip_lf s).

(** What a run of [.] can cover: the text up to the next line feed. *)
Fixpoint dot_run (s : string) : string :=
  match s with
  | String c s' => if Ascii.eqb c "010" then EmptyString else String c (dot_run s')
  | EmptyString => EmptyString
  end.

Fixpoint drop (n : nat) (s : string) : string :=
  match n, s with
  | S n', String _ s' => drop n' s'
  | _, _ => s
  end.

(** The text before the last double quote of [s], if [s] has one. *)
Fixpoint upto_last_quote (s : string) : option string :=
  match s with
  | EmptyString => None
  | String c s' =>
      match upto_last_quote s' with
      | Some g => Some (String c g)
      | None => if Ascii.eqb c "034" then Some EmptyString else None
      end
  end.

(** [re.search(p, s)]: the pattern is tried at every position from the
    left, [here] gives group 1 of a match at the head. *)
Fixpoint re_search (here : string -> option string) (s : string) : option string :=
  match here s with
  | Some g => Some g
  | None =>
      match s with
      | String _ s' => re_search here s'
      | EmptyString => None
      end
  end.

(** [TITLE\t], a double quote, a greedy group of any characters, a double
    quote: the group ends at the last double quote of the line. *)
Definition title_here (s : string) : option string :=
  if Py.startswith ("TITLE" ++ TAB ++ QUOTE) s
  then upto_last_quote (dot_run (drop 7 s))
  else None.

(** [START\t] and a group of one or more characters *)
Definition start_here (s : string) : option string :=
  if Py.startswith ("START" ++ TAB) s then
    match dot_run (drop 6 s) with
    | EmptyString => None
    | g => Some g
    end
  else None.

Fixpoint span_tabs (s : string) : nat * string :=
  match s with
  | String c s' =>
      if Ascii.eqb c "009" then let (n, r) := span_tabs s' in (S n, r)
      else (O, s)
  | EmptyString => (O, EmptyString)
  end.

(** [END], one or more tabs, and a group of one or more characters: the
    tabs are taken greedily; when nothing that [.] can
    cover follows them, the last of two or more tabs is given back to the
    group. *)
Definition end_here (s : string) : option string :=
  if Py.startswith ("END" ++ TAB) s then
    let (n, after) := span_tabs (drop 3 s) in
    match dot_run after with
    | EmptyString => if (2 <=? n)%nat then Some TAB else None
    | g => Some g
    end
  else None.

(** [re.search(p, line)[1]]: subscripting the [None] of a failed search
    raises [TypeError]. *)
Definition group1 (here : string -> option string) (line : string) : result string :=
  match re_search here line with
  | Some g => Ok g
  | None => Raise TypeError
  end.

(** The state of the loop. The list [timecodes] of the source is
    [done ++ repeat time_dict aliases]: the branch [elif line == content[-1]]
    appends [time_dict] without replacing it, so the list then holds the
    very dictionary that later lines keep updating. *)
Record reader : Type := mk_reader {
  done : list timecode;
  aliases : nat;
  time_dict : timecode
}.

Definition reader_timecodes (r : reader) : list timecode :=
  (done r ++ repeat (time_dict r) (aliases r))%list.

(** One turn of the loop on [line], which is [content[i+1]]; [n] is
    [len(content)] and [final] is [content[-1]]. Nothing in the [try]
    raises [ValueError] or [IndexError], so its handler is never entered;
    a [TypeError] leaves the function. *)
Definition read_line (n : nat) (final : string) (i : nat) (line : string)
    (r : reader) : result reader :=
  d1 ← (if Py.contains "TITLE" line
        then g ← group1 title_here line; Ok (set_chapter_type (time_dict r) g)
        else Ok (time_dict r));
  d2 ← (if Py.contains "START" line
        then g ← group1 start_here line; Ok (set_start d1 g)
        else Ok d1);
  d3 ← (if Py.contains "END" line && negb (i =? n - 1)%nat
        then g ← group1 end_here line; Ok (set_end d2 g)
        else Ok d2);
  if Py.contains "TRACK" line && nonempty_dict d3 then
    Ok {| done := (done r ++ repeat d3 (S (aliases r)))%list;
          aliases := 0;
          time_dict := empty_dict |}
  else if String.eqb line final && nonempty_dict d3 then
    Ok {| done := done r; aliases := S (aliases r); time_dict := d3 |}
  else
    Ok {| done := done r; aliases := aliases r; time_dict := d3 |}.

Fixpoint read_lines (n : nat) (final : string) (i : nat) (lines : list string)
    (r : reader) : result reader :=
  match lines with
  | [] => Ok r
  | line :: rest =>
      r' ← read_line n final i line r;
      read_lines n final (S i) rest r'
  end.

(** The loop over [content[1:]] and the final test; [Ok None] is the
    returned [None]. *)
Definition read_cue_content (content : list string) : result (option (list timecode)) :=
  r ← read_lines (List.length content) (List.last content EmptyString) 0
        (List.tl content)
        {| done := []; aliases := 0; time_dict := empty_dict |};
  match reader_timecodes r with
  | [] => Ok None
  | timecodes => Ok (Some timecodes)
  end.

Definition read_cue_file (cue_path : Path) (fs : gmap string string)
  : result (option (list timecode)) :=
  match fs !! path_str cue_path with
  | None => Raise FileNotFoundError
  | Some text =>
      read_cue_content (List.map strip_lf (readlines (universal_newlines text)))
  end.

(** ** Vocabulary of the properties *)

(** *** Malformed sidecar lines *)

(** A line that holds [TITLE], [START] or [END] and on which the search
    for that field finds nothing. *)
Definition no_match (here : string -> option string) (line : string) : bool :=
  match re_search here line with
  | Some _ => false
  | None => true
  end.

Definition malformed (line : string) : bool :=
  (Py.contains "TITLE" line && no_match title_here line)
  || (Py.contains "START" line && no_match start_here line)
  || (Py.contains "END" line && no_match end_here line).

(** The text of a file with the given lines, each ended by a line feed. *)
Definition text_of_lines (lines : list string) : string :=
  String.concat EmptyString (List.map (fun l => l ++ LF) lines).

Definition cue_book : Path := {| path_str := "/books/book.cue"; stem := "book" |}.

(** A file system that holds the sidecar of [cue_book] and nothing else. *)
Definition sidecar_fs (lines : list string) : gmap string string :=
  {[ path_str cue_book := text_of_lines lines ]}.

(** A sidecar edited by hand: the title line lost its tab and quotes. *)
Definition malformed_sidecar : list string :=
  [ "FILE " ++ QUOTE ++ "book.mp3" ++ QUOTE ++ " MP3";
    "TRACK 1 AUDIO";
    "  TITLE Chapter 01";
    "  START" ++ TAB ++ "00:00:00" ].

(** *** Timestamps as durations *)

(** What a key of a dictionary denotes: the key is present and
    [parse_timestamp] reads its text as the duration [td]. *)
Definition reads_as (v : option string) (td : timedelta) : Prop :=
  exists t, v = Some t /\ parse_timestamp t = Ok td.

(** A text [HH:MM:SS.mmm]: two digits for each of the hours, the minutes
    (at most 59) and the seconds (at most 59), and three digits for the
    milliseconds. The hours are any two digits. *)
Definition two_digits (a b : ascii) : Z := 10 * Py.digit_val a + Py.digit_val b.

Definition hms_text (t : string) : bool :=
  match t with
  | String h1 (String h2 (String c1 (String m1 (String m2 (String c2
      (String s1 (String s2 (String c3 (String f1 (String f2 (String f3
        EmptyString))))))))))) =>
      Py.is_digit h1 && Py.is_digit h2 && Ascii.eqb c1 ":"
      && Py.is_digit m1 && Py.is_digit m2 && Ascii.eqb c2 ":"
      && Py.is_digit s1 && Py.is_digit s2 && Ascii.eqb c3 "."
      && Py.is_digit f1 && Py.is_digit f2 && Py.is_digit f3
      && (two_digits m1 m2 <=? 59) && (two_digits s1 s2 <=? 59)
  | _ => false
  end.

(** *** Sample transcripts and tables *)

(** A transcript in which two recognized lines carry the same start. *)
Definition repeated_start_srt : list string :=
  [ "00:00:01,000 --> 00:00:03,000"; "chapter one";
    "00:10:00,000 --> 00:10:00,000"; "chapter";
    "00:10:00,000 --> 00:10:05,000"; "chapter two" ].

Definition repeated_start_timecodes : list timecode :=
  [ {| start := Some "00:00:00"; chapter_type := Some "Chapter 01";
       end_ := Some "00:9:59.000" |};
    {| start := Some "00:10:00.000"; chapter_type := Some "Chapter 02";
       end_ := Some "00:9:59.000" |};
    {| start := Some "00:10:00.000"; chapter_type := Some "Chapter 03";
       end_ := None |} ].

Definition en_excluded : list string := ["chapters"].
Definition en_markers : list string := ["prologue"; "preface"; "chapter"; "epilogue"].

(** *** The recognized lines and their labels *)

(** The recognized lines of a transcript, in order: for each line whose
    lookahead is a candidate and on which a start is found, that start
    (with its comma turned into a dot) and the lookahead line. A candidate
    without a start is not among them. *)
Fixpoint recognized (excluded_phrases markers : list string)
    (srt_content : list string) : list (string * string) :=
  match srt_content with
  | line :: ((next :: _) as rest) =>
      if candidate excluded_phrases markers next then
        match start_regexp line with
        | Some g =>
            (Py.replace "," "." g, next)
              :: recognized excluded_phrases markers rest
        | None => recognized excluded_phrases markers rest
        end
      else recognized excluded_phrases markers rest
  | _ => []
  end.

(** The lookahead line takes the chapter branch: it holds neither of the
    two prologue markers and holds the chapter marker. *)
Definition is_chapter_line (markers : list string) (next : string) : bool :=
  match nth_error markers 0, nth_error markers 1, nth_error markers 2 with
  | Some m0, Some m1, Some m2 =>
      negb (Py.contains m0 next) && negb (Py.contains m1 next)
      && Py.contains m2 next
  | _, _, _ => false
  end.

(** The dictionaries, among [timecodes], of the recognized lines that took
    the chapter branch; [hits] lists the recognized lines. *)
Definition chapter_entries (markers : list string)
    (hits : list (string * string)) (timecodes : list timecode) : list timecode :=
  List.map snd
    (List.filter (fun p => is_chapter_line markers (snd (fst p)))
       (List.combine hits timecodes)).

(** The label of chapter number [k]. *)
Definition chapter_label (m2 : string) (k : Z) : string :=
  Py.title m2 ++ " " ++ chapter_count k.

(** [n] consecutive integers from [from]. *)
Fixpoint Zseq (from : Z) (n : nat) : list Z :=
  match n with
  | O => []
  | S n' => from :: Zseq (from + 1) n'
  end.

(** What the first loop appends for the recognized lines [hits], the
    counter being [c]; [first] tells that the list is still empty. *)
Fixpoint emitted (markers : list string) (first : bool) (c : Z)
    (hits : list (string * string)) (new : list timecode) : Prop :=
  match hits, new with
  | [], [] => True
  | (g, next) :: hits', d :: new' =>
      exists lbl c',
        classify markers next c = Ok (lbl, c')
        /\ d = {| start := Some (if first then "00:00:00" else g);
                  chapter_type := Some lbl;
                  end_ := None |}
        /\ emitted markers false c' hits' new'
  | _, _ => False
  end.

(** A transcript with three chapters and an epilogue; the candidate
    ["chapter lost"] follows a line without a timestamp. *)
Definition sample_srt : list string :=
  [ "00:00:01,000 --> 00:00:03,000"; "chapter One begins";
    "no time here"; "chapter lost";
    "00:10:00,000 --> 00:10:05,000"; "chapter Two starts";
    "00:20:07,000 --> 00:20:15,000"; "chapter Three";
    "01:30:00,000 --> 01:30:02,000"; "the epilogue" ].

Definition sample_timecodes : list timecode :=
  [ {| start := Some "00:00:00"; chapter_type := Some "Chapter 01";
       end_ := Some "00:9:59.000" |};
    {| start := Some "00:10:00.000"; chapter_type := Some "Chapter 02";
       end_ := Some "00:20:06.000" |};
    {| start := Some "00:20:07.000"; chapter_type := Some "Chapter 03";
       end_ := Some "01:29:59.000" |};
    {| start := Some "01:30:00.000"; chapter_type := Some "Chapter";
       end_ := None |} ].

(** A transcript of eleven chapters, the third candidate of which
    follows a line without a timestamp, and what [parse_timecodes]
    returns for it. *)
Definition eleven_srt : list string :=
  [ "00:00:01,000 --> 00:00:03,000"; "chapter"; "no time here"; "chapter" ]
  ++ List.concat
       (List.repeat ["00:10:00,000 --> 00:10:05,000"; "a chapter"] 10).

Definition eleven_timecodes : list timecode :=
  match parse_timecodes eleven_srt en_excluded en_markers with
  | Ok timecodes => timecodes
  | _ => []
  end.

(** *** Digits and fields *)

(** The ten digits. *)
Definition digit_chars : list ascii :=
  ["0"; "1"; "2"; "3"; "4"; "5"; "6"; "7"; "8"; "9"]%char.

Definition char2 (a b : ascii) : string := String a (String b EmptyString).

Definition char3 (a b c : ascii) : string := String a (char2 b c).

(** A text [hh:mm:ss.frac] put together from its four fields. *)
Definition stamp (hh mm ss frac : string) : string :=
  hh ++ ":" ++ mm ++ ":" ++ ss ++ "." ++ frac.

(** The number that [%H], [%M] or [%S] reads from a field of one or two
    digits. *)
Definition field_of (txt : string) : option Z :=
  match txt with
  | String a EmptyString =>
      if Py.is_digit a then Some (Py.digit_val a) else None
  | String a (String b EmptyString) =>
      if Py.is_digit a && Py.is_digit b then Some (two_digits a b) else None
  | _ => None
  end.

(** The text that [convert_time] puts in place of a field [x] of value
    [v] that it decrements: the zero of [x] is put back when [x] begins
    with a zero and a digit, and only then. *)
Definition dec_field (x : string) (v : Z) : string :=
  if pattern_match x then "0" ++ Py.str (v - 1) else Py.str (v - 1).

Fixpoint all_digits (s : string) : bool :=
  match s with
  | EmptyString => true
  | String c s' => Py.is_digit c && all_digits s'
  end.

(** The numeral of a chapter label that stands for the number [k]:
    decimal digits that read as [k], two of them at least, and no zero in
    front of more than two. *)
Definition numeral_of (k : Z) (num : string) : Prop :=
  all_digits num = true
  /\ digits_val 0 num = k
  /\ (2 <= String.length num)%nat
  /\ ((2 < String.length num)%nat -> Py.startswith "0" num = false).

(** The label of chapter number [k]: the title-cased marker, a space
    and the numeral of [k]. *)
Definition chapter_numbered (m2 : string) (label : option string) (k : Z) : Prop :=
  exists num,
    label = Some (Py.title m2 ++ " " ++ num) /\ numeral_of k num.

(** The shape of a start that the detector extracts: two digits for each
    of the hours, minutes and seconds, and a fraction made of digits. *)
Definition stamp_text (t : string) : bool :=
  match t with
  | String a (String b (String c1 (String c (String d (String c2
      (String e (String f (String c3 frac)))))))) =>
      Py.is_digit a && Py.is_digit b && Ascii.eqb c1 ":"
      && Py.is_digit c && Py.is_digit d && Ascii.eqb c2 ":"
      && Py.is_digit e && Py.is_digit f && Ascii.eqb c3 "."
      && all_digits frac
  | _ => false
  end.

(** The character of the digit [k]. *)
Definition digit_of (k : Z) : ascii := ascii_of_nat (48 + Z.to_nat k).

(** The dictionaries of [sample_srt] as the first loop leaves them, and
    as they are once a total duration of 7200.5 seconds is known. *)
Definition sample_detected : list timecode :=
  [ {| start := Some "00:00:00"; chapter_type := Some "Chapter 01"; end_ := None |};
    {| start := Some "00:10:00.000"; chapter_type := Some "Chapter 02"; end_ := None |};
    {| start := Some "00:20:07.000"; chapter_type := Some "Chapter 03"; end_ := None |};
    {| start := Some "01:30:00.000"; chapter_type := Some "Chapter"; end_ := None |} ].

Definition sample_complete : list timecode :=
  [ {| start := Some "00:00:00"; chapter_type := Some "Chapter 01";
       end_ := Some "00:9:59.000" |};
    {| start := Some "00:10:00.000"; chapter_type := Some "Chapter 02";
       end_ := Some "00:20:06.000" |};
    {| start := Some "00:20:07.000"; chapter_type := Some "Chapter 03";
       end_ := Some "01:29:59.000" |};
    {| start := Some "01:30:00.000"; chapter_type := Some "Chapter";
       end_ := Some "02:00:00.500" |} ].

(** Two dictionaries with the same start and the same label. *)
Definition same_start_and_label (d d' : timecode) : Prop :=
  start d' = start d /\ chapter_type d' = chapter_type d.

(** *** Lists that the sidecar carries *)

(** A text without line feed and carriage return that holds none of the
    [banned] key words. *)
Definition clean (banned : list string) (s : string) : bool :=
  negb (Py.has_char "010" s) && negb (Py.has_char "013" s)
  && forallb (fun p => negb (Py.contains p s)) banned.

Definition label_ok (ct : string) : bool := clean ["TRACK"; "START"; "END"] ct.

Definition start_ok (st : string) : bool :=
  clean ["TRACK"; "TITLE"; "END"] st
  && match st with
     | String _ _ => true
     | EmptyString => false
     end.

Definition end_ok (en : string) : bool :=
  clean ["TRACK"; "TITLE"; "START"] en
  && match en with
     | String c _ => negb (Ascii.eqb c "009")
     | EmptyString => false
     end.

(** Every dictionary has a label and a start, and every one but the last
    an end, all of them texts that a sidecar line carries unharmed. *)
Fixpoint sidecar_safe (timecodes : list timecode) : bool :=
  match timecodes with
  | [] => true
  | d :: rest =>
      match chapter_type d, start d with
      | Some ct, Some st =>
          label_ok ct && start_ok st
          && match rest with
             | [] => true
             | _ => match end_ d with
                    | Some en => end_ok en
                    | None => false
                    end
             end
          && sidecar_safe rest
      | _, _ => false
      end
  end.

(** The start of the last dictionary. *)
Definition final_start (timecodes : list timecode) : option string :=
  List.last (List.map start timecodes) None.

Definition option_eqb (a b : option string) : bool :=
  match a, b with
  | Some x, Some y => String.eqb x y
  | None, None => true
  | _, _ => false
  end.

(** No dictionary before the last has the start of the last. *)
Fixpoint last_start_fresh (timecodes : list timecode) : bool :=
  match timecodes with
  | [] => true
  | d :: rest =>
      match rest with
      | [] => true
      | _ => negb (option_eqb (start d) (final_start rest))
             && last_start_fresh rest
      end
  end.

(** The list without the end of its last dictionary, which the sidecar
    does not hold. *)
Fixpoint erase_last_end (timecodes : list timecode) : list timecode :=
  match timecodes with
  | [] => []
  | d :: rest =>
      match rest with
      | [] => [ {| start := start d; chapter_type := chapter_type d; end_ := None |} ]
      | _ => d :: erase_last_end rest
      end
  end.

Definition track_line (i : nat) : string :=
  "TRACK " ++ Py.str (Z.of_nat i) ++ " AUDIO".

Definition title_line (ct : string) : string :=
  "  TITLE" ++ TAB ++ QUOTE ++ ct ++ QUOTE.

Definition start_line (st : string) : string := "  START" ++ TAB ++ st.

Definition end_line (en : string) : string := "  END" ++ TAB ++ TAB ++ en.

Definition text_or_empty (v : option string) : string :=
  match v with
  | Some x => x
  | None => EmptyString
  end.

(** The lines of the tracks of a list, without their line feeds; the
    last dictionary has no [END] line. *)
Fixpoint track_bodies (i : nat) (timecodes : list timecode) : list string :=
  match timecodes with
  | [] => []
  | d :: rest =>
      [ track_line i;
        title_line (text_or_empty (chapter_type d));
        start_line (text_or_empty (start d)) ]
      ++ match rest with
         | [] => []
         | _ => [end_line (text_or_empty (end_ d))]
         end
      ++ track_bodies (S i) rest
  end%list.

Definition header_line (cue_path : Path) : string :=
  "FILE " ++ QUOTE ++ stem cue_path ++ ".mp3" ++ QUOTE ++ " MP3".

Definition with_lf (b : string) : string := b ++ LF.

(** A text without line feed and carriage return. *)
Definition one_line (s : string) : bool :=
  negb (Py.has_char "010" s) && negb (Py.has_char "013" s).

(** *** The texts that the detector and the second loop produce *)

(** The characters of a timecode: the digits, the colon, the dot and the
    minus sign. *)
Definition timecode_char (c : ascii) : bool :=
  Py.is_digit c || Ascii.eqb c ":" || Ascii.eqb c "." || Ascii.eqb c "-".

Fixpoint timecode_chars (s : string) : bool :=
  match s with
  | EmptyString => true
  | String c s' => timecode_char c && timecode_chars s'
  end.

(** No upper-case letter follows another one. *)
Fixpoint no_upper_pair (s : string) : bool :=
  match s with
  | String a ((String b _) as s') =>
      negb (Py.is_upper a && Py.is_upper b) && no_upper_pair s'
  | _ => true
  end.

(** A dictionary of the first loop that the sidecar can carry. *)
Definition entry_ok (d : timecode) : Prop :=
  exists ct st,
    chapter_type d = Some ct /\ start d = Some st
    /\ label_ok ct = true /\ start_ok st = true.

Definition stamp_start (d : timecode) : Prop :=
  exists st, start d = Some st /\ stamp_text st = true.

(** * The rest of the script *)

(** The functions around the timecode engine, as far as they are
    functions of texts, lists and files. What goes to the console is not
    part of the embedding; a call of an external program is represented
    by its command line. *)

(** ** More Python text primitives *)

Module PyText.

(** [s.lower()] *)
Fixpoint lower (s : string) : string :=
  match s with
  | EmptyString => EmptyString
  | String c s' => String (Py.to_lower c) (lower s')
  end.

(** [s.strip()] *)
Definition strip (s : string) : string := Py.rstrip (Py.lstrip s).

(** [s.replace(c, '')] for a one-character [c] *)
Fixpoint remove_char (c : ascii) (s : string) : string :=
  match s with
  | EmptyString => EmptyString
  | String a s' =>
      if Ascii.eqb a c then remove_char c s' else String a (remove_char c s')
  end.

(** [s.count(c)] for a one-character [c] *)
Fixpoint count_char (c : ascii) (s : string) : nat :=
  match s with
  | EmptyString => O
  | String a s' => ((if Ascii.eqb a c then 1 else 0) + count_char c s')%nat
  end.

End PyText.

(** ** [verify_language] *)

(** [d[key]] for a dictionary given by its items. *)
Fixpoint dict_get (items : list (string * string)) (key : string) : option string :=
  match items with
  | [] => None
  | (k, v) :: rest => if String.eqb k key then Some v else dict_get rest key
  end.

(** [model_languages] maps the names of the languages to their codes; the
    table is not part of this file and is a parameter. *)
Definition verify_language (model_languages : list (string * string))
    (language : string) : result string :=
  let by_code :=
    existsb (fun kv => String.eqb (snd kv) (PyText.lower language))
      model_languages in
  let by_name :=
    if by_code then None else dict_get model_languages (Py.title language) in
  match language with
  | EmptyString => Exit 1
  | _ =>
      if by_code then Ok (PyText.lower language)
      else match by_name with
           | Some code => Ok code
           | None => Exit 2
           end
  end.

(** ** [parse_config] *)

(** [l.strip("\n").replace("'", "").split('=')] *)
Definition config_item (l : string) : list string :=
  Py.split "=" (PyText.remove_char "'" (strip_lf l)).

(** The dictionary comprehension: every item has to unpack into a key
    and a value, a later key replaces an earlier one. *)
Fixpoint config_dict (items : list (list string)) (acc : gmap string string)
  : result (gmap string string) :=
  match items with
  | [] => Ok acc
  | [k; v] :: rest => config_dict rest (<[k := v]> acc)
  | _ :: _ => Raise ValueError
  end.

Definition config_lines (lines : list string) : list string :=
  List.filter (fun l => negb (Py.has_char "#" l)) lines.

Definition parse_config_lines (lines : list string) : result (gmap string string) :=
  config_dict (List.map config_item (config_lines lines)) ∅.

(** [config_path] is the text of [Path.cwd().joinpath('defaults.toml')]. *)
Definition parse_config (config_path : string) (fs : gmap string string)
  : result (gmap string string) :=
  match fs !! config_path with
  | Some text => parse_config_lines (readlines (universal_newlines text))
  | None => Ok ∅
  end.

(** ** [print_table] *)

(** [len(item.values())] *)
Definition has_key (v : option string) : nat :=
  match v with
  | Some _ => 1%nat
  | None => 0%nat
  end.

Definition dict_len (d : timecode) : nat :=
  (has_key (start d) + has_key (chapter_type d) + has_key (end_ d))%nat.

(** The lengths of the rows once ['EOF'] is appended to the last row that
    has not three cells. *)
Fixpoint row_lengths (list_dicts : list timecode) : list nat :=
  match list_dicts with
  | [] => []
  | [d] => [if (dict_len d =? 3)%nat then 3%nat else S (dict_len d)]
  | d :: rest => dict_len d :: row_lengths rest
  end.

(** The table goes to the console; what is left is whether the function
    returns: [merge_rows[-1]] needs a row and [row[2]] three cells. *)
Definition print_table (list_dicts : list timecode) : result unit :=
  match list_dicts with
  | [] => Raise IndexError
  | _ =>
      if forallb (fun n => (3 <=? n)%nat) (row_lengths list_dicts)
      then Ok tt
      else Raise IndexError
  end.

(** ** [extract_metadata] *)

Definition metadata_keys : list string :=
  ["title"; "genre"; "album_artist"; "artist"; "album"; "year"].

Fixpoint metadata_of_lines (meta_lines : list string)
    (meta_dict : gmap string string) : gmap string string :=
  match meta_lines with
  | [] => meta_dict
  | line :: rest =>
      match Py.split "=" line with
      | [k; v] =>
          let key := strip_lf k in
          let value := strip_lf v in
          if existsb (String.eqb key) metadata_keys
          then metadata_of_lines rest (<[key := value]> meta_dict)
          else metadata_of_lines rest meta_dict
      | _ => metadata_of_lines rest meta_dict
      end
  end.

(** [fs] is the file system after ffmpeg was run; [metadata_file] is the
    text of [audiobook_path.parent.joinpath('metadata.txt')]. The test
    [path_exists] raises when the file is not there. *)
Definition extract_metadata (metadata_file : string) (fs : gmap string string)
  : result (gmap string string) * gmap string string :=
  match fs !! metadata_file with
  | None => (Raise FileNotFoundError, fs)
  | Some text =>
      let meta_dict :=
        if (10 <? String.length text)%nat
        then metadata_of_lines (readlines (universal_newlines text)) ∅
        else ∅ in
      (Ok meta_dict, delete metadata_file fs)
  end.

(** ** [apply_chapters] *)

(** The values of the metadata dictionary: [None], a text or a path. *)
Inductive pyval : Type :=
| PyNone
| PyStr (s : string)
| PyPath (p : string).

(** [f"{v}"] *)
Definition py_format (v : pyval) : string :=
  match v with
  | PyNone => "None"
  | PyStr s => s
  | PyPath p => p
  end.

Definition metadata_line (metadata : gmap string pyval) (key label : string)
  : list string :=
  match metadata !! key with
  | Some v => [label ++ "=" ++ py_format v ++ LF]
  | None => []
  end.

Definition artist_lines (metadata : gmap string pyval) : list string :=
  match metadata !! "album_artist" with
  | Some v => ["album_artist=" ++ py_format v ++ LF;
               "artist=" ++ py_format v ++ LF]
  | None => []
  end.

(** The lines written before the chapters. *)
Definition ffmetadata_header (metadata : gmap string pyval) : list string :=
  List.concat
    [ [";FFMETADATA1" ++ LF];
      artist_lines metadata;
      metadata_line metadata "genre" "genre";
      metadata_line metadata "album" "album";
      metadata_line metadata "date" "date";
      metadata_line metadata "comment" "comment";
      metadata_line metadata "description" "description";
      metadata_line metadata "narrator" "composer" ].

Section ApplyChapters.

(** [float_text x] is the text that an f-string gives for the double [x];
    the formatting of floats is outside the embedding. [ffmpeg] is the
    global of that name. *)
Variable float_text : Q -> string.
Variable ffmpeg : string.

(** The five lines of a chapter and the blank line after them; the
    values are looked up and parsed in the order of the source. *)
Definition chapter_block (times : timecode) : result (list string) :=
  s ← getitem (start times);
  ts ← parse_timestamp s;
  e ← getitem (end_ times);
  te ← parse_timestamp e;
  ct ← getitem (chapter_type times);
  Ok [ "[CHAPTER]" ++ LF;
       "TIMEBASE=1/1000" ++ LF;
       "START=" ++ float_text (double_round (total_seconds ts * inject_Z 1000)) ++ LF;
       "END=" ++ float_text (double_round (total_seconds te * inject_Z 1000)) ++ LF;
       "TITLE=" ++ ct ++ LF;
       LF ].

(** What is written for the chapters, and the exception that ends the
    writing early. *)
Fixpoint chapter_chunks (timecodes : list timecode)
  : list string * option exn :=
  match timecodes with
  | [] => ([], None)
  | times :: rest =>
      match chapter_block times with
      | Ok block =>
          let (chunks, e) := chapter_chunks rest in
          (List.app block chunks, e)
      | Raise x => ([], Some x)
      | Exit _ => ([], None)
      end
  end.

Definition ffmpeg_command (audiobook metadata_path : string) : list string :=
  [ffmpeg; "-y"; "-hide_banner"; "-loglevel"; "info"; "-i"; audiobook;
   "-i"; metadata_path].

Definition cover_options (cover_art : string) : list string :=
  ["-i"; cover_art; "-map_metadata"; "1"; "-map"; "0"; "-map"; "2";
   "-c"; "copy"; "-id3v2_version"; "3"; "-metadata:s:v";
   "comment=" ++ QUOTE ++ "Cover (front)" ++ QUOTE].

(** [audiobook], [metadata_path] and [file_path] are the texts of the
    path of the audiobook, of the [FFMETADATAFILE] beside it and of the
    output file; [duration] is the probe of the audiobook. The
    result is the command line handed to [subprocess.run], [None] when
    the function returns before, or the exception that leaves it; the
    metadata file is written before the command is put together. With no
    cover art the two options of [stream] are unpacked into the arguments
    of [command.extend], a call with two arguments, which raises
    [TypeError]. [cover_art] is a path, as [main] passes it, and the
    dictionaries of [timecodes] are distinct objects. *)
Definition apply_chapters (audiobook metadata_path file_path : string)
    (timecodes : list timecode) (metadata : gmap string pyval)
    (cover_art : option string) (duration : probe) (fs : gmap string string)
  : result (option (list string)) * gmap string string :=
  match apply_chapters_end timecodes duration with
  | Raise x => (Raise x, fs)
  | Exit c => (Exit c, fs)
  | Ok timecodes' =>
      let (chunks, e) := chapter_chunks timecodes' in
      let fs' :=
        <[metadata_path :=
            String.concat EmptyString
              (List.app (ffmetadata_header metadata) chunks)]> fs in
      match e with
      | Some x => (Raise x, fs')
      | None =>
          match fs' !! metadata_path with
          | None => (Ok None, fs')
          | Some _ =>
              match cover_art with
              | Some c =>
                  (Ok (Some (List.app (ffmpeg_command audiobook metadata_path)
                               (List.app (cover_options c) [file_path]))),
                   fs')
              | None => (Raise TypeError, fs')
              end
          end
      end
  end.

End ApplyChapters.

(** ** [generate_timecodes], the transcript it writes *)

(** A segment of the transcription: its start and end in seconds, and
    its text. *)
Record segment : Type := mk_segment {
  seg_start : pyfloat;
  seg_end : pyfloat;
  seg_text : string
}.

(** The four texts written for the segment number [count] (from 0); both
    times are formatted before anything is written for the segment. *)
Definition srt_block (count : nat) (sg : segment) : result (list string) :=
  start_timestamp ← format_timestamp_from_float (seg_start sg);
  end_timestamp ← format_timestamp_from_float (seg_end sg);
  Ok [ Py.str (Z.of_nat count + 1) ++ LF;
       start_timestamp ++ " --> " ++ end_timestamp ++ LF;
       PyText.strip (seg_text sg) ++ LF;
       LF ].

(** What is written for the segments, and the exception that ends the
    writing early. *)
Fixpoint srt_chunks (count : nat) (segments : list segment)
  : list string * option exn :=
  match segments with
  | [] => ([], None)
  | sg :: rest =>
      match srt_block count sg with
      | Ok block =>
          let (chunks, e) := srt_chunks (S count) rest in
          (List.app block chunks, e)
      | Raise x => ([], Some x)
      | Exit _ => ([], None)
      end
  end.

(** The content of the transcript file once the loop is through. *)
Definition srt_text (segments : list segment) : result string :=
  match srt_chunks 0 segments with
  | (chunks, None) => Ok (String.concat EmptyString chunks)
  | (_, Some x) => Raise x
  end.

(** ** [main], from the reading of the sidecar to the call of
    [apply_chapters] *)

(** [cue_file] is the path of the sidecar, if one is to be used;
    [timecodes_file] is the text of the path of the transcript. The
    result is the list handed to [apply_chapters] and the file system at
    that point. *)
Definition main_timecodes (cue_file : option Path) (timecodes_file : string)
    (excluded_phrases markers : list string) (fault : option nat)
    (fs : gmap string string)
  : result (list timecode) * gmap string string :=
  let from_cue : result (option (list timecode)) :=
    match cue_file with
    | Some c =>
        match fs !! path_str c with
        | Some _ => read_cue_file c fs
        | None => Ok None
        end
    | None => Ok None
    end in
  match from_cue with
  | Raise x => (Raise x, fs)
  | Exit c => (Exit c, fs)
  | Ok read =>
      let parsed : result (list timecode) :=
        match read with
        | Some timecodes => Ok timecodes
        | None =>
            match fs !! timecodes_file with
            | None => Raise FileNotFoundError
            | Some text =>
                parse_timecodes (readlines (universal_newlines text))
                  excluded_phrases markers
            end
        end in
      match parsed with
      | Raise x => (Raise x, fs)
      | Exit c => (Exit c, fs)
      | Ok timecodes =>
          match print_table timecodes with
          | Raise x => (Raise x, fs)
          | Exit c => (Exit c, fs)
          | Ok _ =>
              match cue_file with
              | Some c =>
                  match fs !! path_str c with
                  | None =>
                      match write_cue_file timecodes c fault fs with
                      | (Raise x, fs') => (Raise x, fs')
                      | (Exit n, fs') => (Exit n, fs')
                      | (Ok _, fs') => (Ok timecodes, fs')
                      end
                  | Some _ => (Ok timecodes, fs)
                  end
              | None => (Ok timecodes, fs)
              end
          end
      end
  end.

(** ** [main], the metadata handed to [apply_chapters] *)

(** The truth value of a dictionary. *)
Definition dict_true (d : gmap string pyval) : bool :=
  negb (bool_decide (d = ∅)).

(** [parsed_metadata] is what [extract_metadata] returned and
    [in_metadata] what the command line gave; [parsed_metadata |=
    in_metadata] lets the values of [in_metadata] win. The chain of
    [if]/[elif] has no [else]. *)
Definition main_metadata (parsed_metadata in_metadata : gmap string pyval)
  : gmap string pyval :=
  if dict_true parsed_metadata && dict_true in_metadata
  then in_metadata ∪ parsed_metadata
  else if negb (dict_true in_metadata) && negb (dict_true parsed_metadata)
  then parsed_metadata
  else if dict_true in_metadata && negb (dict_true parsed_metadata)
  then in_metadata
  else parsed_metadata.

(** ** Vocabulary of the further properties *)

(** The keys of the metadata that [apply_chapters] reads. *)
Definition written_keys : list string :=
  ["album_artist"; "genre"; "album"; "date"; "comment"; "description";
   "narrator"].

(** A sidecar edited by hand: the [END] line of the first track lost its
    tabs. *)
Definition untabbed_end_sidecar : list string :=
  [ "FILE " ++ QUOTE ++ "book.mp3" ++ QUOTE ++ " MP3";
    "TRACK 1 AUDIO";
    "  TITLE" ++ TAB ++ QUOTE ++ "Chapter 01" ++ QUOTE;
    "  START" ++ TAB ++ "00:00:00";
    "  END 00:09:59.000";
    "TRACK 2 AUDIO";
    "  TITLE" ++ TAB ++ QUOTE ++ "Chapter 02" ++ QUOTE;
    "  START" ++ TAB ++ "00:10:00.000" ].

(** A table of two languages. *)
Definition sample_languages : list (string * string) :=
  [("English", "en-us"); ("German", "de")].

(** A configuration file with a comment, two settings and a blank line
    between them. *)
Definition sample_config : string :=
  "# defaults" ++ LF ++ "default_model='small'" ++ LF ++ LF
  ++ "cue_path=''" ++ LF.

(** The metadata that ffmpeg wrote for a book. *)
Definition sample_metadata : string :=
  ";FFMETADATA1" ++ LF ++ "title=A Book" ++ LF ++ "encoder=Lavf" ++ LF
  ++ "artist=An Author" ++ LF.

(** Every dictionary has a start and a label, and all but the last an
    end, which the last has not. *)
Fixpoint detector_keys (timecodes : list timecode) : bool :=
  match timecodes with
  | [] => true
  | d :: rest =>
      match start d, chapter_type d with
      | Some _, Some _ =>
          match rest, end_ d with
          | [], None => true
          | _ :: _, Some _ => detector_keys rest
          | _, _ => false
          end
      | _, _ => false
      end
  end.

(** *** The transcript and the segments behind it *)

(** The text of a formatted time, when there is one. *)
Definition stamp_of (x : pyfloat) : string :=
  match format_timestamp_from_float x with
  | Ok t => t
  | _ => EmptyString
  end.

(** The time is formatted: [format_timestamp_from_float] returns the
    text of a normalized [timedelta]. *)
Definition formatted (x : pyfloat) : Prop :=
  exists u,
    format_timestamp_from_float x = Ok (format_timedelta (timedelta_of_us u)).

(** Both times of the segment are formatted. *)
Definition written (sg : segment) : Prop :=
  formatted (seg_start sg) /\ formatted (seg_end sg).

(** The line of the times of a segment, without its line feed. *)
Definition timing_line (sg : segment) : string :=
  stamp_of (seg_start sg) ++ " --> " ++ stamp_of (seg_end sg).

(** The lines of the transcript, without their line feeds. *)
Fixpoint srt_bodies (count : nat) (segments : list segment) : list string :=
  match segments with
  | [] => []
  | sg :: rest =>
      Py.str (Z.of_nat count + 1) :: timing_line sg
        :: PyText.strip (seg_text sg) :: EmptyString
        :: srt_bodies (S count) rest
  end.

(** The line of the text of a segment, as the transcript holds it. *)
Definition text_line (sg : segment) : string :=
  PyText.strip (seg_text sg) ++ LF.

(** The text of the segment makes its start a chapter start: it holds a
    marker and no excluded phrase. *)
Definition heard (excluded_phrases markers : list string) (sg : segment) : bool :=
  candidate excluded_phrases markers (text_line sg).

(** The start of a segment as [parse_timecodes] stores it. *)
Definition segment_start (sg : segment) : string :=
  Py.replace "," "." (stamp_of (seg_start sg)).

(** A dictionary starts where a segment does: the start of the segment
    is formatted, and the dictionary holds that text with a dot for the
    comma. *)
Definition starts_at (d : timecode) (sg : segment) : Prop :=
  exists t,
    format_timestamp_from_float (seg_start sg) = Ok t
    /\ start d = Some (Py.replace "," "." t).

(** Three segments, the first and the third of which open a chapter. *)
Definition sample_segments : list segment :=
  [ {| seg_start := Finite 0; seg_end := Finite 2;
       seg_text := " chapter one " |};
    {| seg_start := Finite 2; seg_end := Finite 5;
       seg_text := " It was a dark night." |};
    {| seg_start := Finite (605 # 1); seg_end := Finite (607 # 1);
       seg_text := " chapter two" |} ].



(** * Properties *)

(** ** The documented borrow cases of [convert_time] *)

Example convert_time_borrow_hour :
  convert_time "01:00:00.000" = Ok "00:59:59.000".
Proof. reflexivity. Qed.

Example convert_time_borrow_minute :
  convert_time "02:03:00.000" = Ok "02:02:59.000".
Proof. reflexivity. Qed.

Example convert_time_small_second :
  convert_time "00:05:07.250" = Ok "00:05:06.250".
Proof. reflexivity. Qed.

(** The start of the first chapter has no fraction and is never handed to
    [convert_time], which would leave through [sys.exit(6)]. *)
Example convert_time_no_fraction : convert_time "00:00:00" = Exit 6.
Proof. reflexivity. Qed.

Example format_timestamp_3723_5 :
  format_timestamp_from_float (Finite (7447 # 2)) = Ok "01:02:03,500".
Proof. reflexivity. Qed.

(** [timedelta] refuses a number of seconds that comes to more than
    999999999 days, an infinity and a NaN, and so does
    [format_timestamp_from_float]. *)
Example format_timestamp_overflow :
  format_timestamp_from_float (Finite (inject_Z 100000000000000))
    = Raise OverflowError
  /\ format_timestamp_from_float (Infinity false) = Raise OverflowError
  /\ format_timestamp_from_float NaN = Raise ValueError.
Proof. repeat split. Qed.

(** The product of the fraction and a million is a float: for the double
    nearest to 0.0009995 it is 999.5, which is rounded to 1000
    microseconds. *)
Example timedelta_rounds_the_float_product :
  timedelta_of_seconds (Finite (2304690087709087 # 2305843009213693952))
  = Ok (timedelta_of_us 1000).
Proof. reflexivity. Qed.

(** ** Width of the decremented seconds, minutes and hours *)

(** C2. The claim asks that decrementing ["00:05:10.000"] gives
    ["00:05:09.000"], every field keeping its width. The branch for a
    seconds field without a leading zero renders the number as it is: the
    result is ["00:05:9.000"], its seconds field one digit wide. The same
    happens to the minutes and to the hours when they fall from 10 to 9,
    while the branches for a leading zero put the zero back. *)
Theorem convert_time_drops_leading_zero :
  convert_time "00:05:10.000" = Ok "00:05:9.000"
  /\ convert_time "00:10:00.000" = Ok "00:9:59.000"
  /\ convert_time "10:00:00.000" = Ok "9:59:59.000"
  /\ convert_time "00:05:09.000" = Ok "00:05:08.000".
Proof. repeat split; reflexivity. Qed.

(** C3. The claim asks that decrementing ["00:00:00.000"] fails. No branch
    tests for it: the hours branch computes [0 - 1], and the function
    returns the text ["0-1:59:59.000"], which [parse_timestamp] then
    refuses. *)
Theorem convert_time_zero_returns :
  convert_time "00:00:00.000" = Ok "0-1:59:59.000"
  /\ parse_timestamp "0-1:59:59.000" = Raise ValueError.
Proof. split; reflexivity. Qed.

(** ** The label of an epilogue *)

(** C4. A line whose lookahead holds only the epilogue marker is given
    the title-cased chapter marker, ["Chapter"], not ["Epilogue"]: the
    branch commented "Epilogue" reads [markers[2]]. *)
Theorem epilogue_is_labelled_chapter :
  parse_timecodes
    ["00:00:01,000 --> 00:00:03,000"; "the epilogue"]
    en_excluded en_markers
  = Ok [ {| start := Some "00:00:00";
            chapter_type := Some "Chapter";
            end_ := None |} ].
Proof. reflexivity. Qed.

(** ** Writing over an existing sidecar *)

(** C5. When the path exists, [open] in mode ['x'] raises and the handler
    returns [False]; but the handler also unlinks the path whenever it
    exists, so the file that was there before the call is removed. *)
Theorem write_cue_file_removes_existing :
  let cue_path := {| path_str := "/books/book.cue"; stem := "book" |} in
  let fs : gmap string string := {[ "/books/book.cue" := "FILE old" ]} in
  let timecodes :=
    [ {| start := Some "00:00:00"; chapter_type := Some "Chapter 01"; end_ := None |} ] in
  fst (write_cue_file timecodes cue_path None fs) = Ok false
  /\ snd (write_cue_file timecodes cue_path None fs) !! path_str cue_path = None.
Proof. split; reflexivity. Qed.

(** In general: whatever is to be written, and whether or not a write
    would fail, an existing sidecar is deleted. *)
Lemma write_cue_file_existing timecodes cue_path fault
    (fs : gmap string string) old :
  fs !! path_str cue_path = Some old ->
  write_cue_file timecodes cue_path fault fs
  = (Ok false, delete (path_str cue_path) fs).
Proof. intros H. unfold write_cue_file. now rewrite H. Qed.

(** ** A sidecar line that does not have its shape *)

Lemma read_line_malformed n final i line r :
  malformed line = true -> i <> (n - 1)%nat ->
  read_line n final i line r = Raise TypeError.
Proof.
  intros Hm Hi. unfold malformed, no_match, group1 in *.
  apply Nat.eqb_neq in Hi. unfold read_line, group1. rewrite Hi. simpl.
  destruct (Py.contains "TITLE" line); simpl in *.
  - destruct (re_search title_here line); simpl in *; [|reflexivity].
    destruct (Py.contains "START" line); simpl in *.
    + destruct (re_search start_here line); simpl in *; [|reflexivity].
      destruct (Py.contains "END" line); simpl in *; [|discriminate].
      destruct (re_search end_here line); simpl in *; [discriminate|reflexivity].
    + destruct (Py.contains "END" line); simpl in *; [|discriminate].
      destruct (re_search end_here line); simpl in *; [discriminate|reflexivity].
  - destruct (Py.contains "START" line); simpl in *.
    + destruct (re_search start_here line); simpl in *; [|reflexivity].
      destruct (Py.contains "END" line); simpl in *; [|discriminate].
      destruct (re_search end_here line); simpl in *; [discriminate|reflexivity].
    + destruct (Py.contains "END" line); simpl in *; [|discriminate].
      destruct (re_search end_here line); simpl in *; [discriminate|reflexivity].
Qed.

(** A turn of the loop either goes on or raises [TypeError]: the handler
    that returns [None] is never reached. *)
Lemma read_line_outcome n final i line r :
  (exists r', read_line n final i line r = Ok r')
  \/ read_line n final i line r = Raise TypeError.
Proof.
  unfold read_line, group1.
  destruct (Py.contains "TITLE" line); simpl;
    [destruct (re_search title_here line); simpl; [|now right]|];
    (destruct (Py.contains "START" line); simpl;
     [destruct (re_search start_here line); simpl; [|now right]|]);
    (destruct (Py.contains "END" line && negb (i =? n - 1)%nat); simpl;
     [destruct (re_search end_here line); simpl; [|now right]|]);
    left;
    match goal with
    | |- context [if ?a then _ else if ?b then _ else _] =>
        destruct a; [|destruct b]; eexists; reflexivity
    end.
Qed.

Lemma read_lines_malformed n final lines : forall i r,
  (i + List.length lines <= n - 1)%nat ->
  existsb malformed lines = true ->
  read_lines n final i lines r = Raise TypeError.
Proof.
  induction lines as [|line rest IH]; intros i r Hlen Hex; simpl in *.
  - discriminate.
  - destruct (malformed line) eqn:Hm.
    + rewrite read_line_malformed by (trivial; lia). reflexivity.
    + simpl in Hex.
      destruct (read_line_outcome n final i line r) as [[r' ->] | ->];
        [|reflexivity].
      simpl. apply IH; [lia | exact Hex].
Qed.

(** Every sidecar with a line, after the first, that holds one of the
    three key words without the shape of its field makes the reader raise
    [TypeError]: it neither returns [None] nor a list. *)
Lemma read_cue_content_malformed content :
  existsb malformed (List.tl content) = true ->
  read_cue_content content = Raise TypeError.
Proof.
  intros H. unfold read_cue_content.
  rewrite read_lines_malformed; [reflexivity| |exact H].
  destruct content; simpl; lia.
Qed.

(** C9. The claim asks that a malformed field line makes the reader
    report the error and return a failure value, never ending in an
    unhandled exception. Here the title line has a space where the tab
    and the quotes belong: the search finds nothing, subscripting its
    [None] raises [TypeError], and the handler, which catches
    [ValueError] and [IndexError] only, lets it through. *)
Theorem read_cue_file_malformed_title_raises :
  read_cue_file cue_book (sidecar_fs malformed_sidecar) = Raise TypeError.
Proof. reflexivity. Qed.

(** ** Reading back what was written *)

(** C1. The claim asks that reading the written sidecar gives back a list
    of the same length. The reader closes the last record when
    [line == content[-1]], which compares texts, not positions: a [START]
    line equal to the last line of the file makes the record of an earlier
    track be appended once there and once more at the next [TRACK]. The
    detector and the second loop produce [repeated_start_timecodes], three
    chapters, from [repeated_start_srt]; the sidecar written from it is
    read back as four. *)
Theorem read_cue_file_duplicates_track :
  parse_timecodes repeated_start_srt en_excluded en_markers
    = Ok repeated_start_timecodes
  /\ fst (write_cue_file repeated_start_timecodes cue_book None ∅) = Ok true
  /\ read_cue_file cue_book
       (snd (write_cue_file repeated_start_timecodes cue_book None ∅))
     = Ok (Some
         [ {| start := Some "00:00:00"; chapter_type := Some "Chapter 01";
              end_ := Some "00:9:59.000" |};
           {| start := Some "00:10:00.000"; chapter_type := Some "Chapter 02";
              end_ := Some "00:9:59.000" |};
           {| start := Some "00:10:00.000"; chapter_type := Some "Chapter 02";
              end_ := Some "00:9:59.000" |};
           {| start := Some "00:10:00.000"; chapter_type := Some "Chapter 03";
              end_ := None |} ]).
Proof. repeat split; vm_compute; reflexivity. Qed.

(** ** Hours beyond 23 *)

(** C6. The claim asks that [parse_timestamp] accepts every text of the
    form [HH:MM:SS.mmm], the hours of 24 or more among them, and that
    formatting what it returns gives the text back, no whole day being
    lost. ["24:00:00.000"] is such a text, and [parse_timestamp] raises
    [ValueError] on it: [%H] reads an hour of the day. In the other
    direction a duration of 25 hours is formatted as one hour: the text
    is made of [td.seconds], which leaves the days of the [timedelta]
    out. The detector and [convert_time] do carry hours beyond 23: the
    end that [convert_time] makes of a start at 25 hours is a text that
    [parse_timestamp] refuses. *)
Theorem parse_timestamp_rejects_hour_24 :
  hms_text "24:00:00.000" = true
  /\ parse_timestamp "24:00:00.000" = Raise ValueError
  /\ ~ (exists td, parse_timestamp "24:00:00.000" = Ok td)
  /\ timedelta_of_seconds (Finite (inject_Z 90000))
     = Ok (timedelta_of_us 90000000000)
  /\ format_timestamp_from_float (Finite (inject_Z 90000))
     = Ok "01:00:00,000"
  /\ start_regexp "25:00:00,000 --> 25:00:04,000" = Some "25:00:00,000"
  /\ convert_time "25:00:00.000" = Ok "24:59:59.000"
  /\ parse_timestamp "24:59:59.000" = Raise ValueError.
Proof.
  split; [reflexivity|]. split; [reflexivity|]. split; [|repeat split].
  intros [td H]. discriminate H.
Qed.

(** ** Ends after finalization *)

(** C7. The claim asks that after finalization the end of the last
    boundary is the total duration of the recording. For a recording of
    one day or more it is not: with a total duration of 90000 seconds (25
    hours) the last chapter ends at ["01:00:00.000"], which reads as one
    hour. The statement that sets it is commented "add total duration as
    end timestamp for last chapter"; the text is made of [td.seconds],
    which leaves the days out. *)
Theorem last_end_wraps_at_one_day :
  let d := {| start := Some "00:00:00"; chapter_type := Some "Chapter 01";
              end_ := None |} in
  apply_chapters_end [d] (ProbeOutput (Some (Finite (inject_Z 90000))))
    = Ok [set_end d "01:00:00.000"]
  /\ reads_as (end_ (set_end d "01:00:00.000")) (timedelta_of_us 3600000000)
  /\ timedelta_of_seconds (Finite (inject_Z 90000))
     = Ok (timedelta_of_us 90000000000)
  /\ ~ reads_as (end_ (set_end d "01:00:00.000"))
        (timedelta_of_us 90000000000).
Proof.
  split; [reflexivity|]. split; [|split; [reflexivity|]].
  - exists "01:00:00.000". split; reflexivity.
  - intros (t & Ht & Hp). injection Ht as <-.
    vm_compute in Hp. discriminate Hp.
Qed.

(** The example of the claim does hold: a single boundary and a total of
    3723.5 seconds. *)
Example single_boundary_3723_5 d :
  apply_chapters_end [d] (ProbeOutput (Some (Finite (7447 # 2))))
  = Ok [set_end d "01:02:03.500"].
Proof. reflexivity. Qed.

(** The sample transcript, after the first loop and after the first
    statement of [apply_chapters] with a total of 7200.5 seconds. *)
Example sample_is_completed :
  scan en_excluded en_markers sample_srt [] 1 = Ok sample_detected
  /\ add_ends sample_detected = Ok sample_timecodes
  /\ apply_chapters_end sample_timecodes
       (ProbeOutput (Some (Finite (14401 # 2)))) = Ok sample_complete.
Proof. repeat split. Qed.

(** What [get_total_duration] and [timedelta] raise leaves the statement
    before the list is looked at. *)
Example apply_chapters_end_errors :
  apply_chapters_end [] ProbeMissing = Raise FileNotFoundError
  /\ apply_chapters_end [] (ProbeOutput None) = Raise ValueError
  /\ apply_chapters_end []
       (ProbeOutput (Some (Finite (inject_Z 100000000000000))))
     = Raise OverflowError
  /\ apply_chapters_end [] (ProbeOutput (Some (Finite 0))) = Raise IndexError.
Proof. repeat split. Qed.

(** Nor does the end of a chapter read as the next start less one second
    when that start lies within the first second of the recording: the
    end is then the text that [convert_time] makes of hours, minutes and
    seconds that are all zero (see C3), which reads as no duration. *)
Example end_before_the_first_second :
  parse_timecodes
    [ "00:00:00,000 --> 00:00:00,400"; "chapter one";
      "00:00:00,400 --> 00:00:05,000"; "chapter two" ]
    en_excluded en_markers
  = Ok [ {| start := Some "00:00:00"; chapter_type := Some "Chapter 01";
            end_ := Some "0-1:59:59.400" |};
         {| start := Some "00:00:00.400"; chapter_type := Some "Chapter 02";
            end_ := None |} ]
  /\ parse_timestamp "0-1:59:59.400" = Raise ValueError.
Proof. split; reflexivity. Qed.

(** ** The first loop of [parse_timecodes] *)

Section Detector.

Variables excluded_phrases markers : list string.

Lemma scan_cons line next rest acc c :
  scan excluded_phrases markers (line :: next :: rest) acc c =
  if candidate excluded_phrases markers next then
    match start_regexp line with
    | Some g =>
        r ← classify markers next c;
        scan excluded_phrases markers (next :: rest)
          (acc ++ [ if (List.length acc =? 0)%nat
                    then {| start := Some "00:00:00";
                            chapter_type := Some (fst r); end_ := None |}
                    else {| start := Some (Py.replace "," "." g);
                            chapter_type := Some (fst r); end_ := None |} ])%list
          (snd r)
    | None => scan excluded_phrases markers (next :: rest) acc c
    end
  else scan excluded_phrases markers (next :: rest) acc c.
Proof. reflexivity. Qed.

Lemma recognized_cons line next rest :
  recognized excluded_phrases markers (line :: next :: rest) =
  if candidate excluded_phrases markers next then
    match start_regexp line with
    | Some g => (Py.replace "," "." g, next)
                  :: recognized excluded_phrases markers (next :: rest)
    | None => recognized excluded_phrases markers (next :: rest)
    end
  else recognized excluded_phrases markers (next :: rest).
Proof. reflexivity. Qed.

(** A candidate without a start leaves the list and the counter as they
    are. *)
Lemma scan_skips_candidate line next rest acc c :
  start_regexp line = None ->
  scan excluded_phrases markers (line :: next :: rest) acc c
  = scan excluded_phrases markers (next :: rest) acc c.
Proof.
  intros H. rewrite scan_cons, H.
  now destruct (candidate excluded_phrases markers next).
Qed.

Lemma scan_emitted srt_content : forall acc c L,
  scan excluded_phrases markers srt_content acc c = Ok L ->
  exists new,
    L = (acc ++ new)%list
    /\ emitted markers (List.length acc =? 0)%nat c
         (recognized excluded_phrases markers srt_content) new.
Proof.
  induction srt_content as [|line rest IH]; intros acc c L H.
  - injection H as <-. exists []. now rewrite app_nil_r.
  - destruct rest as [|next rest].
    + injection H as <-. exists []. now rewrite app_nil_r.
    + rewrite scan_cons in H. rewrite recognized_cons.
      destruct (candidate excluded_phrases markers next); [|now apply IH].
      destruct (start_regexp line) as [g|]; [|now apply IH].
      destruct (classify markers next c) as [[lbl c']| |] eqn:Hc;
        try discriminate.
      cbn [mbind result_bind fst snd] in H.
      apply IH in H as (new & -> & Hnew).
      eexists (_ :: new). split.
      * rewrite <- app_assoc. reflexivity.
      * cbn [emitted]. exists lbl, c'. split; [exact Hc|]. split.
        -- now destruct (List.length acc =? 0)%nat.
        -- rewrite length_app in Hnew. cbn [List.length] in Hnew.
           now replace (List.length acc + 1 =? 0)%nat with false in Hnew
             by (symmetry; apply Nat.eqb_neq; lia).
Qed.

End Detector.

Lemma classify_chapter markers next c lbl c' :
  classify markers next c = Ok (lbl, c') ->
  if is_chapter_line markers next
  then exists m2, nth_error markers 2 = Some m2
                  /\ lbl = chapter_label m2 c /\ c' = c + 1
  else c' = c.
Proof.
  unfold classify, marker, is_chapter_line, chapter_label.
  destruct (nth_error markers 0) as [m0|]; [|discriminate].
  cbn [mbind result_bind].
  destruct (Py.contains m0 next); cbn [mbind result_bind negb andb].
  { destruct (nth_error markers 1), (nth_error markers 2); congruence. }
  destruct (nth_error markers 1) as [m1|]; [|discriminate].
  cbn [mbind result_bind].
  destruct (Py.contains m1 next); cbn [mbind result_bind negb andb].
  { destruct (nth_error markers 2); congruence. }
  destruct (nth_error markers 2) as [m2|]; [|discriminate].
  cbn [mbind result_bind].
  destruct (Py.contains m2 next).
  - intros [= <- <-]. eauto.
  - destruct (nth_error markers 3) as [m3|]; [|discriminate].
    cbn [mbind result_bind]. destruct (Py.contains m3 next); congruence.
Qed.

(** With the four markers of a language table the classification raises
    nothing. *)
Lemma classify_total markers next c :
  (4 <= List.length markers)%nat ->
  exists lbl c', classify markers next c = Ok (lbl, c').
Proof.
  intros H. destruct markers as [|m0 [|m1 [|m2 [|m3 ms]]]];
    cbn [List.length] in H; try lia.
  unfold classify, marker. cbn [nth_error mbind result_bind].
  destruct (Py.contains m0 next); cbn [mbind result_bind]; [eauto|].
  destruct (Py.contains m1 next); cbn [mbind result_bind]; [eauto|].
  destruct (Py.contains m2 next); [eauto|].
  destruct (Py.contains m3 next); eauto.
Qed.

Lemma scan_total excluded_phrases markers srt_content :
  (4 <= List.length markers)%nat ->
  forall acc c, exists L, scan excluded_phrases markers srt_content acc c = Ok L.
Proof.
  intros Hm. induction srt_content as [|line rest IH]; intros acc c.
  - now exists acc.
  - destruct rest as [|next rest]; [now exists acc|].
    rewrite scan_cons.
    destruct (candidate excluded_phrases markers next); [|apply IH].
    destruct (start_regexp line); [|apply IH].
    destruct (classify_total markers next c Hm) as (lbl & c' & ->).
    cbn [mbind result_bind]. apply IH.
Qed.

(** ** The second loop of [parse_timecodes] *)

Lemma add_ends_cons d d' rest :
  add_ends (d :: d' :: rest) =
  s ← getitem (start d'); e ← convert_time s;
  rest' ← add_ends (d' :: rest); Ok (set_end d e :: rest').
Proof. reflexivity. Qed.

Lemma add_ends_fields timecodes : forall timecodes',
  add_ends timecodes = Ok timecodes' ->
  Forall2 same_start_and_label timecodes timecodes'.
Proof.
  induction timecodes as [|d rest IH]; intros L' H.
  - injection H as <-. constructor.
  - destruct rest as [|d' rest].
    + injection H as <-. repeat constructor.
    + rewrite add_ends_cons in H.
      destruct (getitem (start d')) as [s| |]; try discriminate.
      cbn [mbind result_bind] in H.
      destruct (convert_time s) as [e| |]; try discriminate.
      cbn [mbind result_bind] in H.
      destruct (add_ends (d' :: rest)) as [rest'| |]; try discriminate.
      injection H as <-. constructor; [now split|]. now apply IH.
Qed.

Lemma same_fields_start L L' :
  Forall2 same_start_and_label L L' ->
  List.map start L' = List.map start L.
Proof.
  induction 1 as [|d d' L L' [Hs _] _ IH]; [reflexivity|].
  cbn [List.map]. now rewrite Hs, IH.
Qed.

Lemma same_fields_chapters markers hits : forall L L',
  Forall2 same_start_and_label L L' ->
  List.map chapter_type (chapter_entries markers hits L')
  = List.map chapter_type (chapter_entries markers hits L).
Proof.
  unfold chapter_entries.
  induction hits as [|[g next] hits IH]; intros L L' H; [reflexivity|].
  destruct H as [|d d' L L' [_ Hc] H]; [reflexivity|].
  cbn [List.combine List.filter fst snd].
  destruct (is_chapter_line markers next); cbn [List.map snd].
  - rewrite Hc. f_equal. now apply IH.
  - now apply IH.
Qed.

(** What [parse_timecodes] returns is what the first loop appended, for
    the start and the label of every dictionary. *)
Lemma parse_timecodes_emitted srt_content excluded_phrases markers L :
  parse_timecodes srt_content excluded_phrases markers = Ok L ->
  exists new,
    emitted markers true 1 (recognized excluded_phrases markers srt_content) new
    /\ Forall2 same_start_and_label new L
    /\ L <> [].
Proof.
  unfold parse_timecodes. intros H.
  destruct excluded_phrases as [|x xs]; [discriminate|].
  destruct markers as [|m ms]; [discriminate|].
  destruct (scan (x :: xs) (m :: ms) srt_content [] 1) as [new| |] eqn:Hs;
    try discriminate.
  cbn [mbind result_bind] in H.
  destruct (add_ends new) as [L'| |] eqn:Ha; try discriminate.
  cbn [mbind result_bind] in H.
  destruct L' as [|d L']; [discriminate|]. injection H as <-.
  apply scan_emitted in Hs as (new' & -> & He). cbn [app] in *.
  exists new'. split; [exact He|]. split; [|discriminate].
  now apply add_ends_fields.
Qed.

Lemma emitted_starts markers : forall hits new first c,
  emitted markers first c hits new ->
  List.map start new
  = List.app
      (List.map (fun h => Some (if first : bool then "00:00:00" else fst h))
         (firstn 1 hits))
      (List.map (fun h => Some (fst h)) (List.tl hits)).
Proof.
  assert (Hrest : forall hits new c,
    emitted markers false c hits new ->
    List.map start new = List.map (fun h => Some (fst h)) hits).
  { induction hits as [|[g next] hits IH]; intros [|d new] c H;
      cbn [emitted] in H; try contradiction; [reflexivity|].
    destruct H as (lbl & c' & _ & -> & H). cbn [List.map start fst].
    f_equal. now apply IH with c'. }
  intros [|[g next] hits] [|d new] first c H;
    cbn [emitted] in H; try contradiction; [reflexivity|].
  destruct H as (lbl & c' & _ & -> & H).
  cbn [List.map start fst firstn List.tl app]. f_equal. now apply Hrest with c'.
Qed.

Lemma emitted_length markers : forall hits new first c,
  emitted markers first c hits new -> List.length new = List.length hits.
Proof.
  induction hits as [|[g next] hits IH]; intros [|d new] first c H;
    cbn [emitted] in H; try contradiction; [reflexivity|].
  destruct H as (lbl & c' & _ & _ & H). cbn [List.length].
  f_equal. now apply IH with false c'.
Qed.

Lemma emitted_chapters markers m2 :
  nth_error markers 2 = Some m2 ->
  forall hits new first c,
  emitted markers first c hits new ->
  List.map chapter_type (chapter_entries markers hits new)
  = List.map (fun k => Some (chapter_label m2 k))
      (Zseq c (List.length (chapter_entries markers hits new))).
Proof.
  intros Hm2. unfold chapter_entries.
  induction hits as [|[g next] hits IH]; intros [|d new] first c H;
    cbn [emitted] in H; try contradiction; [reflexivity|].
  destruct H as (lbl & c' & Hc & -> & H).
  apply classify_chapter in Hc.
  cbn [List.combine List.filter fst snd].
  destruct (is_chapter_line markers next).
  - destruct Hc as (m2' & Hm2' & -> & ->).
    rewrite Hm2 in Hm2'. injection Hm2' as <-.
    cbn [List.map snd List.length Zseq chapter_type]. f_equal.
    now apply IH with false.
  - subst c'. now apply IH with false.
Qed.

(** C8. For every transcript and marker table, the first dictionary that
    [parse_timecodes] returns has the start ["00:00:00"], which
    [parse_timestamp] reads as the zero duration, the duration of
    ["00:00:00.000"], whatever start was found on its line; every later
    dictionary has the start found on its own recognized line. *)
Theorem first_start_is_zero srt_content excluded_phrases markers L :
  parse_timecodes srt_content excluded_phrases markers = Ok L ->
  exists d rest,
    L = d :: rest
    /\ start d = Some "00:00:00"
    /\ reads_as (start d) (timedelta_of_us 0)
    /\ parse_timestamp "00:00:00.000" = Ok (timedelta_of_us 0)
    /\ List.map start rest
       = List.map (fun h => Some (fst h))
           (List.tl (recognized excluded_phrases markers srt_content)).
Proof.
  intros H. apply parse_timecodes_emitted in H as (new & He & Hf & Hne).
  apply same_fields_start in Hf. apply emitted_starts in He.
  rewrite He in Hf. clear He.
  destruct L as [|d rest]; [contradiction|]. exists d, rest.
  destruct (recognized excluded_phrases markers srt_content) as [|h hits];
    [discriminate|].
  cbn [List.map firstn app List.tl] in Hf. injection Hf as Hd Hrest.
  split; [reflexivity|]. split; [exact Hd|]. split.
  - exists "00:00:00". split; [exact Hd|reflexivity].
  - split; [reflexivity|exact Hrest].
Qed.

Lemma first_start_is_zero_witness :
  parse_timecodes sample_srt en_excluded en_markers = Ok sample_timecodes
  /\ exists d rest,
       sample_timecodes = d :: rest
       /\ start d = Some "00:00:00"
       /\ reads_as (start d) (timedelta_of_us 0)
       /\ parse_timestamp "00:00:00.000" = Ok (timedelta_of_us 0)
       /\ List.map start rest
          = List.map (fun h => Some (fst h))
              (List.tl (recognized en_excluded en_markers sample_srt)).
Proof.
  split; [reflexivity|].
  apply (first_start_is_zero sample_srt en_excluded en_markers).
  reflexivity.
Defined.

Example sample_chapter_entries :
  List.map chapter_type
    (chapter_entries en_markers
       (recognized en_excluded en_markers sample_srt) sample_timecodes)
  = [Some "Chapter 01"; Some "Chapter 02"; Some "Chapter 03"].
Proof. reflexivity. Qed.

(** ** Digits and fields of two digits *)

Lemma is_digit_In c : Py.is_digit c = true -> In c digit_chars.
Proof.
  destruct c as [[] [] [] [] [] [] [] []]; intros H;
    try (vm_compute in H; discriminate H); cbn; tauto.
Qed.

Lemma forall_digits (P : ascii -> bool) :
  forallb P digit_chars = true ->
  forall a, Py.is_digit a = true -> P a = true.
Proof.
  intros H a Ha. rewrite forallb_forall in H. apply H. now apply is_digit_In.
Qed.

Lemma forall_digits2 (P : ascii -> ascii -> bool) :
  forallb (fun a => forallb (P a) digit_chars) digit_chars = true ->
  forall a b, Py.is_digit a = true -> Py.is_digit b = true -> P a b = true.
Proof.
  intros H a b Ha Hb.
  apply (forall_digits (P a)); [|exact Hb].
  now apply (forall_digits (fun a => forallb (P a) digit_chars)).
Qed.

Lemma forall_digits3 (P : ascii -> ascii -> ascii -> bool) :
  forallb (fun a => forallb (fun b => forallb (P a b) digit_chars) digit_chars)
    digit_chars = true ->
  forall a b c, Py.is_digit a = true -> Py.is_digit b = true ->
                Py.is_digit c = true -> P a b c = true.
Proof.
  intros H a b c Ha Hb Hc.
  apply (forall_digits (P a b)); [|exact Hc].
  now apply (forall_digits2 (fun a b => forallb (P a b) digit_chars)).
Qed.

Lemma digit_val_range c : Py.is_digit c = true -> 0 <= Py.digit_val c <= 9.
Proof.
  unfold Py.is_digit, Py.digit_val. intros H.
  apply andb_true_iff in H as [H1 H2].
  apply Nat.leb_le in H1, H2. lia.
Qed.

Lemma two_digits_range a b :
  Py.is_digit a = true -> Py.is_digit b = true -> 0 <= two_digits a b <= 99.
Proof.
  intros Ha Hb. apply digit_val_range in Ha, Hb. unfold two_digits. lia.
Qed.

(** A digit is none of the separators. *)
Lemma digit_eqb c x :
  Py.is_digit c = true -> Py.is_digit x = false -> Ascii.eqb c x = false.
Proof.
  intros Hc Hx. destruct (Ascii.eqb c x) eqn:E; [|reflexivity].
  apply Ascii.eqb_eq in E. congruence.
Qed.

Lemma int_two_digits a b :
  Py.is_digit a = true -> Py.is_digit b = true ->
  Py.int (char2 a b) = Some (two_digits a b).
Proof.
  intros Ha Hb.
  assert (H := forall_digits2
    (fun a b => match Py.int (char2 a b) with
                | Some v => v =? two_digits a b
                | None => false
                end) eq_refl a b Ha Hb).
  cbv beta in H. destruct (Py.int (char2 a b)); [|discriminate].
  apply Z.eqb_eq in H. now subst.
Qed.

(** Formatting the value of two digits to the width 2 gives the two
    digits back, and likewise for three. *)
Lemma format_zero_two_digits a b :
  Py.is_digit a = true -> Py.is_digit b = true ->
  format_zero 2 (two_digits a b) = char2 a b.
Proof.
  intros Ha Hb. apply String.eqb_eq.
  exact (forall_digits2
    (fun a b => String.eqb (format_zero 2 (two_digits a b)) (char2 a b))
    eq_refl a b Ha Hb).
Qed.

Lemma format_zero_three_digits a b c :
  Py.is_digit a = true -> Py.is_digit b = true -> Py.is_digit c = true ->
  format_zero 3 (100 * Py.digit_val a + two_digits b c) = char3 a b c.
Proof.
  intros Ha Hb Hc. apply String.eqb_eq.
  exact (forall_digits3
    (fun a b c =>
       String.eqb (format_zero 3 (100 * Py.digit_val a + two_digits b c))
                  (char3 a b c))
    eq_refl a b c Ha Hb Hc).
Qed.

(** The decremented field is read back as the value less one. *)
Lemma field_of_dec_field a b :
  Py.is_digit a = true -> Py.is_digit b = true ->
  1 <= two_digits a b ->
  field_of (dec_field (char2 a b) (two_digits a b)) = Some (two_digits a b - 1).
Proof.
  intros Ha Hb Hv.
  assert (H := forall_digits2
    (fun a b =>
       (two_digits a b <? 1)
       || match field_of (dec_field (char2 a b) (two_digits a b)) with
          | Some v => v =? two_digits a b - 1
          | None => false
          end) eq_refl a b Ha Hb).
  cbv beta in H. apply orb_true_iff in H as [H|H].
  - apply Z.ltb_lt in H. lia.
  - destruct (field_of _); [|discriminate]. apply Z.eqb_eq in H. now subst.
Qed.

Lemma two_digits_zero a b :
  Py.is_digit a = true -> Py.is_digit b = true ->
  String.eqb (char2 a b) "00" = (two_digits a b =? 0).
Proof.
  intros Ha Hb. apply eqb_prop.
  exact (forall_digits2
    (fun a b => Bool.eqb (String.eqb (char2 a b) "00") (two_digits a b =? 0))
    eq_refl a b Ha Hb).
Qed.

Lemma pattern_match_nonzero a b :
  Py.is_digit a = true -> Py.is_digit b = true ->
  pattern_match (char2 a b) = false -> String.eqb (char2 a b) "00" = false.
Proof.
  intros Ha Hb. unfold pattern_match. cbn [char2]. rewrite Hb.
  destruct (String.eqb (char2 a b) "00") eqn:E; [|reflexivity].
  apply String.eqb_eq in E. injection E as -> ->. discriminate.
Qed.

(** ** Small facts on texts *)

Lemma str_app_assoc (a b c : string) : (a ++ b) ++ c = a ++ b ++ c.
Proof. induction a as [|x a IH]; simpl; [reflexivity|now f_equal]. Qed.

Lemma str_app_nil_r (a : string) : a ++ EmptyString = a.
Proof. induction a as [|x a IH]; simpl; [reflexivity|now f_equal]. Qed.

Lemma str_length_app (a b : string) :
  String.length (a ++ b) = (String.length a + String.length b)%nat.
Proof. induction a as [|x a IH]; simpl; [reflexivity|now f_equal]. Qed.

Lemma has_char_app c (a b : string) :
  Py.has_char c (a ++ b) = Py.has_char c a || Py.has_char c b.
Proof.
  induction a as [|x a IH]; simpl; [reflexivity|].
  now rewrite IH, orb_assoc.
Qed.

Lemma all_digits_app (a b : string) :
  all_digits (a ++ b) = all_digits a && all_digits b.
Proof.
  induction a as [|x a IH]; simpl; [reflexivity|].
  now rewrite IH, andb_assoc.
Qed.

Lemma all_digits_zeros n : all_digits (zeros n) = true.
Proof. induction n; cbn; [reflexivity|assumption]. Qed.

Lemma length_zeros n : String.length (zeros n) = n.
Proof. induction n; cbn; [reflexivity|now f_equal]. Qed.

Lemma all_digits_has_char c s :
  all_digits s = true -> Py.is_digit c = false -> Py.has_char c s = false.
Proof.
  intros Hs Hc. induction s as [|x s IH]; cbn in *; [reflexivity|].
  apply andb_true_iff in Hs as [Hx Hs].
  now rewrite (digit_eqb x c Hx Hc), IH.
Qed.

(** ** Reading a timestamp field by field *)

Lemma span_digits_all s : all_digits (fst (span_digits s)) = true.
Proof.
  induction s as [|c s IH]; cbn; [reflexivity|].
  destruct (Py.is_digit c) eqn:E; [|reflexivity].
  destruct (span_digits s). cbn in *. now rewrite E.
Qed.

Lemma span_digits_sep d sep r :
  all_digits d = true -> Py.is_digit sep = false ->
  span_digits (d ++ String sep r) = (d, String sep r).
Proof.
  intros Hd Hsep. induction d as [|c d IH]; cbn in *.
  - now rewrite Hsep.
  - apply andb_true_iff in Hd as [Hc Hd]. now rewrite Hc, IH.
Qed.

Lemma span_digits_end d :
  all_digits d = true -> span_digits d = (d, EmptyString).
Proof.
  intros Hd. induction d as [|c d IH]; cbn in *; [reflexivity|].
  apply andb_true_iff in Hd as [Hc Hd]. now rewrite Hc, IH.
Qed.

Lemma field_of_digits txt v :
  field_of txt = Some v ->
  all_digits txt = true /\ digits_val 0 txt = v
  /\ (1 <= String.length txt <= 2)%nat.
Proof.
  destruct txt as [|a [|b [|c txt]]]; cbn; try discriminate.
  - destruct (Py.is_digit a); [|discriminate]. intros [= <-].
    repeat split; cbn; lia.
  - destruct (Py.is_digit a), (Py.is_digit b); try discriminate.
    intros [= <-]. unfold two_digits. repeat split; cbn; lia.
Qed.

Lemma strptime_field_of txt v hi sep r :
  field_of txt = Some v -> Py.is_digit sep = false ->
  strptime_field hi sep (txt ++ String sep r)
  = if v <=? hi then Some (v, r) else None.
Proof.
  intros Hf Hsep. apply field_of_digits in Hf as (Hd & Hv & Hl1 & Hl2).
  unfold strptime_field. rewrite span_digits_sep by assumption.
  rewrite Ascii.eqb_refl, Hv.
  apply Nat.leb_le in Hl1, Hl2. rewrite Hl1, Hl2. reflexivity.
Qed.

Lemma field_of_char2 a b :
  Py.is_digit a = true -> Py.is_digit b = true ->
  field_of (char2 a b) = Some (two_digits a b).
Proof. intros Ha Hb. cbn. now rewrite Ha, Hb. Qed.

(** The text [hh:mm:ss.frac] is read when its fields are in range and the
    fraction has one to six digits. *)
Lemma parse_timestamp_stamp hh mm ss frac h m s :
  field_of hh = Some h -> field_of mm = Some m -> field_of ss = Some s ->
  parse_timestamp (stamp hh mm ss frac) =
  match strptime_fraction frac with
  | Some us =>
      if (h <=? 23) && (m <=? 59) && (s <=? 59)
      then Ok (timedelta_of_us (((h * 60 + m) * 60 + s) * 1000000 + us))
      else Raise ValueError
  | None => Raise ValueError
  end.
Proof.
  intros Hh Hm Hs. unfold parse_timestamp, stamp.
  replace (Py.has_char "." (hh ++ ":" ++ mm ++ ":" ++ ss ++ "." ++ frac))
    with true.
  2:{ rewrite !has_char_app. cbn. now rewrite !orb_true_r. }
  unfold strptime.
  change (hh ++ ":" ++ mm ++ ":" ++ ss ++ "." ++ frac)
    with (hh ++ String ":" (mm ++ String ":" (ss ++ String "." frac))).
  rewrite (strptime_field_of hh h) by trivial.
  destruct (h <=? 23); cbn [andb].
  2:{ now destruct (strptime_fraction frac). }
  rewrite (strptime_field_of mm m) by trivial.
  destruct (m <=? 59); cbn [andb].
  2:{ now destruct (strptime_fraction frac). }
  rewrite (strptime_field_of ss s) by trivial.
  destruct (s <=? 59) eqn:Es.
  - assert ((s <=? 61) = true) as ->
      by (apply Z.leb_le; apply Z.leb_le in Es; lia).
    destruct (strptime_fraction frac); [now rewrite Es|reflexivity].
  - destruct (s <=? 61); [|now destruct (strptime_fraction frac)].
    destruct (strptime_fraction frac); [now rewrite Es|reflexivity].
Qed.

(** ** Durations *)

Lemma total_us_of_us x : total_us (timedelta_of_us x) = x.
Proof.
  unfold total_us, timedelta_of_us. cbn [days seconds microseconds].
  Z.div_mod_to_equations. lia.
Qed.

Lemma timedelta_of_us_fields h m s us :
  0 <= h <= 23 -> 0 <= m <= 59 -> 0 <= s <= 59 -> 0 <= us < 1000000 ->
  let td := timedelta_of_us (((h * 60 + m) * 60 + s) * 1000000 + us) in
  days td = 0
  /\ seconds td / 3600 = h
  /\ (seconds td mod 3600) / 60 = m
  /\ (seconds td mod 3600) mod 60 = s
  /\ microseconds td = us.
Proof.
  intros Hh Hm Hs Hus td. subst td. unfold timedelta_of_us.
  cbn [days seconds microseconds].
  assert (E1 : (((h * 60 + m) * 60 + s) * 1000000 + us) / 1000000
               = (h * 60 + m) * 60 + s)
    by (Z.div_mod_to_equations; lia).
  assert (E2 : ((h * 60 + m) * 60 + s) mod 86400 = (h * 60 + m) * 60 + s)
    by (Z.div_mod_to_equations; lia).
  rewrite E1, E2. repeat split; Z.div_mod_to_equations; lia.
Qed.

(** ** The fraction of a second *)

Lemma digits_val_bound s : forall acc,
  all_digits s = true -> 0 <= acc ->
  acc * 10 ^ Z.of_nat (String.length s) <= digits_val acc s
  /\ digits_val acc s < (acc + 1) * 10 ^ Z.of_nat (String.length s).
Proof.
  induction s as [|c s IH]; intros acc Hs Hacc; cbn [digits_val String.length].
  - cbn. lia.
  - cbn in Hs. apply andb_true_iff in Hs as [Hc Hs].
    apply digit_val_range in Hc.
    destruct (IH (10 * acc + Py.digit_val c) Hs) as [L U]; [lia|].
    rewrite Nat2Z.inj_succ, Z.pow_succ_r by lia.
    set (p := 10 ^ Z.of_nat (String.length s)) in *.
    assert (0 < p) by (apply Z.pow_pos_nonneg; lia).
    split; nia.
Qed.

Lemma strptime_fraction_range frac us :
  strptime_fraction frac = Some us -> 0 <= us < 1000000.
Proof.
  unfold strptime_fraction.
  pose proof (span_digits_all frac) as Hd.
  destruct (span_digits frac) as [d r]. cbn [fst] in Hd.
  destruct r; [|discriminate].
  destruct ((1 <=? String.length d)%nat && (String.length d <=? 6)%nat) eqn:E;
    [|discriminate].
  apply andb_true_iff in E as [E1 E2]. apply Nat.leb_le in E1, E2.
  intros [= <-].
  destruct (digits_val_bound (d ++ zeros (6 - String.length d)) 0) as [L U].
  - now rewrite all_digits_app, Hd, all_digits_zeros.
  - lia.
  - rewrite str_length_app, length_zeros in U.
    replace (String.length d + (6 - String.length d))%nat with 6%nat in U by lia.
    cbn in U. lia.
Qed.

Lemma strptime_fraction_char3 a b c :
  Py.is_digit a = true -> Py.is_digit b = true -> Py.is_digit c = true ->
  strptime_fraction (char3 a b c)
  = Some ((100 * Py.digit_val a + two_digits b c) * 1000).
Proof.
  intros Ha Hb Hc. unfold strptime_fraction.
  rewrite span_digits_end by (cbn; now rewrite Ha, Hb, Hc).
  cbn. change (Py.digit_val "0") with 0. f_equal. unfold two_digits. lia.
Qed.

(** ** Commas and dots *)

Lemma replace_app a b (s t : string) :
  Py.replace a b (s ++ t) = Py.replace a b s ++ Py.replace a b t.
Proof. induction s as [|x s IH]; simpl; [reflexivity|now f_equal]. Qed.

Lemma replace_digits a b s :
  all_digits s = true -> Py.is_digit a = false -> Py.replace a b s = s.
Proof.
  intros Hs Ha. induction s as [|x s IH]; cbn in *; [reflexivity|].
  apply andb_true_iff in Hs as [Hx Hs].
  now rewrite (digit_eqb x a Hx Ha), IH.
Qed.

(** ** [convert_time] on a start of the detector *)

Lemma split_no_sep c s : Py.has_char c s = false -> Py.split c s = [s].
Proof.
  induction s as [|x s IH]; cbn; [reflexivity|].
  intros H. apply orb_false_iff in H as [Hx Hs].
  now rewrite Hx, IH.
Qed.

Lemma split_app_sep c a r :
  Py.has_char c a = false ->
  Py.split c (a ++ String c r) = a :: Py.split c r.
Proof.
  induction a as [|x a IH]; simpl.
  - intros _. now rewrite Ascii.eqb_refl.
  - intros H. apply orb_false_iff in H as [Hx Ha].
    now rewrite Hx, IH.
Qed.

Lemma has_char_char2 a b c :
  Py.is_digit a = true -> Py.is_digit b = true -> Py.is_digit c = false ->
  Py.has_char c (char2 a b) = false.
Proof.
  intros Ha Hb Hc. apply all_digits_has_char; [|exact Hc].
  cbn. now rewrite Ha, Hb.
Qed.

Lemma split_colon_stamp a b c d e f frac :
  Py.is_digit a = true -> Py.is_digit b = true ->
  Py.is_digit c = true -> Py.is_digit d = true ->
  Py.is_digit e = true -> Py.is_digit f = true ->
  all_digits frac = true ->
  Py.split ":" (stamp (char2 a b) (char2 c d) (char2 e f) frac)
  = [char2 a b; char2 c d; char2 e f ++ "." ++ frac].
Proof.
  intros Ha Hb Hc Hd He Hf Hfrac. unfold stamp.
  change (char2 a b ++ ":" ++ char2 c d ++ ":" ++ char2 e f ++ "." ++ frac)
    with (char2 a b ++ String ":" (char2 c d ++ String ":"
            (char2 e f ++ "." ++ frac))).
  rewrite !split_app_sep by (now apply has_char_char2).
  rewrite split_no_sep; [reflexivity|].
  rewrite !has_char_app, has_char_char2 by trivial.
  rewrite (all_digits_has_char ":" frac) by trivial. reflexivity.
Qed.

Lemma split_dot_seconds e f frac :
  Py.is_digit e = true -> Py.is_digit f = true -> all_digits frac = true ->
  Py.split "." (char2 e f ++ "." ++ frac) = [char2 e f; frac].
Proof.
  intros He Hf Hfrac.
  change (char2 e f ++ "." ++ frac) with (char2 e f ++ String "." frac).
  rewrite split_app_sep by (now apply has_char_char2).
  now rewrite split_no_sep by (now apply all_digits_has_char).
Qed.

Lemma join_stamp hh mm ss frac :
  Py.join ":" [hh; mm; ss] ++ "." ++ frac = stamp hh mm ss frac.
Proof.
  unfold Py.join, stamp. cbn [String.concat].
  now rewrite !str_app_assoc.
Qed.

(** What [convert_time] returns on a start of the detector: the seconds
    are decremented, or else the minutes, or else the hours. *)
Lemma convert_time_stamp a b c d e f frac :
  Py.is_digit a = true -> Py.is_digit b = true ->
  Py.is_digit c = true -> Py.is_digit d = true ->
  Py.is_digit e = true -> Py.is_digit f = true ->
  all_digits frac = true ->
  convert_time (stamp (char2 a b) (char2 c d) (char2 e f) frac) =
  Ok (if two_digits e f =? 0 then
        if two_digits c d =? 0
        then stamp (dec_field (char2 a b) (two_digits a b)) "59" "59" frac
        else stamp (char2 a b) (dec_field (char2 c d) (two_digits c d)) "59" frac
      else stamp (char2 a b) (char2 c d)
             (dec_field (char2 e f) (two_digits e f)) frac).
Proof.
  intros Ha Hb Hc Hd He Hf Hfrac.
  unfold convert_time, convert_time_parts.
  rewrite split_colon_stamp by assumption.
  cbn [List.last nth_error nth].
  rewrite split_dot_seconds by assumption.
  rewrite !two_digits_zero by assumption.
  unfold dec_field.
  destruct (pattern_match (char2 e f)) eqn:Ep.
  - destruct (two_digits e f =? 0) eqn:Es.
    + destruct (two_digits c d =? 0) eqn:Em; cbn [andb].
      * rewrite int_two_digits by assumption. now rewrite join_stamp.
      * rewrite int_two_digits by assumption. now rewrite join_stamp.
    + rewrite andb_false_r. rewrite int_two_digits by assumption.
      cbn [set_last]. now rewrite join_stamp.
  - pose proof (pattern_match_nonzero e f He Hf Ep) as Hz.
    rewrite two_digits_zero in Hz by assumption. rewrite Hz.
    rewrite int_two_digits by assumption.
    cbn [set_last]. now rewrite join_stamp.
Qed.

Lemma stamp_text_inv t :
  stamp_text t = true ->
  exists a b c d e f frac,
    t = stamp (char2 a b) (char2 c d) (char2 e f) frac
    /\ Py.is_digit a = true /\ Py.is_digit b = true
    /\ Py.is_digit c = true /\ Py.is_digit d = true
    /\ Py.is_digit e = true /\ Py.is_digit f = true
    /\ all_digits frac = true.
Proof.
  destruct t as [|a [|b [|c1 [|c [|d [|c2 [|e [|f [|c3 frac]]]]]]]]];
    cbn [stamp_text]; try discriminate.
  intros H. do 9 (apply andb_true_iff in H as [H ?]).
  repeat match goal with
         | E : Ascii.eqb _ _ = true |- _ => apply Ascii.eqb_eq in E; subst
         end.
  exists a, b, c, d, e, f, frac.
  split; [reflexivity|]. repeat split; assumption.
Qed.

(** On a start of the detector that reads as a duration of one second or
    more, [convert_time] returns a text that reads as that duration less
    one second. *)
Lemma convert_time_minus_one_second t td :
  stamp_text t = true ->
  parse_timestamp t = Ok td ->
  1000000 <= total_us td ->
  exists e, convert_time t = Ok e
            /\ parse_timestamp e = Ok (timedelta_of_us (total_us td - 1000000)).
Proof.
  intros Ht Hp Hone.
  destruct (stamp_text_inv t Ht)
    as (a & b & c & d & e & f & frac & -> & Ha & Hb & Hc & Hd & He & Hf & Hfrac).
  pose proof (two_digits_range a b Ha Hb) as Rh.
  pose proof (two_digits_range c d Hc Hd) as Rm.
  pose proof (two_digits_range e f He Hf) as Rs.
  rewrite (parse_timestamp_stamp _ _ _ _ (two_digits a b) (two_digits c d)
             (two_digits e f)) in Hp by (now apply field_of_char2).
  destruct (strptime_fraction frac) as [us|] eqn:Hus; [|discriminate].
  pose proof (strptime_fraction_range _ _ Hus) as Rus.
  destruct ((two_digits a b <=? 23) && (two_digits c d <=? 59)
            && (two_digits e f <=? 59)) eqn:Hr; [|discriminate].
  apply andb_true_iff in Hr as [Hr Hr3]. apply andb_true_iff in Hr as [Hr1 Hr2].
  apply Z.leb_le in Hr1, Hr2, Hr3.
  injection Hp as <-. rewrite total_us_of_us in Hone |- *.
  rewrite convert_time_stamp by assumption. eexists. split; [reflexivity|].
  set (h := two_digits a b) in *. set (m := two_digits c d) in *.
  set (s := two_digits e f) in *.
  assert (F59 : field_of "59" = Some 59) by reflexivity.
  destruct (s =? 0) eqn:Es; [destruct (m =? 0) eqn:Em|].
  - apply Z.eqb_eq in Es, Em.
    rewrite (parse_timestamp_stamp _ _ _ _ (h - 1) 59 59);
      [|apply field_of_dec_field; trivial; fold h; lia|trivial|trivial].
    rewrite Hus.
    replace (h - 1 <=? 23) with true by (symmetry; apply Z.leb_le; lia).
    cbn [andb Z.leb Z.compare Pos.compare Pos.compare_cont].
    do 2 f_equal. lia.
  - apply Z.eqb_eq in Es. apply Z.eqb_neq in Em.
    rewrite (parse_timestamp_stamp _ _ _ _ h (m - 1) 59);
      [|now apply field_of_char2|apply field_of_dec_field; trivial; fold m; lia
       |trivial].
    rewrite Hus.
    replace (h <=? 23) with true by (symmetry; apply Z.leb_le; lia).
    replace (m - 1 <=? 59) with true by (symmetry; apply Z.leb_le; lia).
    cbn [andb Z.leb Z.compare Pos.compare Pos.compare_cont].
    do 2 f_equal. lia.
  - apply Z.eqb_neq in Es.
    rewrite (parse_timestamp_stamp _ _ _ _ h m (s - 1));
      [|now apply field_of_char2|now apply field_of_char2
       |apply field_of_dec_field; trivial; fold s; lia].
    rewrite Hus.
    replace (h <=? 23) with true by (symmetry; apply Z.leb_le; lia).
    replace (m <=? 59) with true by (symmetry; apply Z.leb_le; lia).
    replace (s - 1 <=? 59) with true by (symmetry; apply Z.leb_le; lia).
    cbn [andb]. do 2 f_equal. lia.
Qed.

(** ** Formatting a number and reading it back *)

Lemma digit_of_spec k :
  0 <= k <= 9 ->
  Py.is_digit (digit_of k) = true /\ Py.digit_val (digit_of k) = k.
Proof.
  intros H.
  assert (C : k = 0 \/ k = 1 \/ k = 2 \/ k = 3 \/ k = 4 \/ k = 5 \/ k = 6
              \/ k = 7 \/ k = 8 \/ k = 9) by lia.
  repeat (destruct C as [-> | C]; [split; reflexivity|]).
  subst. split; reflexivity.
Qed.

Lemma format_zero_two n :
  0 <= n <= 99 ->
  exists a b, Py.is_digit a = true /\ Py.is_digit b = true
              /\ two_digits a b = n /\ format_zero 2 n = char2 a b.
Proof.
  intros H.
  destruct (digit_of_spec (n / 10)) as [Ha Va];
    [Z.div_mod_to_equations; lia|].
  destruct (digit_of_spec (n mod 10)) as [Hb Vb];
    [Z.div_mod_to_equations; lia|].
  exists (digit_of (n / 10)), (digit_of (n mod 10)).
  assert (E : two_digits (digit_of (n / 10)) (digit_of (n mod 10)) = n).
  { unfold two_digits. rewrite Va, Vb. Z.div_mod_to_equations. lia. }
  repeat split; trivial.
  rewrite <- E at 1. now apply format_zero_two_digits.
Qed.

Lemma format_zero_three n :
  0 <= n <= 999 ->
  exists a b c, Py.is_digit a = true /\ Py.is_digit b = true
                /\ Py.is_digit c = true
                /\ 100 * Py.digit_val a + two_digits b c = n
                /\ format_zero 3 n = char3 a b c.
Proof.
  intros H.
  destruct (digit_of_spec (n / 100)) as [Ha Va];
    [Z.div_mod_to_equations; lia|].
  destruct (digit_of_spec ((n / 10) mod 10)) as [Hb Vb];
    [Z.div_mod_to_equations; lia|].
  destruct (digit_of_spec (n mod 10)) as [Hc Vc];
    [Z.div_mod_to_equations; lia|].
  exists (digit_of (n / 100)), (digit_of ((n / 10) mod 10)), (digit_of (n mod 10)).
  assert (E : 100 * Py.digit_val (digit_of (n / 100))
              + two_digits (digit_of ((n / 10) mod 10)) (digit_of (n mod 10)) = n).
  { unfold two_digits. rewrite Va, Vb, Vc. Z.div_mod_to_equations. lia. }
  repeat split; trivial.
  rewrite <- E at 1. now apply format_zero_three_digits.
Qed.

(** ** The text of a sidecar and its lines *)

Lemma universal_newlines_id s :
  Py.has_char "013" s = false -> universal_newlines s = s.
Proof.
  induction s as [|c s IH]; cbn [universal_newlines Py.has_char];
    [reflexivity|].
  intros H. apply orb_false_iff in H as [Hc Hs].
  rewrite Hc. now rewrite IH.
Qed.

Lemma readlines_line b rest :
  Py.has_char "010" b = false ->
  readlines (with_lf b ++ rest) = with_lf b :: readlines rest.
Proof.
  unfold with_lf. induction b as [|c b IH]; intros H.
  - reflexivity.
  - cbn [Py.has_char] in H. apply orb_false_iff in H as [Hc Hb].
    change ((String c b ++ LF) ++ rest) with (String c ((b ++ LF) ++ rest)).
    cbn [readlines]. rewrite Hc, (IH Hb). reflexivity.
Qed.

Lemma rstrip_lf_line b :
  Py.has_char "010" b = false -> rstrip_lf (b ++ LF) = b.
Proof.
  induction b as [|c b IH]; intros H; [reflexivity|].
  cbn [Py.has_char] in H. apply orb_false_iff in H as [Hc Hb].
  change (String c b ++ LF) with (String c (b ++ LF)).
  cbn [rstrip_lf]. rewrite (IH Hb), Hc. now destruct b.
Qed.

Lemma strip_lf_line b :
  Py.has_char "010" b = false -> strip_lf (with_lf b) = b.
Proof.
  intros H. unfold strip_lf, with_lf. destruct b as [|c b]; [reflexivity|].
  pose proof H as H'. cbn [Py.has_char] in H'.
  apply orb_false_iff in H' as [Hc _].
  change (String c b ++ LF) with (String c (b ++ LF)).
  cbn [lstrip_lf]. rewrite Hc.
  now apply (rstrip_lf_line (String c b)).
Qed.

Lemma concat_lines_cons b bodies :
  String.concat EmptyString (List.map with_lf (b :: bodies))
  = with_lf b ++ String.concat EmptyString (List.map with_lf bodies).
Proof.
  cbn [List.map String.concat]. destruct bodies as [|b' bodies].
  - cbn [List.map String.concat]. now rewrite str_app_nil_r.
  - reflexivity.
Qed.

Lemma has_char_lines c bodies :
  Ascii.eqb "010" c = false ->
  forallb (fun b => negb (Py.has_char c b)) bodies = true ->
  Py.has_char c (String.concat EmptyString (List.map with_lf bodies)) = false.
Proof.
  intros Hc. induction bodies as [|b bodies IH]; intros H; [reflexivity|].
  cbn [forallb] in H. apply andb_true_iff in H as [Hb H].
  rewrite concat_lines_cons. unfold with_lf at 1.
  rewrite !has_char_app, (IH H). apply negb_true_iff in Hb. rewrite Hb.
  change (Py.has_char c LF) with (Ascii.eqb "010" c || false).
  now rewrite Hc.
Qed.

(** A text written line by line is read back as those lines. *)
Lemma lines_of_text bodies :
  forallb one_line bodies = true ->
  List.map strip_lf
    (readlines (universal_newlines
       (String.concat EmptyString (List.map with_lf bodies))))
  = bodies.
Proof.
  intros H. rewrite universal_newlines_id.
  2:{ apply has_char_lines; [reflexivity|].
      rewrite forallb_forall in H |- *. intros b Hb. apply H in Hb.
      unfold one_line in Hb. now apply andb_true_iff in Hb as [_ ->]. }
  induction bodies as [|b bodies IH]; [reflexivity|].
  cbn [forallb] in H. apply andb_true_iff in H as [Hb H].
  unfold one_line in Hb. apply andb_true_iff in Hb as [Hlf _].
  apply negb_true_iff in Hlf.
  rewrite concat_lines_cons, readlines_line by exact Hlf.
  cbn [List.map]. now rewrite strip_lf_line, IH.
Qed.

(** ** Key words inside a line *)

Lemma startswith_app_char p c : forall s,
  Py.has_char c p = false ->
  Py.startswith p (s ++ String c EmptyString) = Py.startswith p s.
Proof.
  induction p as [|a p IH]; intros s H; [now destruct s|].
  cbn [Py.has_char] in H. apply orb_false_iff in H as [Ha Hp].
  destruct s as [|b s].
  - cbn. now rewrite Ha.
  - change (String b s ++ String c EmptyString)
      with (String b (s ++ String c EmptyString)).
    cbn [Py.startswith]. now rewrite IH.
Qed.

Lemma contains_app_char a p s c :
  Py.has_char c (String a p) = false ->
  Py.contains (String a p) (s ++ String c EmptyString)
  = Py.contains (String a p) s.
Proof.
  intros H. induction s as [|b s IH].
  - pose proof H as H'. cbn [Py.has_char] in H'.
    apply orb_false_iff in H' as [Ha _]. cbn. now rewrite Ha.
  - pose proof (startswith_app_char (String a p) c (String b s) H) as E.
    change (String b s ++ String c EmptyString)
      with (String b (s ++ String c EmptyString)) in E |- *.
    cbn [Py.contains]. now rewrite IH, E.
Qed.

Lemma startswith_missing c p : forall s,
  Py.has_char c p = true -> Py.has_char c s = false ->
  Py.startswith p s = false.
Proof.
  induction p as [|a p IH]; intros s Hp Hs; [discriminate|].
  destruct s as [|b s]; [reflexivity|].
  cbn [Py.has_char Py.startswith] in *.
  apply orb_false_iff in Hs as [Hb Hs].
  destruct (Ascii.eqb a b) eqn:Eab; [|reflexivity].
  apply Ascii.eqb_eq in Eab. subst b. rewrite Hb in Hp.
  cbn [orb] in Hp. now rewrite (IH s).
Qed.

(** A key word with a character that the text lacks is not in it. *)
Lemma contains_missing c p s :
  Py.has_char c p = true -> Py.has_char c s = false ->
  Py.contains p s = false.
Proof.
  intros Hp. induction s as [|b s IH]; intros Hs.
  - cbn [Py.contains]. now rewrite (startswith_missing c p).
  - cbn [Py.contains]. rewrite (startswith_missing c p) by trivial.
    cbn [Py.has_char] in Hs. apply orb_false_iff in Hs as [_ Hs].
    now rewrite IH.
Qed.

Lemma uint_digits d : all_digits (NilEmpty.string_of_uint d) = true.
Proof. induction d; cbn; trivial. Qed.

Lemma str_nat_digits i : all_digits (Py.str (Z.of_nat i)) = true.
Proof.
  unfold Py.str. destruct (Z.of_nat i) as [|p|p] eqn:E; try lia.
  - reflexivity.
  - cbn [Z.to_int NilZero.string_of_int NilZero.string_of_uint].
    destruct (Pos.to_uint p); try apply uint_digits. reflexivity.
Qed.

Lemma track_line_lacks c i :
  Py.is_digit c = false ->
  Py.has_char c "TRACK " = false -> Py.has_char c " AUDIO" = false ->
  Py.has_char c (track_line i) = false.
Proof.
  intros Hd H1 H2. unfold track_line.
  rewrite !has_char_app, H1, H2.
  now rewrite (all_digits_has_char c _ (str_nat_digits i) Hd).
Qed.

Lemma track_line_flags i :
  Py.contains "TITLE" (track_line i) = false
  /\ Py.contains "START" (track_line i) = false
  /\ Py.contains "END" (track_line i) = false
  /\ Py.contains "TRACK" (track_line i) = true
  /\ one_line (track_line i) = true.
Proof.
  repeat split.
  - apply (contains_missing "L"); [reflexivity|].
    now apply track_line_lacks.
  - apply (contains_missing "S"); [reflexivity|].
    now apply track_line_lacks.
  - apply (contains_missing "N"); [reflexivity|].
    now apply track_line_lacks.
  - unfold one_line. now rewrite !track_line_lacks.
Qed.

Lemma clean_inv banned s :
  clean banned s = true ->
  Py.has_char "010" s = false /\ Py.has_char "013" s = false
  /\ forall p, In p banned -> Py.contains p s = false.
Proof.
  unfold clean. intros H.
  apply andb_true_iff in H as [H Hb]. apply andb_true_iff in H as [H1 H2].
  apply negb_true_iff in H1, H2. repeat split; trivial.
  intros p Hp. rewrite forallb_forall in Hb. apply Hb in Hp.
  now apply negb_true_iff in Hp.
Qed.

Lemma title_line_flags ct :
  label_ok ct = true ->
  Py.contains "TITLE" (title_line ct) = true
  /\ Py.contains "START" (title_line ct) = false
  /\ Py.contains "END" (title_line ct) = false
  /\ Py.contains "TRACK" (title_line ct) = false
  /\ one_line (title_line ct) = true.
Proof.
  intros H. apply clean_inv in H as (Hlf & Hcr & Hb).
  split; [reflexivity|]. split; [|split; [|split]].
  - change (Py.contains "START" (title_line ct))
      with (Py.contains "START" (ct ++ String "034" EmptyString)).
    rewrite contains_app_char by reflexivity. apply Hb. cbn. tauto.
  - change (Py.contains "END" (title_line ct))
      with (Py.contains "END" (ct ++ String "034" EmptyString)).
    rewrite contains_app_char by reflexivity. apply Hb. cbn. tauto.
  - change (Py.contains "TRACK" (title_line ct))
      with (Py.contains "TRACK" (ct ++ String "034" EmptyString)).
    rewrite contains_app_char by reflexivity. apply Hb. cbn. tauto.
  - unfold one_line, title_line. rewrite !has_char_app, Hlf, Hcr. reflexivity.
Qed.

Lemma start_line_flags st :
  start_ok st = true ->
  Py.contains "TITLE" (start_line st) = false
  /\ Py.contains "START" (start_line st) = true
  /\ Py.contains "END" (start_line st) = false
  /\ Py.contains "TRACK" (start_line st) = false
  /\ one_line (start_line st) = true.
Proof.
  intros H. unfold start_ok in H. apply andb_true_iff in H as [H _].
  apply clean_inv in H as (Hlf & Hcr & Hb).
  split; [|split; [reflexivity|split; [|split]]].
  - change (Py.contains "TITLE" (start_line st)) with (Py.contains "TITLE" st).
    apply Hb. cbn. tauto.
  - change (Py.contains "END" (start_line st)) with (Py.contains "END" st).
    apply Hb. cbn. tauto.
  - change (Py.contains "TRACK" (start_line st)) with (Py.contains "TRACK" st).
    apply Hb. cbn. tauto.
  - unfold one_line, start_line. rewrite !has_char_app, Hlf, Hcr. reflexivity.
Qed.

Lemma end_line_flags en :
  end_ok en = true ->
  Py.contains "TITLE" (end_line en) = false
  /\ Py.contains "START" (end_line en) = false
  /\ Py.contains "END" (end_line en) = true
  /\ Py.contains "TRACK" (end_line en) = false
  /\ one_line (end_line en) = true.
Proof.
  intros H. unfold end_ok in H. apply andb_true_iff in H as [H _].
  apply clean_inv in H as (Hlf & Hcr & Hb).
  split; [|split; [|split; [reflexivity|split]]].
  - change (Py.contains "TITLE" (end_line en)) with (Py.contains "TITLE" en).
    apply Hb. cbn. tauto.
  - change (Py.contains "START" (end_line en)) with (Py.contains "START" en).
    apply Hb. cbn. tauto.
  - change (Py.contains "TRACK" (end_line en)) with (Py.contains "TRACK" en).
    apply Hb. cbn. tauto.
  - unfold one_line, end_line. rewrite !has_char_app, Hlf, Hcr. reflexivity.
Qed.

(** ** The three searches on the lines that were written *)

Lemma re_search_here here s g :
  here s = Some g -> re_search here s = Some g.
Proof. intros H. destruct s; cbn [re_search]; now rewrite H. Qed.

Lemma re_search_skip here c s :
  here (String c s) = None ->
  re_search here (String c s) = re_search here s.
Proof. intros H. cbn [re_search]. now rewrite H. Qed.

Lemma dot_run_id s : Py.has_char "010" s = false -> dot_run s = s.
Proof.
  induction s as [|c s IH]; cbn [dot_run Py.has_char]; [reflexivity|].
  intros H. apply orb_false_iff in H as [Hc Hs]. now rewrite Hc, IH.
Qed.

Lemma upto_last_quote_app s :
  upto_last_quote (s ++ String "034" EmptyString) = Some s.
Proof.
  induction s as [|c s IH]; [reflexivity|].
  change (String c s ++ String "034" EmptyString)
    with (String c (s ++ String "034" EmptyString)).
  cbn [upto_last_quote]. now rewrite IH.
Qed.

Lemma has_char_app_char c s x :
  Py.has_char c s = false -> Ascii.eqb x c = false ->
  Py.has_char c (s ++ String x EmptyString) = false.
Proof.
  intros Hs Hx. rewrite has_char_app, Hs. cbn. now rewrite Hx.
Qed.

Lemma search_title_line ct :
  Py.has_char "010" ct = false ->
  re_search title_here (title_line ct) = Some ct.
Proof.
  intros H. unfold title_line.
  change ("  TITLE" ++ TAB ++ QUOTE ++ ct ++ QUOTE)
    with (String " " (String " "
            ("TITLE" ++ TAB ++ QUOTE ++ ct ++ String "034" EmptyString))).
  rewrite !re_search_skip by reflexivity.
  apply re_search_here.
  change (title_here ("TITLE" ++ TAB ++ QUOTE ++ ct ++ String "034" EmptyString))
    with (upto_last_quote (dot_run (ct ++ String "034" EmptyString))).
  rewrite dot_run_id by (now apply has_char_app_char).
  apply upto_last_quote_app.
Qed.

Lemma search_start_line st :
  start_ok st = true ->
  re_search start_here (start_line st) = Some st.
Proof.
  unfold start_ok. intros H. apply andb_true_iff in H as [H Hne].
  apply clean_inv in H as (Hlf & _ & _).
  unfold start_line.
  change ("  START" ++ TAB ++ st)
    with (String " " (String " " ("START" ++ TAB ++ st))).
  rewrite !re_search_skip by reflexivity.
  apply re_search_here.
  change (start_here ("START" ++ TAB ++ st))
    with (match dot_run st with
          | EmptyString => None
          | g => Some g
          end).
  rewrite dot_run_id by exact Hlf. now destruct st.
Qed.

Lemma search_end_line en :
  end_ok en = true ->
  re_search end_here (end_line en) = Some en.
Proof.
  unfold end_ok. intros H. apply andb_true_iff in H as [H Hne].
  apply clean_inv in H as (Hlf & _ & _).
  destruct en as [|c en]; [discriminate|]. apply negb_true_iff in Hne.
  unfold end_line.
  change ("  END" ++ TAB ++ TAB ++ String c en)
    with (String " " (String " " ("END" ++ TAB ++ TAB ++ String c en))).
  rewrite !re_search_skip by reflexivity.
  apply re_search_here.
  unfold end_here.
  change (Py.startswith ("END" ++ TAB) ("END" ++ TAB ++ TAB ++ String c en))
    with true.
  change (drop 3 ("END" ++ TAB ++ TAB ++ String c en))
    with (String "009" (String "009" (String c en))).
  cbn [span_tabs]. rewrite Hne.
  change (Ascii.eqb "009" "009") with true. cbn iota.
  rewrite dot_run_id by exact Hlf. reflexivity.
Qed.

(** ** One turn of the reader on each kind of line *)

Section ReadLine.

Variables (n : nat) (stn : string).

Lemma read_track_line i k r :
  read_line n (start_line stn) i (track_line k) r =
  Ok (if nonempty_dict (time_dict r)
      then {| done := (done r ++ repeat (time_dict r) (S (aliases r)))%list;
              aliases := 0;
              time_dict := empty_dict |}
      else {| done := done r; aliases := aliases r;
              time_dict := time_dict r |}).
Proof.
  destruct (track_line_flags k) as (H1 & H2 & H3 & H4 & _).
  unfold read_line. rewrite H1, H2, H3, H4.
  cbn [mbind result_bind andb].
  destruct (nonempty_dict (time_dict r)); [reflexivity|].
  now rewrite andb_false_r.
Qed.

Lemma read_title_line i ct r :
  label_ok ct = true ->
  read_line n (start_line stn) i (title_line ct) r =
  Ok {| done := done r; aliases := aliases r;
        time_dict := set_chapter_type (time_dict r) ct |}.
Proof.
  intros H. destruct (title_line_flags ct H) as (H1 & H2 & H3 & H4 & _).
  apply clean_inv in H as (Hlf & _ & _).
  unfold read_line, group1. rewrite H1, H2, H3, H4, search_title_line by trivial.
  cbn [mbind result_bind andb]. reflexivity.
Qed.

Lemma read_start_line i st r :
  start_ok st = true ->
  read_line n (start_line stn) i (start_line st) r =
  Ok {| done := done r;
        aliases := if String.eqb st stn then S (aliases r) else aliases r;
        time_dict := set_start (time_dict r) st |}.
Proof.
  intros H. destruct (start_line_flags st H) as (H1 & H2 & H3 & H4 & _).
  unfold read_line, group1. rewrite H1, H2, H3, H4, search_start_line by trivial.
  cbn [mbind result_bind andb].
  change (String.eqb (start_line st) (start_line stn)) with (String.eqb st stn).
  now destruct (String.eqb st stn).
Qed.

Lemma read_end_line i en r :
  end_ok en = true -> i <> (n - 1)%nat ->
  read_line n (start_line stn) i (end_line en) r =
  Ok {| done := done r; aliases := aliases r;
        time_dict := set_end (time_dict r) en |}.
Proof.
  intros H Hi. destruct (end_line_flags en H) as (H1 & H2 & H3 & H4 & _).
  apply Nat.eqb_neq in Hi.
  unfold read_line, group1. rewrite H1, H2, H3, H4, Hi, search_end_line by trivial.
  cbn [mbind result_bind andb negb]. reflexivity.
Qed.

End ReadLine.

(** ** Reading back a sidecar that was written *)

Lemma nonempty_dict_false d : nonempty_dict d = false -> d = empty_dict.
Proof.
  destruct d as [[s|] [c|] [e|]]; cbn; intros H; try discriminate.
  reflexivity.
Qed.

Lemma final_start_cons d d' rest :
  final_start (d :: d' :: rest) = final_start (d' :: rest).
Proof. reflexivity. Qed.

Lemma track_bodies_cons k d rest :
  track_bodies k (d :: rest) =
  track_line k
    :: title_line (text_or_empty (chapter_type d))
    :: start_line (text_or_empty (start d))
    :: (match rest with
        | [] => []
        | _ => [end_line (text_or_empty (end_ d))]
        end ++ track_bodies (S k) rest)%list.
Proof. reflexivity. Qed.

Lemma read_lines_cons n final i line rest r :
  read_lines n final i (line :: rest) r =
  r' ← read_line n final i line r; read_lines n final (S i) rest r'.
Proof. reflexivity. Qed.

(** The reader on the lines of the tracks [rest], entered with the
    finished dictionaries [done0] and the dictionary [prev] of the track
    before, which the next [TRACK] line closes. *)
Lemma read_tracks n stn rest : forall k i done0 prev,
  rest <> [] ->
  sidecar_safe rest = true ->
  last_start_fresh rest = true ->
  final_start rest = Some stn ->
  (i + List.length (track_bodies k rest) <= n - 1)%nat ->
  exists r,
    read_lines n (start_line stn) i (track_bodies k rest)
      {| done := done0; aliases := 0; time_dict := prev |} = Ok r
    /\ reader_timecodes r
       = (done0 ++ (if nonempty_dict prev then [prev] else [])
            ++ erase_last_end rest)%list.
Proof.
  induction rest as [|d rest IH]; intros k i done0 prev Hne Hsafe Hfresh Hfin Hlen;
    [contradiction|].
  cbn [sidecar_safe] in Hsafe.
  destruct d as [st ct en]. cbn [chapter_type start end_] in Hsafe.
  destruct ct as [ct|]; [|discriminate]. destruct st as [st|]; [|discriminate].
  apply andb_true_iff in Hsafe as [Hsafe Hrest].
  apply andb_true_iff in Hsafe as [Hsafe Hen].
  apply andb_true_iff in Hsafe as [Hct Hst].
  rewrite track_bodies_cons in Hlen |- *.
  cbn [chapter_type start end_ text_or_empty] in Hlen |- *.
  rewrite read_lines_cons, read_track_line. cbn [mbind result_bind].
  set (done1 := (done0 ++ (if nonempty_dict prev then [prev] else []))%list).
  assert (E1 : (if nonempty_dict prev
                then {| done := (done0 ++ repeat prev 1)%list; aliases := 0;
                        time_dict := empty_dict |}
                else {| done := done0; aliases := 0; time_dict := prev |})
               = {| done := done1; aliases := 0; time_dict := empty_dict |}).
  { subst done1. destruct (nonempty_dict prev) eqn:Ep; [reflexivity|].
    rewrite (nonempty_dict_false prev Ep). now rewrite app_nil_r. }
  cbn [done aliases time_dict]. rewrite E1.
  rewrite read_lines_cons, read_title_line by exact Hct. cbn [mbind result_bind].
  rewrite read_lines_cons, read_start_line by exact Hst. cbn [mbind result_bind].
  cbn [done aliases time_dict set_chapter_type set_start empty_dict
       start chapter_type end_].
  destruct rest as [|d' rest].
  - (* the last track *)
    cbn [final_start List.map List.last start] in Hfin. injection Hfin as <-.
    rewrite String.eqb_refl. cbn [app track_bodies read_lines].
    eexists. split; [reflexivity|].
    unfold reader_timecodes. cbn [done aliases time_dict repeat erase_last_end
      start chapter_type end_]. subst done1. now rewrite <- app_assoc.
  - (* a track with an END line *)
    destruct en as [en|]; [|discriminate].
    cbn [last_start_fresh start] in Hfresh.
    apply andb_true_iff in Hfresh as [Hneq Hfresh].
    rewrite final_start_cons in Hfin. rewrite Hfin in Hneq.
    cbn [option_eqb] in Hneq. apply negb_true_iff in Hneq. rewrite Hneq.
    cbn [app text_or_empty] in Hlen |- *. cbn [List.length] in Hlen.
    rewrite read_lines_cons, read_end_line by (trivial; lia).
    cbn [mbind result_bind done aliases time_dict set_end
         start chapter_type end_].
    destruct (IH (S k) (S (S (S (S i)))) done1
                {| start := Some st; chapter_type := Some ct; end_ := Some en |})
      as (r & Hr & Ht); trivial; [discriminate|lia|].
    exists r. split; [exact Hr|]. rewrite Ht.
    cbn [nonempty_dict start chapter_type end_ erase_last_end].
    subst done1. now rewrite <- !app_assoc.
Qed.

Lemma track_block_bodies i ct st :
  track_block i ct st
  = List.map with_lf [track_line i; title_line ct; start_line st].
Proof.
  unfold track_block, with_lf, track_line, title_line, start_line.
  cbn [List.map]. now rewrite !str_app_assoc.
Qed.

Lemma end_chunk_body en : end_chunk en = with_lf (end_line en).
Proof. unfold end_chunk, with_lf, end_line. now rewrite !str_app_assoc. Qed.

Lemma header_chunk_body cue_path :
  "FILE " ++ QUOTE ++ stem cue_path ++ ".mp3" ++ QUOTE ++ " MP3" ++ LF
  = with_lf (header_line cue_path).
Proof. unfold with_lf, header_line. now rewrite !str_app_assoc. Qed.

Lemma track_chunks_bodies n timecodes : forall k,
  sidecar_safe timecodes = true ->
  (k + List.length timecodes = S n)%nat ->
  track_chunks k n timecodes
  = (List.map with_lf (track_bodies k timecodes), None).
Proof.
  induction timecodes as [|d rest IH]; intros k Hsafe Hlen; [reflexivity|].
  cbn [sidecar_safe] in Hsafe.
  destruct d as [st ct en]. cbn [chapter_type start end_] in Hsafe.
  destruct ct as [ct|]; [|discriminate]. destruct st as [st|]; [|discriminate].
  apply andb_true_iff in Hsafe as [Hsafe Hrest].
  apply andb_true_iff in Hsafe as [_ Hen].
  cbn [List.length] in Hlen.
  rewrite track_bodies_cons. cbn [track_chunks chapter_type start end_].
  destruct rest as [|d' rest].
  - cbn [List.length] in Hlen.
    replace (k =? n)%nat with true by (symmetry; apply Nat.eqb_eq; lia).
    cbn [track_chunks]. now rewrite track_block_bodies.
  - cbn [List.length] in Hlen.
    replace (k =? n)%nat with false by (symmetry; apply Nat.eqb_neq; lia).
    destruct en as [en|]; [|discriminate].
    rewrite (IH (S k) Hrest) by (cbn [List.length]; lia).
    now rewrite track_block_bodies, end_chunk_body.
Qed.

Lemma track_bodies_one_line timecodes : forall k,
  sidecar_safe timecodes = true ->
  forallb one_line (track_bodies k timecodes) = true.
Proof.
  induction timecodes as [|d rest IH]; intros k Hsafe; [reflexivity|].
  cbn [sidecar_safe] in Hsafe.
  destruct d as [st ct en]. cbn [chapter_type start end_] in Hsafe.
  destruct ct as [ct|]; [|discriminate]. destruct st as [st|]; [|discriminate].
  apply andb_true_iff in Hsafe as [Hsafe Hrest].
  apply andb_true_iff in Hsafe as [Hsafe Hen].
  apply andb_true_iff in Hsafe as [Hct Hst].
  rewrite track_bodies_cons. cbn [forallb chapter_type start end_ text_or_empty].
  destruct (track_line_flags k) as (_ & _ & _ & _ & ->).
  destruct (title_line_flags ct Hct) as (_ & _ & _ & _ & ->).
  destruct (start_line_flags st Hst) as (_ & _ & _ & _ & ->).
  cbn [andb]. destruct rest as [|d' rest]; [reflexivity|].
  destruct en as [en|]; [|discriminate].
  cbn [app forallb text_or_empty].
  destruct (end_line_flags en Hen) as (_ & _ & _ & _ & ->).
  now apply IH.
Qed.

Lemma last_track_body timecodes : forall k x stn,
  timecodes <> [] ->
  final_start timecodes = Some stn ->
  List.last (x :: track_bodies k timecodes) EmptyString = start_line stn.
Proof.
  induction timecodes as [|d rest IH]; intros k x stn Hne Hfin; [contradiction|].
  rewrite track_bodies_cons. destruct rest as [|d' rest].
  - cbn [final_start List.map List.last] in Hfin. rewrite Hfin. reflexivity.
  - rewrite final_start_cons in Hfin.
    change (List.last (x :: track_line k
              :: title_line (text_or_empty (chapter_type d))
              :: start_line (text_or_empty (start d))
              :: ([end_line (text_or_empty (end_ d))]
                  ++ track_bodies (S k) (d' :: rest))%list) EmptyString)
      with (List.last (end_line (text_or_empty (end_ d))
                         :: track_bodies (S k) (d' :: rest)) EmptyString).
    apply IH; [discriminate|exact Hfin].
Qed.

Lemma sidecar_safe_final_start timecodes :
  timecodes <> [] -> sidecar_safe timecodes = true ->
  exists stn, final_start timecodes = Some stn.
Proof.
  induction timecodes as [|d rest IH]; intros Hne Hsafe; [contradiction|].
  cbn [sidecar_safe] in Hsafe.
  destruct (chapter_type d); [|discriminate].
  destruct (start d) as [st|] eqn:Es; [|discriminate].
  apply andb_true_iff in Hsafe as [_ Hrest].
  destruct rest as [|d' rest].
  - exists st. cbn [final_start List.map List.last]. exact Es.
  - rewrite final_start_cons. apply IH; [discriminate|exact Hrest].
Qed.

(** Outside the failing case of C1 the sidecar is read back as written:
    for a non-empty list whose texts a sidecar line carries and in which
    no earlier start equals the last one, written to a fresh path,
    [read_cue_file] returns the list without the end of its last
    dictionary, which the file does not hold. *)
Theorem sidecar_round_trip timecodes cue_path (fs : gmap string string) :
  timecodes <> [] ->
  sidecar_safe timecodes = true ->
  last_start_fresh timecodes = true ->
  one_line (stem cue_path) = true ->
  fs !! path_str cue_path = None ->
  fst (write_cue_file timecodes cue_path None fs) = Ok true
  /\ read_cue_file cue_path (snd (write_cue_file timecodes cue_path None fs))
     = Ok (Some (erase_last_end timecodes)).
Proof.
  intros Hne Hsafe Hfresh Hstem Hfs.
  unfold write_cue_file, cue_chunks. rewrite Hfs.
  rewrite (track_chunks_bodies (List.length timecodes)) by (trivial; lia).
  cbn [fst snd]. split; [reflexivity|].
  unfold read_cue_file. rewrite lookup_insert_eq.
  rewrite header_chunk_body.
  change (with_lf (header_line cue_path)
            :: List.map with_lf (track_bodies 1 timecodes))
    with (List.map with_lf (header_line cue_path :: track_bodies 1 timecodes)).
  rewrite lines_of_text.
  2:{ cbn [forallb]. rewrite track_bodies_one_line by exact Hsafe.
      unfold one_line in Hstem |- *. apply andb_true_iff in Hstem as [H1 H2].
      apply negb_true_iff in H1, H2.
      unfold header_line. now rewrite !has_char_app, H1, H2. }
  destruct (sidecar_safe_final_start timecodes Hne Hsafe) as (stn & Hfin).
  unfold read_cue_content.
  rewrite (last_track_body timecodes 1 _ stn Hne Hfin).
  cbn [List.tl List.length].
  destruct (read_tracks (S (List.length (track_bodies 1 timecodes))) stn
              timecodes 1 0 [] empty_dict) as (r & -> & Hr); trivial; [lia|].
  cbn [mbind result_bind]. rewrite Hr.
  cbn [nonempty_dict empty_dict start chapter_type end_ app].
  destruct timecodes as [|d [|d' rest]]; [contradiction| |]; reflexivity.
Qed.

Lemma sidecar_round_trip_witness :
  fst (write_cue_file sample_timecodes cue_book None ∅) = Ok true
  /\ read_cue_file cue_book (snd (write_cue_file sample_timecodes cue_book None ∅))
     = Ok (Some (erase_last_end sample_timecodes)).
Proof.
  apply (sidecar_round_trip sample_timecodes cue_book ∅);
    [discriminate|reflexivity|reflexivity|reflexivity|reflexivity].
Defined.

(** ** The starts that the detector extracts *)

Lemma start_regexp_here_shape line g :
  start_regexp_here line = Some g ->
  stamp_text (Py.replace "," "." g) = true.
Proof.
  destruct line as [|h1 [|h2 [|c1 [|m1 [|m2 [|c2 [|s1 [|s2 [|c3 r]]]]]]]]];
    cbn [start_regexp_here]; try discriminate.
  match goal with
  | |- (if ?c then _ else _) = _ -> _ => destruct c eqn:E; [|discriminate]
  end.
  do 8 (apply andb_true_iff in E as [E ?]).
  repeat match goal with
         | H : Ascii.eqb _ _ = true |- _ => apply Ascii.eqb_eq in H; subst
         end.
  pose proof (span_digits_all r) as Hd.
  destruct (span_digits r) as [d r']. cbn [fst] in Hd.
  destruct d as [|x d]; [discriminate|].
  destruct r' as [|w [|y r']]; try discriminate.
  destruct (Ascii.eqb y "-"%char) eqn:Ey.
  2:{ destruct y as [[] [] [] [] [] [] [] []]; try discriminate Ey;
        discriminate. }
  destruct (Py.is_space w); intros Hg;
    [|destruct y as [[] [] [] [] [] [] [] []]; discriminate].
  assert (Hg' : g = String h1 (String h2 (String ":" (String m1 (String m2
                  (String ":" (String s1 (String s2 (String "," (String x d)))))))))).
  { destruct y as [[] [] [] [] [] [] [] []]; try discriminate Ey.
    now injection Hg as <-. }
  subst g. cbn [Py.replace stamp_text].
  pose proof Hd as Hd'. cbn [all_digits] in Hd'.
  apply andb_true_iff in Hd' as [Hx Hd'].
  repeat match goal with
         | H : Py.is_digit ?c = true |- context [Ascii.eqb ?c ","%char] =>
             rewrite (digit_eqb c "," H eq_refl)
         end.
  change (Ascii.eqb ":" ",") with false. change (Ascii.eqb "," ",") with true.
  cbn iota.
  rewrite (replace_digits "," "." d) by trivial.
  repeat match goal with
         | H : Py.is_digit ?c = true |- context [Py.is_digit ?c] => rewrite H
         end.
  cbn [all_digits]. rewrite Hx, Hd'. reflexivity.
Qed.

Lemma start_regexp_shape line g :
  start_regexp line = Some g ->
  stamp_text (Py.replace "," "." g) = true.
Proof.
  induction line as [|c line IH]; cbn [start_regexp].
  - destruct (start_regexp_here EmptyString) eqn:E; [|discriminate].
    intros [= <-]. now apply start_regexp_here_shape in E.
  - destruct (start_regexp_here (String c line)) eqn:E.
    + intros [= <-]. now apply start_regexp_here_shape in E.
    + exact IH.
Qed.

Lemma recognized_shape excluded_phrases markers srt_content :
  Forall (fun h => stamp_text (fst h) = true)
    (recognized excluded_phrases markers srt_content).
Proof.
  induction srt_content as [|line rest IH]; [constructor|].
  destruct rest as [|next rest]; [constructor|].
  rewrite recognized_cons.
  destruct (candidate excluded_phrases markers next); [|exact IH].
  destruct (start_regexp line) as [g|] eqn:E; [|exact IH].
  constructor; [|exact IH]. now apply start_regexp_shape in E.
Qed.

(** ** Ends after finalization, in the pipeline *)

Lemma parse_timecodes_inv srt_content excluded_phrases markers L :
  parse_timecodes srt_content excluded_phrases markers = Ok L ->
  exists new,
    scan excluded_phrases markers srt_content [] 1 = Ok new
    /\ add_ends new = Ok L /\ L <> [].
Proof.
  unfold parse_timecodes. intros H.
  destruct excluded_phrases as [|x xs]; [discriminate|].
  destruct markers as [|m ms]; [discriminate|].
  destruct (scan (x :: xs) (m :: ms) srt_content [] 1) as [new| |] eqn:Hs;
    try discriminate.
  cbn [mbind result_bind] in H.
  destruct (add_ends new) as [L'| |] eqn:Ha; try discriminate.
  cbn [mbind result_bind] in H.
  destruct L' as [|d L']; [discriminate|]. injection H as <-.
  exists new. repeat split; trivial. discriminate.
Qed.

(** ** The labels that the detector gives *)

Lemma to_lower_not_upper c : Py.is_upper (Py.to_lower c) = false.
Proof. destruct c as [[] [] [] [] [] [] [] []]; reflexivity. Qed.

Lemma to_upper_upper c :
  Py.is_upper (Py.to_upper c) = true -> Py.is_cased c = true.
Proof.
  destruct c as [[] [] [] [] [] [] [] []]; intros H;
    try reflexivity; discriminate H.
Qed.

Lemma to_lower_lf c : Ascii.eqb (Py.to_lower c) "010" = Ascii.eqb c "010".
Proof. destruct c as [[] [] [] [] [] [] [] []]; reflexivity. Qed.

Lemma to_upper_lf c : Ascii.eqb (Py.to_upper c) "010" = Ascii.eqb c "010".
Proof. destruct c as [[] [] [] [] [] [] [] []]; reflexivity. Qed.

Lemma to_lower_cr c : Ascii.eqb (Py.to_lower c) "013" = Ascii.eqb c "013".
Proof. destruct c as [[] [] [] [] [] [] [] []]; reflexivity. Qed.

Lemma to_upper_cr c : Ascii.eqb (Py.to_upper c) "013" = Ascii.eqb c "013".
Proof. destruct c as [[] [] [] [] [] [] [] []]; reflexivity. Qed.

Lemma title_from_has_char x s :
  (forall c, Ascii.eqb (Py.to_lower c) x = Ascii.eqb c x) ->
  (forall c, Ascii.eqb (Py.to_upper c) x = Ascii.eqb c x) ->
  forall b, Py.has_char x (Py.title_from b s) = Py.has_char x s.
Proof.
  intros Hl Hu. induction s as [|c s IH]; intros b; [reflexivity|].
  cbn [Py.title_from Py.has_char]. rewrite IH.
  destruct b; now rewrite ?Hl, ?Hu.
Qed.

Lemma title_from_one_line s b :
  one_line (Py.title_from b s) = one_line s.
Proof.
  unfold one_line.
  rewrite (title_from_has_char "010" s to_lower_lf to_upper_lf).
  now rewrite (title_from_has_char "013" s to_lower_cr to_upper_cr).
Qed.

(** In a title-cased text no upper-case letter follows another one. *)
Lemma title_from_no_upper_pair s : forall b,
  no_upper_pair (Py.title_from b s) = true.
Proof.
  induction s as [|c s IH]; intros b; [reflexivity|].
  cbn [Py.title_from]. destruct s as [|c' s]; [reflexivity|].
  specialize (IH (Py.is_cased c)). cbn [Py.title_from] in IH |- *.
  cbn [no_upper_pair]. apply andb_true_iff. split; [|exact IH].
  apply negb_true_iff.
  destruct (Py.is_cased c) eqn:Ec.
  - rewrite to_lower_not_upper. apply andb_false_r.
  - destruct b.
    + now rewrite to_lower_not_upper.
    + destruct (Py.is_upper (Py.to_upper c)) eqn:Eu; [|reflexivity].
      apply to_upper_upper in Eu. congruence.
Qed.

(** A key word that begins with two upper-case letters is in no text
    without two upper-case letters in a row. *)
Lemma no_upper_pair_contains a b p s :
  Py.is_upper a = true -> Py.is_upper b = true ->
  no_upper_pair s = true ->
  Py.contains (String a (String b p)) s = false.
Proof.
  intros Ha Hb. induction s as [|x s IH]; intros H; [reflexivity|].
  cbn [Py.contains]. destruct s as [|y s].
  - cbn. now rewrite andb_false_r.
  - cbn [no_upper_pair] in H. apply andb_true_iff in H as [Hxy H].
    rewrite (IH H), orb_false_r. cbn [Py.startswith].
    destruct (Ascii.eqb a x) eqn:Eax; [|reflexivity].
    destruct (Ascii.eqb b y) eqn:Eby; [|reflexivity].
    apply Ascii.eqb_eq in Eax, Eby. subst x y.
    now rewrite Ha, Hb in Hxy.
Qed.

Lemma no_upper_pair_app a x b :
  no_upper_pair a = true -> Py.is_upper x = false ->
  no_upper_pair (String x b) = true ->
  no_upper_pair (a ++ String x b) = true.
Proof.
  intros Ha Hx Hb. induction a as [|c a IH]; [exact Hb|].
  destruct a as [|c' a].
  - change (no_upper_pair (String c EmptyString ++ String x b))
      with (negb (Py.is_upper c && Py.is_upper x)
            && no_upper_pair (String x b)).
    now rewrite Hx, andb_false_r, Hb.
  - change (String c (String c' a) ++ String x b)
      with (String c (String c' (a ++ String x b))).
    cbn [no_upper_pair] in Ha.
    apply andb_true_iff in Ha as [Hcc Ha].
    change (no_upper_pair (String c (String c' (a ++ String x b))))
      with (negb (Py.is_upper c && Py.is_upper c')
            && no_upper_pair (String c' a ++ String x b)).
    rewrite Hcc. now apply IH.
Qed.

Lemma timecode_char_not_upper c :
  timecode_char c = true -> Py.is_upper c = false.
Proof.
  destruct c as [[] [] [] [] [] [] [] []]; intros H;
    try reflexivity; discriminate H.
Qed.

Lemma timecode_chars_no_upper_pair s :
  timecode_chars s = true -> no_upper_pair s = true.
Proof.
  induction s as [|c s IH]; intros H; [reflexivity|].
  cbn [timecode_chars] in H. apply andb_true_iff in H as [Hc Hs].
  destruct s as [|c' s]; [reflexivity|].
  change (negb (Py.is_upper c && Py.is_upper c')
          && no_upper_pair (String c' s) = true).
  now rewrite (timecode_char_not_upper c Hc), (IH Hs).
Qed.

Lemma timecode_chars_lacks c s :
  timecode_char c = false -> timecode_chars s = true ->
  Py.has_char c s = false.
Proof.
  intros Hc. induction s as [|x s IH]; intros H; [reflexivity|].
  cbn [timecode_chars Py.has_char] in *.
  apply andb_true_iff in H as [Hx Hs].
  rewrite (IH Hs), orb_false_r.
  destruct (Ascii.eqb x c) eqn:E; [|reflexivity].
  apply Ascii.eqb_eq in E. congruence.
Qed.

Lemma timecode_chars_app a b :
  timecode_chars (a ++ b) = timecode_chars a && timecode_chars b.
Proof.
  induction a as [|x a IH]; simpl; [reflexivity|].
  now rewrite IH, andb_assoc.
Qed.

Lemma all_digits_timecode_chars s :
  all_digits s = true -> timecode_chars s = true.
Proof.
  induction s as [|c s IH]; intros H; [reflexivity|].
  cbn [all_digits timecode_chars] in *.
  apply andb_true_iff in H as [Hc Hs].
  unfold timecode_char. now rewrite Hc, IH.
Qed.

Lemma nilzero_uint_digits d : all_digits (NilZero.string_of_uint d) = true.
Proof.
  destruct d; [reflexivity| | | | | | | | | |];
    match goal with
    | |- all_digits (NilZero.string_of_uint ?u) = true =>
        exact (uint_digits u)
    end.
Qed.

Lemma str_timecode_chars z : timecode_chars (Py.str z) = true.
Proof.
  unfold Py.str. destruct z as [|p|p]; [reflexivity| |].
  - apply all_digits_timecode_chars.
    exact (nilzero_uint_digits (Pos.to_uint p)).
  - change (timecode_char "-"
            && timecode_chars (NilZero.string_of_uint (Pos.to_uint p)) = true).
    rewrite all_digits_timecode_chars by apply nilzero_uint_digits.
    reflexivity.
Qed.

Lemma chapter_count_timecode_chars c : timecode_chars (chapter_count c) = true.
Proof.
  unfold chapter_count. destruct (c <? 10).
  - change ("0" ++ Py.str c) with (String "0" (Py.str c)).
    cbn [timecode_chars]. now rewrite str_timecode_chars.
  - apply str_timecode_chars.
Qed.

Lemma label_ok_of s :
  one_line s = true -> no_upper_pair s = true -> label_ok s = true.
Proof.
  intros H1 Hn. unfold label_ok, clean. unfold one_line in H1. rewrite H1.
  cbn [forallb andb].
  now rewrite !no_upper_pair_contains by trivial.
Qed.

Lemma one_line_app a b : one_line (a ++ b) = one_line a && one_line b.
Proof.
  unfold one_line. rewrite !has_char_app.
  destruct (Py.has_char "010" a), (Py.has_char "013" a),
    (Py.has_char "010" b), (Py.has_char "013" b); reflexivity.
Qed.

Lemma timecode_chars_one_line s : timecode_chars s = true -> one_line s = true.
Proof.
  intros H. unfold one_line.
  now rewrite !timecode_chars_lacks by trivial.
Qed.

Lemma chapter_label_ok m2 c :
  one_line m2 = true -> label_ok (chapter_label m2 c) = true.
Proof.
  intros H. unfold chapter_label. apply label_ok_of.
  - rewrite one_line_app. unfold Py.title. rewrite title_from_one_line, H.
    change (" " ++ chapter_count c) with (String " " (chapter_count c)).
    change (one_line (String " " (chapter_count c)))
      with (one_line (chapter_count c)).
    apply timecode_chars_one_line, chapter_count_timecode_chars.
  - change (" " ++ chapter_count c) with (String " " (chapter_count c)).
    apply no_upper_pair_app; [apply title_from_no_upper_pair|reflexivity|].
    pose proof (timecode_chars_no_upper_pair _
                  (chapter_count_timecode_chars c)) as Hc.
    destruct (chapter_count c) as [|x s]; [reflexivity|].
    change (negb (Py.is_upper " " && Py.is_upper x)
            && no_upper_pair (String x s) = true).
    now rewrite Hc.
Qed.

Lemma title_label_ok m : one_line m = true -> label_ok (Py.title m) = true.
Proof.
  intros H. apply label_ok_of.
  - unfold Py.title. now rewrite title_from_one_line.
  - apply title_from_no_upper_pair.
Qed.

Lemma marker_one_line markers k m :
  forallb one_line markers = true ->
  nth_error markers k = Some m -> one_line m = true.
Proof.
  intros H Hk. rewrite forallb_forall in H. apply H.
  now apply nth_error_In with k.
Qed.

(** Every label that the detector gives is carried by a [TITLE] line,
    provided the markers of the language are single lines. *)
Lemma classify_label_ok markers next c lbl c' :
  forallb one_line markers = true ->
  classify markers next c = Ok (lbl, c') -> label_ok lbl = true.
Proof.
  intros Hm. unfold classify, marker.
  destruct (nth_error markers 0) as [m0|] eqn:E0; [|discriminate].
  cbn [mbind result_bind].
  pose proof (marker_one_line markers 0 m0 Hm E0) as H0.
  destruct (Py.contains m0 next); cbn [mbind result_bind].
  { intros [= <- _]. now apply title_label_ok. }
  destruct (nth_error markers 1) as [m1|]; [|discriminate].
  cbn [mbind result_bind].
  destruct (Py.contains m1 next); cbn [mbind result_bind].
  { intros [= <- _]. now apply title_label_ok. }
  destruct (nth_error markers 2) as [m2|] eqn:E2; [|discriminate].
  cbn [mbind result_bind].
  pose proof (marker_one_line markers 2 m2 Hm E2) as H2.
  destruct (Py.contains m2 next).
  - intros [= <- _]. now apply chapter_label_ok.
  - destruct (nth_error markers 3) as [m3|]; [|discriminate].
    cbn [mbind result_bind]. destruct (Py.contains m3 next).
    + intros [= <- _]. now apply title_label_ok.
    + intros [= <- _]. reflexivity.
Qed.

(** ** Timecodes on a sidecar line *)

Lemma timecode_chars_clean s :
  timecode_chars s = true ->
  clean ["TRACK"; "TITLE"; "END"] s = true
  /\ clean ["TRACK"; "TITLE"; "START"] s = true.
Proof.
  intros H. unfold clean.
  rewrite !timecode_chars_lacks by trivial. cbn [forallb negb andb].
  rewrite (contains_missing "T" "TRACK" s),
          (contains_missing "T" "TITLE" s),
          (contains_missing "E" "END" s),
          (contains_missing "S" "START" s)
    by (trivial; now apply timecode_chars_lacks).
  now split.
Qed.

Lemma timecode_chars_start_ok c s :
  timecode_chars (String c s) = true -> start_ok (String c s) = true.
Proof.
  intros H. unfold start_ok.
  destruct (timecode_chars_clean _ H) as [-> _]. reflexivity.
Qed.

Lemma timecode_chars_end_ok c s :
  timecode_chars (String c s) = true -> end_ok (String c s) = true.
Proof.
  intros H. unfold end_ok.
  destruct (timecode_chars_clean _ H) as [_ ->].
  cbn [timecode_chars] in H. apply andb_true_iff in H as [Hc _].
  destruct (Ascii.eqb c "009") eqn:E; [|reflexivity].
  apply Ascii.eqb_eq in E. subst c. discriminate Hc.
Qed.

Lemma timecode_chars_char2 a b :
  Py.is_digit a = true -> Py.is_digit b = true ->
  timecode_chars (char2 a b) = true.
Proof.
  intros Ha Hb. apply all_digits_timecode_chars. cbn. now rewrite Ha, Hb.
Qed.

Lemma timecode_chars_dec_field x v : timecode_chars (dec_field x v) = true.
Proof.
  unfold dec_field. destruct (pattern_match x).
  - change ("0" ++ Py.str (v - 1)) with (String "0" (Py.str (v - 1))).
    cbn [timecode_chars]. now rewrite str_timecode_chars.
  - apply str_timecode_chars.
Qed.

Lemma timecode_chars_stamp hh mm ss frac :
  timecode_chars hh = true -> timecode_chars mm = true ->
  timecode_chars ss = true -> timecode_chars frac = true ->
  timecode_chars (stamp hh mm ss frac) = true.
Proof.
  intros H1 H2 H3 H4. unfold stamp.
  rewrite !timecode_chars_app, H1, H2, H3, H4. reflexivity.
Qed.

Lemma stamp_nonempty hh mm ss frac :
  exists c s, stamp hh mm ss frac = String c s.
Proof. unfold stamp. destruct hh as [|c hh]; cbn; eauto. Qed.

(** The start of a detector line and the end made of it are texts that
    a [START] and an [END] line carry. *)
Lemma stamp_text_start_ok t : stamp_text t = true -> start_ok t = true.
Proof.
  intros H.
  destruct (stamp_text_inv t H)
    as (a & b & c & d & e & f & frac & -> & Ha & Hb & Hc & Hd & He & Hf & Hfrac).
  destruct (stamp_nonempty (char2 a b) (char2 c d) (char2 e f) frac)
    as (x & s & E).
  rewrite E. apply timecode_chars_start_ok. rewrite <- E.
  apply timecode_chars_stamp;
    try (now apply timecode_chars_char2).
  now apply all_digits_timecode_chars.
Qed.

Lemma convert_time_end_ok t e :
  stamp_text t = true -> convert_time t = Ok e -> end_ok e = true.
Proof.
  intros H.
  destruct (stamp_text_inv t H)
    as (a & b & c & d & x & f & frac & -> & Ha & Hb & Hc & Hd & He & Hf & Hfrac).
  rewrite convert_time_stamp by assumption. intros [= <-].
  assert (T59 : timecode_chars "59" = true) by reflexivity.
  pose proof (all_digits_timecode_chars frac Hfrac) as Tfrac.
  destruct (two_digits x f =? 0); [destruct (two_digits c d =? 0)|];
    match goal with
    | |- end_ok (stamp ?h ?m ?s ?fr) = true =>
        destruct (stamp_nonempty h m s fr) as (y & r & E);
        rewrite E; apply timecode_chars_end_ok; rewrite <- E;
        apply timecode_chars_stamp
    end;
    trivial; try (now apply timecode_chars_char2);
    apply timecode_chars_dec_field.
Qed.

(** ** What the detector and the second loop produce is sidecar-safe *)

Lemma emitted_stamp_starts markers : forall hits new c,
  emitted markers false c hits new ->
  Forall (fun h => stamp_text (fst h) = true) hits ->
  Forall stamp_start new.
Proof.
  induction hits as [|[g next] hits IH]; intros [|d new] c H Hs;
    cbn [emitted] in H; try contradiction; [constructor|].
  destruct H as (lbl & c' & _ & -> & H).
  inversion Hs as [|? ? Hg Hrest]; subst. constructor.
  - exists g. now split.
  - now apply IH with c'.
Qed.

Lemma emitted_entry_ok markers :
  forallb one_line markers = true ->
  forall hits new first c,
  emitted markers first c hits new ->
  Forall (fun h => stamp_text (fst h) = true) hits ->
  Forall entry_ok new.
Proof.
  intros Hm. induction hits as [|[g next] hits IH]; intros [|d new] first c H Hs;
    cbn [emitted] in H; try contradiction; [constructor|].
  destruct H as (lbl & c' & Hc & -> & H).
  inversion Hs as [|? ? Hg Hrest]; subst. cbn [fst] in Hg. constructor.
  - exists lbl, (if first then "00:00:00" else g).
    repeat split.
    + now apply classify_label_ok in Hc.
    + destruct first; [reflexivity|now apply stamp_text_start_ok].
  - now apply IH with false c'.
Qed.

Lemma add_ends_safe timecodes : forall finalized,
  add_ends timecodes = Ok finalized ->
  Forall entry_ok timecodes ->
  Forall stamp_start (List.tl timecodes) ->
  sidecar_safe finalized = true.
Proof.
  induction timecodes as [|d rest IH]; intros L' H Hok Hst.
  - now injection H as <-.
  - inversion Hok as [|? ? (ct & st & Hct & Hs & Hl & Hso) Hok']; subst.
    destruct rest as [|d1 rest].
    + injection H as <-. cbn [sidecar_safe]. now rewrite Hct, Hs, Hl, Hso.
    + rewrite add_ends_cons in H. cbn [List.tl] in Hst.
      inversion Hst as [|? ? (s1 & Hs1 & Hshape) Hst']; subst.
      rewrite Hs1 in H. cbn [getitem mbind result_bind] in H.
      destruct (convert_time s1) as [e| |] eqn:He; try discriminate.
      cbn [mbind result_bind] in H.
      destruct (add_ends (d1 :: rest)) as [rest'| |] eqn:Hr; try discriminate.
      injection H as <-.
      pose proof (IH rest' eq_refl Hok' Hst') as Hsafe.
      pose proof (convert_time_end_ok s1 e Hshape He) as Hend.
      cbn [sidecar_safe set_end chapter_type start end_].
      rewrite Hct, Hs, Hl, Hso, Hend, Hsafe. now destruct rest'.
Qed.

Lemma parse_timecodes_safe srt_content excluded_phrases markers L :
  forallb one_line markers = true ->
  parse_timecodes srt_content excluded_phrases markers = Ok L ->
  sidecar_safe L = true.
Proof.
  intros Hm H.
  destruct (parse_timecodes_inv _ _ _ _ H) as (new & Hs & Ha & _).
  apply scan_emitted in Hs as (new' & -> & He). cbn [app List.length] in *.
  change (0 =? 0)%nat with true in He.
  pose proof (recognized_shape excluded_phrases markers srt_content) as Hsh.
  apply (add_ends_safe new' L Ha).
  - exact (emitted_entry_ok markers Hm _ new' true 1 He Hsh).
  - destruct (recognized excluded_phrases markers srt_content) as [|[g next] hits];
      destruct new' as [|d new']; cbn [emitted] in He; try contradiction;
      [constructor|].
    destruct He as (lbl & c' & _ & _ & He). cbn [List.tl].
    inversion Hsh; subst. now apply emitted_stamp_starts with markers hits c'.
Qed.

(** X1. For every list that [parse_timecodes] returns, written to a fresh
    path and read back, the result is the list without the end of its
    last dictionary, as long as the markers of the language and the stem
    of the path are single lines and no earlier start equals the last
    one. The failing case of C1 is the only other one. *)
Theorem detector_sidecar_round_trip
    srt_content excluded_phrases markers L cue_path (fs : gmap string string) :
  parse_timecodes srt_content excluded_phrases markers = Ok L ->
  forallb one_line markers = true ->
  last_start_fresh L = true ->
  one_line (stem cue_path) = true ->
  fs !! path_str cue_path = None ->
  fst (write_cue_file L cue_path None fs) = Ok true
  /\ read_cue_file cue_path (snd (write_cue_file L cue_path None fs))
     = Ok (Some (erase_last_end L)).
Proof.
  intros Hp Hm Hfresh Hstem Hfs.
  apply sidecar_round_trip; trivial.
  - now destruct (parse_timecodes_inv _ _ _ _ Hp) as (_ & _ & _ & Hne).
  - now apply parse_timecodes_safe with srt_content excluded_phrases markers.
Qed.

Lemma detector_sidecar_round_trip_witness :
  fst (write_cue_file sample_timecodes cue_book None ∅) = Ok true
  /\ read_cue_file cue_book
       (snd (write_cue_file sample_timecodes cue_book None ∅))
     = Ok (Some (erase_last_end sample_timecodes)).
Proof.
  apply (detector_sidecar_round_trip sample_srt en_excluded en_markers
           sample_timecodes cue_book ∅);
    reflexivity.
Defined.

Example repeated_start_is_not_fresh :
  last_start_fresh repeated_start_timecodes = false.
Proof. reflexivity. Qed.

(** ** The two slips in general *)

(** Whatever the fraction, hours, minutes and seconds that are all zero
    are answered with a text, never with a failure (see C3). *)
Lemma convert_time_zero_any_fraction frac :
  all_digits frac = true ->
  convert_time (stamp "00" "00" "00" frac) = Ok (stamp "0-1" "59" "59" frac).
Proof.
  intros H.
  exact (convert_time_stamp "0" "0" "0" "0" "0" "0" frac
           eq_refl eq_refl eq_refl eq_refl eq_refl eq_refl H).
Qed.

(** A lookahead line that holds the epilogue marker and none of the
    other three is labelled with the title-cased chapter marker, whatever
    the table (see C4). *)
Lemma classify_epilogue m0 m1 m2 m3 rest next c :
  Py.contains m0 next = false -> Py.contains m1 next = false ->
  Py.contains m2 next = false -> Py.contains m3 next = true ->
  classify (m0 :: m1 :: m2 :: m3 :: rest) next c = Ok (Py.title m2, c).
Proof.
  intros H0 H1 H2 H3. unfold classify, marker.
  cbn [nth_error mbind result_bind]. rewrite H0.
  cbn [mbind result_bind]. rewrite H1. cbn [mbind result_bind].
  now rewrite H2, H3.
Qed.

(** ** The numbers of the chapter labels *)

Ltac digit_values :=
  repeat match goal with
         | |- context [Py.digit_val ?c] =>
             let v := eval vm_compute in (Py.digit_val c) in
             change (Py.digit_val c) with v
         end.

Lemma of_uint_acc_digits d : forall p,
  Z.pos (Pos.of_uint_acc d p)
  = digits_val (Z.pos p) (NilEmpty.string_of_uint d).
Proof.
  induction d; intros p;
    cbn [Pos.of_uint_acc NilEmpty.string_of_uint digits_val];
    try reflexivity; rewrite IHd; f_equal; digit_values; lia.
Qed.

Lemma of_uint_digits d :
  Z.of_N (Pos.of_uint d) = digits_val 0 (NilEmpty.string_of_uint d).
Proof.
  induction d; cbn [Pos.of_uint NilEmpty.string_of_uint digits_val];
    try reflexivity; digit_values; cbn [Z.mul Z.add];
    [exact IHd| | | | | | | | |]; cbn [Z.of_N]; apply of_uint_acc_digits.
Qed.

Lemma nilzero_of_to_uint p :
  NilZero.string_of_uint (Pos.to_uint p)
  = NilEmpty.string_of_uint (Pos.to_uint p).
Proof.
  pose proof (DecimalPos.Unsigned.to_uint_nonnil p) as H.
  now destruct (Pos.to_uint p).
Qed.

(** The numeral that [str] makes of a positive number reads as that
    number. *)
Lemma str_positive_reads p : digits_val 0 (Py.str (Z.pos p)) = Z.pos p.
Proof.
  unfold Py.str. cbn [Z.to_int NilZero.string_of_int].
  rewrite nilzero_of_to_uint, <- of_uint_digits.
  now rewrite DecimalPos.Unsigned.of_to.
Qed.

Lemma nzhead_not_D0 d u : Decimal.nzhead d <> Decimal.D0 u.
Proof. induction d; cbn [Decimal.nzhead]; try discriminate. exact IHd. Qed.

Lemma to_uint_not_D0 p u : Pos.to_uint p <> Decimal.D0 u.
Proof.
  intros H.
  pose proof (DecimalPos.Unsigned.to_of (Pos.to_uint p)) as T.
  rewrite DecimalPos.Unsigned.of_to in T. cbn [N.to_uint] in T.
  rewrite H in T. unfold Decimal.unorm in T. cbn [Decimal.nzhead] in T.
  destruct (Decimal.nzhead u) eqn:E; try discriminate T.
  - injection T as ->. now apply (DecimalPos.Unsigned.to_uint_nonzero p).
  - now apply nzhead_not_D0 in E.
Qed.

(** It has no zero in front. *)
Lemma str_positive_head p : Py.startswith "0" (Py.str (Z.pos p)) = false.
Proof.
  unfold Py.str. cbn [Z.to_int NilZero.string_of_int].
  rewrite nilzero_of_to_uint.
  pose proof (to_uint_not_D0 p) as H.
  destruct (Pos.to_uint p); try reflexivity. now destruct (H u).
Qed.

Lemma str_positive_digits p : all_digits (Py.str (Z.pos p)) = true.
Proof.
  unfold Py.str. cbn [Z.to_int NilZero.string_of_int].
  apply nilzero_uint_digits.
Qed.

Lemma digits_length s k :
  all_digits s = true -> digits_val 0 s = k -> 10 <= k ->
  (2 <= String.length s)%nat.
Proof.
  intros Hs Hk Hten.
  pose proof (digits_val_bound s 0 Hs ltac:(lia)) as B.
  destruct s as [|a [|b s]]; cbn [String.length] in *; [| |lia].
  - cbn [digits_val] in Hk. lia.
  - change (10 ^ Z.of_nat 1) with 10 in B. lia.
Qed.

(** The numeral that [chapter_count] gives the counter is the numeral of
    its number. *)
Lemma chapter_count_numeral c : 1 <= c -> numeral_of c (chapter_count c).
Proof.
  intros Hc. unfold chapter_count. destruct (c <? 10) eqn:E.
  - apply Z.ltb_lt in E.
    assert (H : c = 1 \/ c = 2 \/ c = 3 \/ c = 4 \/ c = 5 \/ c = 6 \/ c = 7
                \/ c = 8 \/ c = 9) by lia.
    unfold numeral_of.
    destruct H as [->|[->|[->|[->|[->|[->|[->|[->| ->]]]]]]]];
      (split; [reflexivity|]); (split; [reflexivity|]);
      (split; [cbn; lia|]); cbn; lia.
  - apply Z.ltb_ge in E. destruct c as [|p|p]; try lia.
    pose proof (str_positive_digits p) as Hd.
    pose proof (str_positive_reads p) as Hr.
    split; [exact Hd|]. split; [exact Hr|].
    split; [now apply digits_length with (Z.pos p)|].
    intros _. apply str_positive_head.
Qed.

Lemma labels_numbered m2 n : forall c,
  1 <= c ->
  Forall2 (chapter_numbered m2)
    (List.map (fun k => Some (chapter_label m2 k)) (Zseq c n)) (Zseq c n).
Proof.
  induction n as [|n IH]; intros c Hc; cbn [Zseq List.map]; constructor.
  - exists (chapter_count c). split; [reflexivity|].
    now apply chapter_count_numeral.
  - apply IH. lia.
Qed.

(** C10. The dictionaries of the recognized lines that took the chapter
    branch carry, in order, the labels of the chapters 1, 2, 3, ...: the
    label of the chapter number [k] is the title-cased marker, a space
    and a numeral of decimal digits that reads as [k], of two digits when
    [k] is below ten. A candidate without a start is not recognized,
    appends nothing and leaves the counter alone (lemma
    [scan_skips_candidate]), and a prologue or an epilogue does not count
    either. *)
Theorem chapter_labels_are_consecutive srt_content excluded_phrases markers L m2 :
  parse_timecodes srt_content excluded_phrases markers = Ok L ->
  nth_error markers 2 = Some m2 ->
  let hits := recognized excluded_phrases markers srt_content in
  List.length L = List.length hits
  /\ Forall2 (chapter_numbered m2)
       (List.map chapter_type (chapter_entries markers hits L))
       (Zseq 1 (List.length (chapter_entries markers hits L))).
Proof.
  intros H Hm2 hits.
  apply parse_timecodes_emitted in H as (new & He & Hf & _).
  split.
  - rewrite <- (Forall2_length _ _ _ Hf). now apply emitted_length in He.
  - rewrite (same_fields_chapters markers hits new L Hf).
    replace (List.length (chapter_entries markers hits L))
      with (List.length (chapter_entries markers hits new)).
    + rewrite (emitted_chapters markers m2 Hm2 hits new true 1 He).
      now apply labels_numbered.
    + rewrite <- (length_map chapter_type (chapter_entries markers hits new)).
      rewrite <- (same_fields_chapters markers hits new L Hf).
      now rewrite length_map.
Qed.

Lemma chapter_labels_are_consecutive_witness :
  parse_timecodes eleven_srt en_excluded en_markers = Ok eleven_timecodes
  /\ nth_error en_markers 2 = Some "chapter"
  /\ List.length eleven_timecodes
     = List.length (recognized en_excluded en_markers eleven_srt)
  /\ Forall2 (chapter_numbered "chapter")
       (List.map chapter_type
          (chapter_entries en_markers
             (recognized en_excluded en_markers eleven_srt) eleven_timecodes))
       (Zseq 1 (List.length
          (chapter_entries en_markers
             (recognized en_excluded en_markers eleven_srt) eleven_timecodes))).
Proof.
  split; [reflexivity|]. split; [reflexivity|].
  apply (chapter_labels_are_consecutive eleven_srt en_excluded en_markers
           eleven_timecodes "chapter"); reflexivity.
Defined.

(** The labels of the eleven chapters, the candidate without a start
    left out. *)
Example eleven_chapter_labels :
  List.map chapter_type
    (chapter_entries en_markers
       (recognized en_excluded en_markers eleven_srt) eleven_timecodes)
  = [ Some "Chapter 01"; Some "Chapter 02"; Some "Chapter 03";
      Some "Chapter 04"; Some "Chapter 05"; Some "Chapter 06";
      Some "Chapter 07"; Some "Chapter 08"; Some "Chapter 09";
      Some "Chapter 10"; Some "Chapter 11" ].
Proof. reflexivity. Qed.

(** * Further properties of the script *)

(** ** [apply_chapters] *)

(** The first statement of [apply_chapters] sets the end or raises; it
    does not exit. *)
Lemma apply_chapters_end_no_exit timecodes duration c :
  apply_chapters_end timecodes duration <> Exit c.
Proof.
  unfold apply_chapters_end, get_total_duration, format_timestamp_from_float,
    timedelta_of_seconds.
  destruct duration as [|[[q|b|]|]]; cbn [mbind result_bind]; try discriminate.
  destruct (_ && _); cbn [mbind result_bind]; [|discriminate].
  destruct timecodes; discriminate.
Qed.

(** X2. Without cover art [apply_chapters] never hands a command to
    ffmpeg and never returns: whatever the chapters, the metadata, the
    probe of the duration and the files, the call ends in an exception. *)
Theorem apply_chapters_without_cover_art_raises
    float_text ffmpeg audiobook metadata_path file_path timecodes metadata
    duration (fs : gmap string string) :
  exists x,
    fst (apply_chapters float_text ffmpeg audiobook metadata_path file_path
           timecodes metadata None duration fs) = Raise x.
Proof.
  unfold apply_chapters.
  destruct (apply_chapters_end timecodes duration) as [timecodes'|c|x] eqn:E.
  - destruct (chapter_chunks float_text _) as [chunks [x|]];
      [now exists x|].
    rewrite lookup_insert_eq. now exists TypeError.
  - now apply apply_chapters_end_no_exit in E.
  - now exists x.
Qed.

Lemma metadata_line_insert_ne (metadata : gmap string pyval) k v key label :
  String.eqb k key = false ->
  metadata_line (<[k := v]> metadata) key label = metadata_line metadata key label.
Proof.
  intros H. unfold metadata_line.
  rewrite lookup_insert_ne; [reflexivity|].
  intros ->. now rewrite String.eqb_refl in H.
Qed.

(** X3. [apply_chapters] reads seven keys of the metadata and no other:
    a value under any other key, such as the title, the artist or the
    year that [extract_metadata] keeps, changes neither the file written
    nor the result. *)
Theorem apply_chapters_ignores_other_keys
    float_text ffmpeg audiobook metadata_path file_path timecodes
    (metadata : gmap string pyval) cover_art duration
    (fs : gmap string string) k v :
  existsb (String.eqb k) written_keys = false ->
  apply_chapters float_text ffmpeg audiobook metadata_path file_path
    timecodes (<[k := v]> metadata) cover_art duration fs
  = apply_chapters float_text ffmpeg audiobook metadata_path file_path
      timecodes metadata cover_art duration fs.
Proof.
  intros H. cbn [existsb written_keys] in H.
  repeat (apply orb_false_iff in H as [? H]).
  unfold apply_chapters, ffmetadata_header, artist_lines.
  rewrite !metadata_line_insert_ne by assumption.
  rewrite lookup_insert_ne; [reflexivity|].
  intros ->. discriminate.
Qed.

Lemma apply_chapters_ignores_other_keys_witness :
  apply_chapters (fun _ => "0.0") "ffmpeg" "/books/book.mp3"
    "/books/FFMETADATAFILE" "/books/book - Chapters.mp3"
    sample_timecodes (<["title" := PyStr "A Book"]> {["genre" := PyStr "Audiobook"]})
    (Some "/books/book.jpg") (ProbeOutput (Some (Finite (inject_Z 7200)))) ∅
  = apply_chapters (fun _ => "0.0") "ffmpeg" "/books/book.mp3"
      "/books/FFMETADATAFILE" "/books/book - Chapters.mp3"
      sample_timecodes {["genre" := PyStr "Audiobook"]}
      (Some "/books/book.jpg") (ProbeOutput (Some (Finite (inject_Z 7200)))) ∅.
Proof.
  apply apply_chapters_ignores_other_keys. reflexivity.
Defined.

(** ** [write_cue_file] *)

(** X4. [write_cue_file] touches no file but the sidecar. *)
Theorem write_cue_file_other_paths timecodes cue_path fault
    (fs : gmap string string) q :
  q <> path_str cue_path ->
  snd (write_cue_file timecodes cue_path fault fs) !! q = fs !! q.
Proof.
  intros Hq. unfold write_cue_file.
  destruct (fs !! path_str cue_path) eqn:E; cbn [snd].
  - now rewrite lookup_delete_ne.
  - destruct (cue_chunks timecodes cue_path) as [chunks e].
    destruct (match fault with Some k => _ | None => _ end).
    + cbn [snd]. rewrite lookup_delete_ne, lookup_insert_ne; congruence.
    + destruct e; cbn [snd]; rewrite lookup_insert_ne; congruence.
Qed.

Lemma write_cue_file_other_paths_witness :
  snd (write_cue_file sample_timecodes cue_book None
         {[ "/books/book.srt" := "1" ]}) !! "/books/book.srt"
  = ({[ "/books/book.srt" := "1" ]} : gmap string string) !! "/books/book.srt".
Proof.
  apply write_cue_file_other_paths. discriminate.
Defined.


(** ** [read_cue_file] *)

(** X6. A line of the sidecar, after the first, that holds [TITLE], [START]
    or [END] without the shape that the reader searches for makes
    [read_cue_file] end in [TypeError], wherever the line is: the
    handler of the loop never gets to return [None]. *)
Theorem read_cue_file_malformed_line_raises cue_path
    (fs : gmap string string) text :
  fs !! path_str cue_path = Some text ->
  existsb malformed
    (List.tl (List.map strip_lf (readlines (universal_newlines text)))) = true ->
  read_cue_file cue_path fs = Raise TypeError.
Proof.
  intros Hfs H. unfold read_cue_file. rewrite Hfs.
  now apply read_cue_content_malformed.
Qed.

Lemma read_cue_file_malformed_line_raises_witness :
  read_cue_file cue_book (sidecar_fs untabbed_end_sidecar) = Raise TypeError.
Proof.
  apply (read_cue_file_malformed_line_raises cue_book
           (sidecar_fs untabbed_end_sidecar)
           (text_of_lines untabbed_end_sidecar));
    reflexivity.
Defined.

(** ** [parse_timestamp] *)

Lemma digits_val_nonneg s : all_digits s = true -> 0 <= digits_val 0 s.
Proof.
  intros H. pose proof (digits_val_bound s 0 H). lia.
Qed.

Lemma strptime_field_range hi sep s v r :
  strptime_field hi sep s = Some (v, r) -> 0 <= v <= hi.
Proof.
  unfold strptime_field. pose proof (span_digits_all s) as A.
  destruct (span_digits s) as [d r0]. cbn [fst] in A.
  destruct r0 as [|c r']; [discriminate|].
  destruct (_ && _) eqn:E; [|discriminate].
  intros [= <- <-].
  apply andb_true_iff in E as [_ E]. apply Z.leb_le in E.
  split; [now apply digits_val_nonneg|exact E].
Qed.

(** X7. Whatever the text, a duration that [parse_timestamp] returns is
    non-negative and shorter than a day. *)
Theorem parse_timestamp_range t td :
  parse_timestamp t = Ok td ->
  days td = 0 /\ 0 <= total_us td < 86400000000.
Proof.
  unfold parse_timestamp.
  set (t' := if Py.has_char "." t then t else t ++ ".0"). clearbody t'.
  unfold strptime.
  destruct (strptime_field 23 ":" t') as [[h r1]|] eqn:Eh; [|discriminate].
  destruct (strptime_field 59 ":" r1) as [[m r2]|] eqn:Em; [|discriminate].
  destruct (strptime_field 61 "." r2) as [[s r3]|] eqn:Es; [|discriminate].
  destruct (strptime_fraction r3) as [us|] eqn:Eu; [|discriminate].
  destruct (s <=? 59) eqn:E59; [|discriminate].
  intros [= <-]. apply Z.leb_le in E59.
  apply strptime_field_range in Eh, Em, Es.
  apply strptime_fraction_range in Eu.
  rewrite total_us_of_us.
  split; [|lia].
  now apply (timedelta_of_us_fields h m s us); lia.
Qed.

Lemma parse_timestamp_range_witness :
  days (timedelta_of_us 5025678000) = 0
  /\ 0 <= total_us (timedelta_of_us 5025678000) < 86400000000.
Proof.
  apply (parse_timestamp_range "01:23:45.678"). reflexivity.
Defined.

(** ** [verify_language] *)

Lemma dict_get_In items key v :
  dict_get items key = Some v -> In v (List.map snd items).
Proof.
  induction items as [|[k w] items IH]; cbn; [discriminate|].
  destruct (String.eqb k key); [intros [= ->]; now left|].
  intros H. right. now apply IH.
Qed.

Lemma existsb_eqb_In (x : string) xs :
  existsb (fun kv : string * string => String.eqb (snd kv) x) xs = true
  <-> In x (List.map snd xs).
Proof.
  induction xs as [|[k w] xs IH]; cbn; [split; [discriminate|tauto]|].
  rewrite orb_true_iff, IH, String.eqb_eq. tauto.
Qed.

(** X8. What [verify_language] does is fixed by the text and the table
    of languages. It exits with 1 for the empty text and for it alone.
    For any other text it returns the lower-cased text when that is a
    code of the table; when it is not, it returns the code that the
    table gives the capitalized text as a name; and it exits with 2 when
    the table has no such name either. So it returns nothing but codes of
    the table, and it never raises. *)
Theorem verify_language_outcome model_languages language :
  match verify_language model_languages language with
  | Ok code =>
      language <> EmptyString
      /\ In code (List.map snd model_languages)
      /\ ((In (PyText.lower language) (List.map snd model_languages)
           /\ code = PyText.lower language)
          \/ (~ In (PyText.lower language) (List.map snd model_languages)
              /\ dict_get model_languages (Py.title language) = Some code))
  | Exit n =>
      (n = 1 /\ language = EmptyString)
      \/ (n = 2 /\ language <> EmptyString
          /\ ~ In (PyText.lower language) (List.map snd model_languages)
          /\ dict_get model_languages (Py.title language) = None)
  | Raise _ => False
  end.
Proof.
  unfold verify_language.
  destruct language as [|c s]; [now left|].
  destruct (existsb _ model_languages) eqn:E.
  - apply existsb_eqb_In in E. split; [discriminate|]. split; [exact E|].
    left. now split.
  - assert (N : ~ In (PyText.lower (String c s)) (List.map snd model_languages)).
    { intros H. apply existsb_eqb_In in H. congruence. }
    destruct (dict_get _ _) as [code|] eqn:G.
    + split; [discriminate|]. split.
      * now apply dict_get_In with (key := Py.title (String c s)).
      * right. now split.
    + right. repeat split; try discriminate. exact N.
Qed.

(** ** [extract_metadata] *)

Lemma split_parts_lack c s :
  Forall (fun p => Py.has_char c p = false) (Py.split c s).
Proof.
  induction s as [|a s IH]; cbn; [now constructor|].
  destruct (Ascii.eqb a c) eqn:E; [now constructor|].
  destruct (Py.split c s) as [|p ps]; inversion IH; subst;
    constructor; cbn; trivial; now rewrite E.
Qed.

Lemma has_char_lstrip_lf c s :
  Py.has_char c s = false -> Py.has_char c (lstrip_lf s) = false.
Proof.
  induction s as [|a s IH]; cbn; [trivial|].
  intros H. apply orb_false_iff in H as [H1 H2].
  destruct (Ascii.eqb a "010"); [now apply IH|]. cbn. now rewrite H1, H2.
Qed.

Lemma has_char_rstrip_lf c s :
  Py.has_char c s = false -> Py.has_char c (rstrip_lf s) = false.
Proof.
  induction s as [|a s IH]; cbn; [trivial|].
  intros H. apply orb_false_iff in H as [H1 H2]. specialize (IH H2).
  destruct (rstrip_lf s) as [|b r].
  - destruct (Ascii.eqb a "010"); cbn; [trivial|now rewrite H1].
  - cbn in *. now rewrite H1, IH.
Qed.

Lemma has_char_strip_lf c s :
  Py.has_char c s = false -> Py.has_char c (strip_lf s) = false.
Proof.
  intros H. unfold strip_lf. now apply has_char_rstrip_lf, has_char_lstrip_lf.
Qed.

Lemma metadata_of_lines_keys meta_lines : forall (acc : gmap string string),
  (forall k v, acc !! k = Some v ->
     In k metadata_keys /\ Py.has_char "=" v = false) ->
  forall k v, metadata_of_lines meta_lines acc !! k = Some v ->
    In k metadata_keys /\ Py.has_char "=" v = false.
Proof.
  induction meta_lines as [|line rest IH]; intros acc Hacc;
    cbn [metadata_of_lines]; [exact Hacc|].
  pose proof (split_parts_lack "=" line) as P.
  destruct (Py.split "=" line) as [|k0 [|v0 [|x xs]]]; try (now apply IH).
  destruct (existsb (String.eqb (strip_lf k0)) metadata_keys) eqn:E;
    [|now apply IH].
  apply IH. intros k v.
  destruct (decide (strip_lf k0 = k)) as [<-|Hne].
  - rewrite lookup_insert_eq. intros [= <-]. split.
    + apply existsb_exists in E as (x & Hin & Hx).
      apply String.eqb_eq in Hx. now subst.
    + apply has_char_strip_lf.
      inversion P as [|? ? _ P']; subst. now inversion P'.
  - rewrite lookup_insert_ne by exact Hne. apply Hacc.
Qed.

(** X9. [extract_metadata] keeps no key but the six that it names and no
    value that holds an equals sign; once it returns, the metadata file is
    gone and every other file is as it was. When ffmpeg left no metadata
    file, [FileNotFoundError] leaves the function: the test of
    [path_exists] raises instead of answering. It never exits. *)
Theorem extract_metadata_outcome metadata_file (fs : gmap string string) :
  match extract_metadata metadata_file fs with
  | (Ok meta_dict, fs') =>
      is_Some (fs !! metadata_file)
      /\ (forall k v, meta_dict !! k = Some v ->
            In k metadata_keys /\ Py.has_char "=" v = false)
      /\ fs' !! metadata_file = None
      /\ (forall q, q <> metadata_file -> fs' !! q = fs !! q)
  | (Raise x, fs') =>
      x = FileNotFoundError /\ fs !! metadata_file = None /\ fs' = fs
  | (Exit _, _) => False
  end.
Proof.
  unfold extract_metadata.
  destruct (fs !! metadata_file) as [text|] eqn:E; [|easy].
  split; [eauto|]. split; [|split].
  - destruct (10 <? String.length text)%nat.
    + apply metadata_of_lines_keys. intros k v. now rewrite lookup_empty.
    + intros k v. now rewrite lookup_empty.
  - apply lookup_delete_eq.
  - intros q Hq. now apply lookup_delete_ne.
Qed.

(** ** [parse_config] *)

Lemma split_length c s :
  List.length (Py.split c s) = S (PyText.count_char c s).
Proof.
  induction s as [|a s IH]; cbn; [reflexivity|].
  destruct (Ascii.eqb a c); cbn; [now rewrite IH|].
  destruct (Py.split c s); cbn in *; lia.
Qed.

Lemma count_char_remove c c' s :
  Ascii.eqb c' c = false ->
  PyText.count_char c (PyText.remove_char c' s) = PyText.count_char c s.
Proof.
  intros H. induction s as [|a s IH]; cbn; [reflexivity|].
  destruct (Ascii.eqb a c') eqn:E.
  - apply Ascii.eqb_eq in E. subst a. now rewrite H, IH.
  - cbn. now rewrite IH.
Qed.

Lemma count_char_lstrip_lf c s :
  Ascii.eqb "010" c = false ->
  PyText.count_char c (lstrip_lf s) = PyText.count_char c s.
Proof.
  intros H. induction s as [|a s IH]; cbn; [reflexivity|].
  destruct (Ascii.eqb a "010") eqn:E; [|reflexivity].
  apply Ascii.eqb_eq in E. subst a. now rewrite H, IH.
Qed.

Lemma count_char_rstrip_lf c s :
  Ascii.eqb "010" c = false ->
  PyText.count_char c (rstrip_lf s) = PyText.count_char c s.
Proof.
  intros H. induction s as [|a s IH]; [reflexivity|].
  cbn [rstrip_lf]. destruct (rstrip_lf s) as [|b r] eqn:R.
  - destruct (Ascii.eqb a "010") eqn:E; cbn [PyText.count_char] in *.
    + apply Ascii.eqb_eq in E. subst a. now rewrite H, <- IH.
    + now rewrite <- IH.
  - cbn [PyText.count_char] in *. now rewrite IH.
Qed.

Lemma config_item_length l :
  List.length (config_item l) = S (PyText.count_char "=" l).
Proof.
  unfold config_item, strip_lf.
  rewrite split_length, count_char_remove by reflexivity.
  now rewrite count_char_rstrip_lf, count_char_lstrip_lf.
Qed.

Lemma config_dict_outcome kept : forall (acc : gmap string string),
  match config_dict (List.map config_item kept) acc with
  | Ok defaults =>
      Forall (fun l => PyText.count_char "=" l = 1%nat) kept
      /\ (forall k v, defaults !! k = Some v ->
            acc !! k = Some v
            \/ exists l, In l kept /\ config_item l = [k; v])
  | Raise x =>
      x = ValueError
      /\ Exists (fun l => PyText.count_char "=" l <> 1%nat) kept
  | Exit _ => False
  end.
Proof.
  induction kept as [|l kept IH]; intros acc; cbn.
  - split; [constructor|]. intros k v H. now left.
  - pose proof (config_item_length l) as Hl.
    destruct (config_item l) as [|k0 [|v0 [|x xs]]] eqn:E; cbn in Hl.
    + lia.
    + split; [reflexivity|]. apply Exists_cons_hd. lia.
    + specialize (IH (<[k0 := v0]> acc)).
      destruct (config_dict _ _) as [defaults|n|x].
      * destruct IH as [F K]. split; [constructor; [lia|exact F]|].
        intros k v H. destruct (K k v H) as [H'|(l' & Hin & Hl')].
        -- destruct (decide (k0 = k)) as [->|Hne].
           ++ rewrite lookup_insert_eq in H'. injection H' as ->.
              right. exists l. split; [now left|exact E].
           ++ rewrite lookup_insert_ne in H' by exact Hne. now left.
        -- right. exists l'. split; [now right|exact Hl'].
      * exact IH.
      * destruct IH as [-> X]. split; [reflexivity|now apply Exists_cons_tl].
    + split; [reflexivity|]. apply Exists_cons_hd. lia.
Qed.

(** X10. [parse_config] returns a dictionary exactly when every line of
    the file without a hash sign holds one equals sign, and then every
    entry comes from such a line; any other line, a blank one among them,
    makes the unpacking of the comprehension raise [ValueError]. *)
Theorem parse_config_outcome config_path (fs : gmap string string) text :
  fs !! config_path = Some text ->
  let kept := config_lines (readlines (universal_newlines text)) in
  match parse_config config_path fs with
  | Ok defaults =>
      Forall (fun l => PyText.count_char "=" l = 1%nat) kept
      /\ (forall k v, defaults !! k = Some v ->
            exists l, In l kept /\ config_item l = [k; v])
  | Raise x =>
      x = ValueError
      /\ Exists (fun l => PyText.count_char "=" l <> 1%nat) kept
  | Exit _ => False
  end.
Proof.
  intros Hfs kept. unfold parse_config, parse_config_lines. rewrite Hfs.
  fold kept. pose proof (config_dict_outcome kept ∅) as H.
  destruct (config_dict _ _) as [defaults|n|x]; trivial.
  destruct H as [F K]. split; [exact F|].
  intros k v Hk. destruct (K k v Hk) as [H'|H']; [|exact H'].
  now rewrite lookup_empty in H'.
Qed.

Lemma parse_config_outcome_witness :
  let kept := config_lines (readlines (universal_newlines sample_config)) in
  match parse_config "/work/defaults.toml"
          {[ "/work/defaults.toml" := sample_config ]} with
  | Ok defaults =>
      Forall (fun l => PyText.count_char "=" l = 1%nat) kept
      /\ (forall k v, defaults !! k = Some v ->
            exists l, In l kept /\ config_item l = [k; v])
  | Raise x =>
      x = ValueError
      /\ Exists (fun l => PyText.count_char "=" l <> 1%nat) kept
  | Exit _ => False
  end.
Proof.
  apply (parse_config_outcome "/work/defaults.toml"
           {[ "/work/defaults.toml" := sample_config ]} sample_config).
  reflexivity.
Defined.

Example parse_config_blank_line :
  parse_config "/work/defaults.toml"
    {[ "/work/defaults.toml" := sample_config ]} = Raise ValueError.
Proof. reflexivity. Qed.

Example extract_metadata_sample :
  fst (extract_metadata "/books/metadata.txt"
         {[ "/books/metadata.txt" := sample_metadata ]})
  = Ok {[ "title" := "A Book"; "artist" := "An Author" ]}.
Proof. vm_compute. reflexivity. Qed.

Example verify_language_sample :
  verify_language sample_languages "german" = Ok "de"
  /\ verify_language sample_languages "EN-US" = Ok "en-us"
  /\ verify_language sample_languages "fr" = Exit 2.
Proof. repeat split. Qed.

(** ** [format_timestamp_from_float] and [parse_timestamp] *)

Lemma timedelta_of_seconds_no_exit x c : timedelta_of_seconds x <> Exit c.
Proof.
  unfold timedelta_of_seconds. destruct x as [q|b|]; try discriminate.
  destruct (_ && _); discriminate.
Qed.

(** A [timedelta] that is returned is normalized and within the range of
    the days. *)
Lemma timedelta_of_seconds_inv x td :
  timedelta_of_seconds x = Ok td ->
  (exists u, td = timedelta_of_us u)
  /\ -999999999 <= days td <= 999999999.
Proof.
  unfold timedelta_of_seconds. destruct x as [q|b|]; try discriminate.
  destruct (_ && _) eqn:E; [|discriminate]. intros [= <-].
  apply andb_true_iff in E as [E1 E2]. apply Z.leb_le in E1, E2.
  split; [eauto|lia].
Qed.

(** The text made of a normalized [timedelta]: two digits for each of the
    hours, minutes and seconds and three for the milliseconds. *)
Lemma format_timedelta_shape u :
  let td := timedelta_of_us u in
  exists a b c d e f g i j,
    Py.is_digit a = true /\ Py.is_digit b = true
    /\ Py.is_digit c = true /\ Py.is_digit d = true
    /\ Py.is_digit e = true /\ Py.is_digit f = true
    /\ Py.is_digit g = true /\ Py.is_digit i = true /\ Py.is_digit j = true
    /\ two_digits a b = seconds td / 3600
    /\ two_digits c d = (seconds td mod 3600) / 60
    /\ two_digits e f = (seconds td mod 3600) mod 60
    /\ 100 * Py.digit_val g + two_digits i j = microseconds td / 1000
    /\ format_timedelta td
       = char2 a b ++ ":" ++ char2 c d ++ ":" ++ char2 e f ++ ","
         ++ char3 g i j.
Proof.
  unfold format_timedelta, timedelta_of_us. cbn [days seconds microseconds].
  set (S := (u / 1000000) mod 86400). set (U := u mod 1000000).
  assert (RS : 0 <= S < 86400) by (apply Z.mod_pos_bound; lia).
  assert (RU : 0 <= U < 1000000) by (apply Z.mod_pos_bound; lia).
  destruct (format_zero_two (S / 3600))
    as (a & b & Ha & Hb & Vh & ->); [Z.div_mod_to_equations; lia|].
  destruct (format_zero_two ((S mod 3600) / 60))
    as (c & d & Hc & Hd' & Vm & ->); [Z.div_mod_to_equations; lia|].
  destruct (format_zero_two ((S mod 3600) mod 60))
    as (e & f & He & Hf & Vs & ->); [Z.div_mod_to_equations; lia|].
  destruct (format_zero_three (U / 1000))
    as (g & i & j & Hg & Hi & Hj & Vms & ->); [Z.div_mod_to_equations; lia|].
  exists a, b, c, d, e, f, g, i, j. repeat split; assumption.
Qed.

(** The text of a normalized [timedelta], its comma turned into a dot,
    reads as the duration without its days, cut to the millisecond. *)
Lemma format_timedelta_reads u :
  parse_timestamp (Py.replace "," "." (format_timedelta (timedelta_of_us u)))
  = Ok (timedelta_of_us (u mod 86400000000 / 1000 * 1000)).
Proof.
  destruct (format_timedelta_shape u)
    as (a & b & c & d & e & f & g & i & j & Ha & Hb & Hc & Hd & He & Hf
        & Hg & Hi & Hj & Vh & Vm & Vs & Vms & ->).
  unfold timedelta_of_us in Vh, Vm, Vs, Vms.
  cbn [days seconds microseconds] in Vh, Vm, Vs, Vms.
  cbn. rewrite !(digit_eqb _ ",") by trivial.
  change (parse_timestamp
            (stamp (char2 a b) (char2 c d) (char2 e f) (char3 g i j)) =
          Ok (timedelta_of_us (u mod 86400000000 / 1000 * 1000))).
  rewrite (parse_timestamp_stamp _ _ _ _ (two_digits a b) (two_digits c d)
             (two_digits e f)) by (now apply field_of_char2).
  rewrite strptime_fraction_char3 by assumption.
  rewrite Vh, Vm, Vs, Vms.
  set (S := (u / 1000000) mod 86400). set (U := u mod 1000000).
  assert (RS : 0 <= S < 86400) by (apply Z.mod_pos_bound; lia).
  assert (RU : 0 <= U < 1000000) by (apply Z.mod_pos_bound; lia).
  replace (S / 3600 <=? 23) with true
    by (symmetry; apply Z.leb_le; Z.div_mod_to_equations; lia).
  replace ((S mod 3600) / 60 <=? 59) with true
    by (symmetry; apply Z.leb_le; Z.div_mod_to_equations; lia).
  replace ((S mod 3600) mod 60 <=? 59) with true
    by (symmetry; apply Z.leb_le; Z.div_mod_to_equations; lia).
  cbn [andb]. do 2 f_equal.
  subst S U. Z.div_mod_to_equations. lia.
Qed.

(** X11. [format_timestamp_from_float] raises what [timedelta] raises:
    [OverflowError] for a number of seconds that comes to more than
    999999999 days or is an infinity, [ValueError] for a NaN. For every
    other float it returns a text which, its comma turned into a dot as
    [parse_timecodes] and [apply_chapters] do, is read by
    [parse_timestamp], and as the duration of the [timedelta] without its
    whole days and cut to the millisecond. *)
Theorem formatted_timestamp_reads_back x :
  match timedelta_of_seconds x with
  | Ok td =>
      -999999999 <= days td <= 999999999
      /\ exists text,
           format_timestamp_from_float x = Ok text
           /\ parse_timestamp (Py.replace "," "." text)
              = Ok (timedelta_of_us
                      (total_us td mod 86400000000 / 1000 * 1000))
  | Raise e =>
      format_timestamp_from_float x = Raise e
      /\ match x with
         | Finite _ => e = OverflowError
         | Infinity _ => e = OverflowError
         | NaN => e = ValueError
         end
  | Exit _ => False
  end.
Proof.
  unfold format_timestamp_from_float.
  destruct (timedelta_of_seconds x) as [td|c|e] eqn:E.
  - destruct (timedelta_of_seconds_inv x td E) as [[u ->] R].
    split; [exact R|]. eexists. split; [reflexivity|].
    rewrite total_us_of_us. apply format_timedelta_reads.
  - now apply timedelta_of_seconds_no_exit in E.
  - split; [reflexivity|].
    unfold timedelta_of_seconds in E. destruct x as [q|b|].
    + destruct (_ && _); [discriminate|]. now injection E as <-.
    + now injection E as <-.
    + now injection E as <-.
Qed.

(** ** [convert_time] on the starts of the detector *)

Lemma parse_timestamp_negative_hour frac :
  parse_timestamp (stamp "0-1" "59" "59" frac) = Raise ValueError.
Proof.
  unfold parse_timestamp.
  destruct (Py.has_char "." (stamp "0-1" "59" "59" frac)); reflexivity.
Qed.

(** X12. On a start of the shape that the detector extracts and that
    [parse_timestamp] reads, [convert_time] never leaves through its
    error exit: it returns a text, which reads as one second less when
    the start is at least one second, and which [parse_timestamp] refuses
    when the start is within the first second. *)
Theorem convert_time_of_a_start t td :
  stamp_text t = true ->
  parse_timestamp t = Ok td ->
  exists e,
    convert_time t = Ok e
    /\ parse_timestamp e
       = if 1000000 <=? total_us td
         then Ok (timedelta_of_us (total_us td - 1000000))
         else Raise ValueError.
Proof.
  intros Ht Hp. destruct (1000000 <=? total_us td) eqn:E.
  - apply Z.leb_le in E. now apply convert_time_minus_one_second.
  - apply Z.leb_gt in E.
    destruct (stamp_text_inv t Ht)
      as (a & b & c & d & e & f & frac & -> & Ha & Hb & Hc & Hd & He & Hf
          & Hfrac).
    pose proof (two_digits_range a b Ha Hb) as Rh.
    pose proof (two_digits_range c d Hc Hd) as Rm.
    pose proof (two_digits_range e f He Hf) as Rs.
    rewrite (parse_timestamp_stamp _ _ _ _ (two_digits a b) (two_digits c d)
               (two_digits e f)) in Hp by (now apply field_of_char2).
    destruct (strptime_fraction frac) as [us|] eqn:Hus; [|discriminate].
    pose proof (strptime_fraction_range _ _ Hus) as Rus.
    destruct (_ && _) in Hp; [|discriminate].
    injection Hp as <-. rewrite total_us_of_us in E.
    assert (Zh : (two_digits a b =? 0) = true) by (apply Z.eqb_eq; lia).
    assert (Zm : (two_digits c d =? 0) = true) by (apply Z.eqb_eq; lia).
    assert (Zs : (two_digits e f =? 0) = true) by (apply Z.eqb_eq; lia).
    rewrite <- two_digits_zero in Zh, Zm, Zs by assumption.
    apply String.eqb_eq in Zh, Zm, Zs. rewrite Zh, Zm, Zs.
    exists (stamp "0-1" "59" "59" frac). split.
    + now apply convert_time_zero_any_fraction.
    + apply parse_timestamp_negative_hour.
Qed.

Lemma convert_time_of_a_start_witness :
  exists e,
    convert_time "00:10:00.000" = Ok e
    /\ parse_timestamp e
       = if 1000000 <=? total_us (timedelta_of_us 600000000)
         then Ok (timedelta_of_us (total_us (timedelta_of_us 600000000) - 1000000))
         else Raise ValueError.
Proof.
  apply (convert_time_of_a_start "00:10:00.000"); reflexivity.
Defined.

(** ** What [parse_timecodes] returns *)

Lemma add_ends_total timecodes :
  Forall stamp_start (List.tl timecodes) ->
  exists finalized, add_ends timecodes = Ok finalized.
Proof.
  induction timecodes as [|d rest IH]; intros H; [now exists []|].
  destruct rest as [|d1 rest]; [now exists [d]|].
  rewrite add_ends_cons. cbn [List.tl] in H, IH.
  inversion H as [|? ? (s1 & Hs1 & Hshape) H']; subst.
  rewrite Hs1. cbn [getitem mbind result_bind].
  destruct (stamp_text_inv s1 Hshape)
    as (a & b & c & d0 & e & f & frac & -> & Ha & Hb & Hc & Hd & He & Hf
        & Hfrac).
  rewrite convert_time_stamp by assumption. cbn [mbind result_bind].
  destruct IH as (rest' & ->).
  - destruct rest; [constructor|]. now inversion H'.
  - cbn [mbind result_bind]. eauto.
Qed.

Lemma emitted_tail_starts markers hits new c :
  emitted markers true c hits new ->
  Forall (fun h => stamp_text (fst h) = true) hits ->
  Forall stamp_start (List.tl new).
Proof.
  destruct hits as [|[g next] hits]; destruct new as [|d new];
    cbn [emitted]; try contradiction; [constructor|].
  intros (lbl & c' & _ & _ & He) Hsh. cbn [List.tl].
  inversion Hsh; subst. now apply emitted_stamp_starts with markers hits c'.
Qed.

Lemma add_ends_length timecodes : forall finalized,
  add_ends timecodes = Ok finalized ->
  List.length finalized = List.length timecodes.
Proof.
  intros L H. apply add_ends_fields in H.
  symmetry. now apply Forall2_length in H.
Qed.

(** X13. With a list of excluded phrases that is not empty and four
    markers or more, [parse_timecodes] neither raises nor leaves through
    the error exit of [convert_time]: it exits with 8 when no line of the
    transcript is recognized, and returns one dictionary for each
    recognized line otherwise. *)
Theorem parse_timecodes_outcome srt_content excluded_phrases markers :
  excluded_phrases <> [] ->
  (4 <= List.length markers)%nat ->
  match recognized excluded_phrases markers srt_content with
  | [] => parse_timecodes srt_content excluded_phrases markers = Exit 8
  | hits =>
      exists L,
        parse_timecodes srt_content excluded_phrases markers = Ok L
        /\ List.length L = List.length hits
  end.
Proof.
  intros Hx Hm.
  destruct (scan_total excluded_phrases markers srt_content Hm [] 1)
    as (new & Hs).
  pose proof Hs as Hs'.
  apply scan_emitted in Hs' as (new' & -> & He).
  cbn [app List.length] in *. change (0 =? 0)%nat with true in He.
  pose proof (recognized_shape excluded_phrases markers srt_content) as Hsh.
  pose proof (emitted_length _ _ _ _ _ He) as Hlen.
  destruct (add_ends_total new') as (L & Ha);
    [now apply emitted_tail_starts with markers
           (recognized excluded_phrases markers srt_content) 1|].
  pose proof (add_ends_length _ _ Ha) as HL.
  unfold parse_timecodes.
  destruct excluded_phrases as [|x xs]; [contradiction|].
  destruct markers as [|m ms]; [cbn in Hm; lia|].
  rewrite Hs. cbn [mbind result_bind]. rewrite Ha. cbn [mbind result_bind].
  destruct (recognized (x :: xs) (m :: ms) srt_content) as [|h hits].
  - destruct new'; [|discriminate]. injection Ha as <-. reflexivity.
  - destruct L as [|d L]; [cbn in *; lia|].
    exists (d :: L). split; [reflexivity|]. cbn [List.length] in *. lia.
Qed.

Lemma parse_timecodes_outcome_witness :
  match recognized en_excluded en_markers sample_srt with
  | [] => parse_timecodes sample_srt en_excluded en_markers = Exit 8
  | hits =>
      exists L,
        parse_timecodes sample_srt en_excluded en_markers = Ok L
        /\ List.length L = List.length hits
  end.
Proof.
  apply (parse_timecodes_outcome sample_srt en_excluded en_markers);
    [discriminate|cbn; lia].
Defined.

Lemma emitted_keys markers : forall hits new first c,
  emitted markers first c hits new ->
  Forall (fun d => is_Some (start d) /\ is_Some (chapter_type d)
                   /\ end_ d = None) new.
Proof.
  induction hits as [|[g next] hits IH]; intros [|d new] first c H;
    cbn [emitted] in H; try contradiction; [constructor|].
  destruct H as (lbl & c' & _ & -> & H). constructor.
  - cbn. eauto.
  - now apply IH with false c'.
Qed.

Lemma add_ends_keys timecodes : forall finalized,
  add_ends timecodes = Ok finalized ->
  Forall (fun d => is_Some (start d) /\ is_Some (chapter_type d)
                   /\ end_ d = None) timecodes ->
  detector_keys finalized = true.
Proof.
  induction timecodes as [|d rest IH]; intros L H Hk.
  - now injection H as <-.
  - inversion Hk as [|? ? ([s Hs] & [ct Hct] & Hend) Hk']; subst.
    destruct rest as [|d1 rest].
    + injection H as <-. cbn. now rewrite Hs, Hct, Hend.
    + rewrite add_ends_cons in H.
      destruct (getitem (start d1)) as [s1| |]; try discriminate.
      cbn [mbind result_bind] in H.
      destruct (convert_time s1) as [e| |]; try discriminate.
      cbn [mbind result_bind] in H.
      destruct (add_ends (d1 :: rest)) as [rest'| |] eqn:Hr; try discriminate.
      injection H as <-.
      pose proof (IH rest' eq_refl Hk') as Hrest.
      pose proof (add_ends_length _ _ Hr) as Hlen.
      destruct rest' as [|d1' rest']; [discriminate|].
      cbn [detector_keys set_end start chapter_type end_].
      now rewrite Hs, Hct.
Qed.

Lemma parse_timecodes_detector_keys srt_content excluded_phrases markers L :
  parse_timecodes srt_content excluded_phrases markers = Ok L ->
  detector_keys L = true.
Proof.
  intros H.
  destruct (parse_timecodes_inv _ _ _ _ H) as (new & Hs & Ha & _).
  apply scan_emitted in Hs as (new' & -> & He). cbn [app] in *.
  apply (add_ends_keys new' L Ha).
  now apply emitted_keys in He.
Qed.

Lemma detector_keys_nth timecodes : forall i d,
  detector_keys timecodes = true ->
  nth_error timecodes i = Some d ->
  is_Some (start d) /\ is_Some (chapter_type d)
  /\ (is_Some (end_ d) <-> (S i < List.length timecodes)%nat).
Proof.
  induction timecodes as [|d0 rest IH]; intros i d H Hn;
    [now destruct i|].
  cbn [detector_keys] in H.
  destruct (start d0) as [s|] eqn:Hs; [|discriminate].
  destruct (chapter_type d0) as [ct|] eqn:Hct; [|discriminate].
  destruct i as [|i]; cbn [nth_error] in Hn.
  - injection Hn as <-. rewrite Hs, Hct. split; [eauto|]. split; [eauto|].
    destruct rest as [|d1 rest], (end_ d0) as [e|]; try discriminate;
      cbn [List.length]; split; intros H'; eauto; try lia.
    now destruct H'.
  - destruct rest as [|d1 rest]; [now destruct i|].
    destruct (end_ d0); [|discriminate].
    destruct (IH i d H Hn) as (A & B & C). split; [exact A|].
    split; [exact B|]. rewrite C. cbn [List.length]. lia.
Qed.

(** X14. In a list that [parse_timecodes] returns, every dictionary has
    the keys ['start'] and ['chapter_type'], and the key ['end'] is in
    every dictionary but the last: it is left for [apply_chapters] to
    set. *)
Theorem parse_timecodes_keys srt_content excluded_phrases markers L i d :
  parse_timecodes srt_content excluded_phrases markers = Ok L ->
  nth_error L i = Some d ->
  is_Some (start d) /\ is_Some (chapter_type d)
  /\ (is_Some (end_ d) <-> (S i < List.length L)%nat).
Proof.
  intros H. apply detector_keys_nth.
  now apply parse_timecodes_detector_keys in H.
Qed.

Lemma parse_timecodes_keys_witness :
  is_Some (start (mk_timecode (Some "01:30:00.000") (Some "Chapter") None))
  /\ is_Some (chapter_type (mk_timecode (Some "01:30:00.000") (Some "Chapter") None))
  /\ (is_Some (end_ (mk_timecode (Some "01:30:00.000") (Some "Chapter") None))
      <-> (4 < List.length sample_timecodes)%nat).
Proof.
  apply (parse_timecodes_keys sample_srt en_excluded en_markers
           sample_timecodes 3); reflexivity.
Defined.

(** ** [print_table] *)

Lemma detector_keys_rows timecodes :
  detector_keys timecodes = true ->
  forallb (fun n => (3 <=? n)%nat) (row_lengths timecodes) = true.
Proof.
  induction timecodes as [|d rest IH]; intros H; [reflexivity|].
  cbn [detector_keys] in H.
  destruct (start d) as [s|] eqn:Hs; [|discriminate].
  destruct (chapter_type d) as [ct|] eqn:Hct; [|discriminate].
  destruct rest as [|d1 rest], (end_ d) as [e|] eqn:He; try discriminate.
  - cbn [row_lengths]. unfold dict_len. now rewrite Hs, Hct, He.
  - change (row_lengths (d :: d1 :: rest))
      with (dict_len d :: row_lengths (d1 :: rest)).
    cbn [forallb]. rewrite (IH H). unfold dict_len. now rewrite Hs, Hct, He.
Qed.

(** X15. [print_table] finds three cells in every row of a list that
    [parse_timecodes] returns, the last row once ['EOF'] is appended to
    it: the table of [main] is printed without an [IndexError]. *)
Theorem print_table_of_parsed srt_content excluded_phrases markers L :
  parse_timecodes srt_content excluded_phrases markers = Ok L ->
  print_table L = Ok tt.
Proof.
  intros H. pose proof (parse_timecodes_detector_keys _ _ _ _ H) as K.
  destruct (parse_timecodes_inv _ _ _ _ H) as (_ & _ & _ & Hne).
  unfold print_table. destruct L as [|d L]; [contradiction|].
  now rewrite detector_keys_rows.
Qed.

Lemma print_table_of_parsed_witness : print_table sample_timecodes = Ok tt.
Proof.
  apply (print_table_of_parsed sample_srt en_excluded en_markers).
  reflexivity.
Defined.

(** ** From the transcript of [generate_timecodes] to the chapters *)

Lemma format_timestamp_no_exit x c : format_timestamp_from_float x <> Exit c.
Proof.
  unfold format_timestamp_from_float.
  destruct (timedelta_of_seconds x) as [td|c'|e] eqn:E; try discriminate.
  now apply timedelta_of_seconds_no_exit in E.
Qed.

Lemma format_timestamp_formatted x t :
  format_timestamp_from_float x = Ok t -> formatted x /\ stamp_of x = t.
Proof.
  intros H. unfold stamp_of. rewrite H. split; [|reflexivity].
  unfold formatted. rewrite H. unfold format_timestamp_from_float in H.
  destruct (timedelta_of_seconds x) as [td| |] eqn:E; try discriminate.
  injection H as <-.
  destruct (timedelta_of_seconds_inv x td E) as [[u ->] _]. now exists u.
Qed.

Lemma formatted_stamp_of x :
  formatted x -> exists u, stamp_of x = format_timedelta (timedelta_of_us u).
Proof. intros [u H]. exists u. unfold stamp_of. now rewrite H. Qed.

Lemma format_timedelta_lacks c u :
  Py.is_digit c = false -> Ascii.eqb ":" c = false -> Ascii.eqb "," c = false ->
  Py.has_char c (format_timedelta (timedelta_of_us u)) = false.
Proof.
  intros Hd H1 H2.
  destruct (format_timedelta_shape u)
    as (a & b & c0 & d & e & f & g & i & j & Ha & Hb & Hc & Hd' & He & Hf
        & Hg & Hi & Hj & _ & _ & _ & _ & ->).
  rewrite !has_char_app, !has_char_char2 by assumption.
  change (Py.has_char c ":") with (Ascii.eqb ":" c || false).
  change (Py.has_char c ",") with (Ascii.eqb "," c || false).
  change (Py.has_char c (char3 g i j))
    with (Ascii.eqb g c || Py.has_char c (char2 i j)).
  now rewrite has_char_char2, H1, H2, (digit_eqb g c) by assumption.
Qed.

Lemma start_regexp_head line g :
  start_regexp_here line = Some g -> start_regexp line = Some g.
Proof. intros H. destruct line; cbn [start_regexp]; now rewrite H. Qed.

(** The detector finds the start in a line of times. *)
Lemma start_regexp_timing_line u r :
  start_regexp (format_timedelta (timedelta_of_us u) ++ " --> " ++ r)
  = Some (format_timedelta (timedelta_of_us u)).
Proof.
  destruct (format_timedelta_shape u)
    as (a & b & c & d & e & f & g & i & j & Ha & Hb & Hc & Hd & He & Hf
        & Hg & Hi & Hj & _ & _ & _ & _ & ->).
  apply start_regexp_head.
  change ((char2 a b ++ ":" ++ char2 c d ++ ":" ++ char2 e f ++ ","
           ++ char3 g i j) ++ " --> " ++ r)
    with (String a (String b (String ":" (String c (String d (String ":"
           (String e (String f (String ","
             (char3 g i j ++ String " " ("--> " ++ r))))))))))).
  unfold start_regexp_here. rewrite Ha, Hb, Hc, Hd, He, Hf.
  change (true && true && Ascii.eqb ":" ":" && true && true
          && Ascii.eqb ":" ":" && true && true && Ascii.eqb "," ",") with true.
  cbn iota.
  rewrite span_digits_sep;
    [reflexivity|cbn [all_digits char3 char2]; now rewrite Hg, Hi, Hj
    |reflexivity].
Qed.

Lemma start_regexp_here_colon s g :
  start_regexp_here s = Some g -> Py.has_char ":" s = true.
Proof.
  destruct s as [|h1 [|h2 [|c1 [|m1 [|m2 [|c2 [|s1 [|s2 [|c3 r]]]]]]]]];
    cbn [start_regexp_here]; try discriminate.
  match goal with
  | |- (if ?c then _ else _) = _ -> _ => destruct c eqn:E; [|discriminate]
  end.
  do 8 (apply andb_true_iff in E as [E ?]).
  intros _. cbn [Py.has_char].
  match goal with
  | H : Ascii.eqb c1 _ = true |- _ => rewrite H
  end.
  now rewrite !orb_true_r.
Qed.

Lemma start_regexp_no_colon s :
  Py.has_char ":" s = false -> start_regexp s = None.
Proof.
  induction s as [|c s IH]; intros H; cbn [start_regexp].
  - reflexivity.
  - destruct (start_regexp_here (String c s)) eqn:E.
    + apply start_regexp_here_colon in E. congruence.
    + apply IH. cbn [Py.has_char] in H. now apply orb_false_iff in H as [_ H].
Qed.

Lemma recognized_skip_line excluded_phrases markers line rest :
  start_regexp line = None ->
  recognized excluded_phrases markers (line :: rest)
  = recognized excluded_phrases markers rest.
Proof.
  intros H. destruct rest as [|next rest]; [reflexivity|].
  rewrite recognized_cons, H. now destruct (candidate _ _ _).
Qed.

Lemma recognized_skip_next excluded_phrases markers line next rest :
  candidate excluded_phrases markers next = false ->
  recognized excluded_phrases markers (line :: next :: rest)
  = recognized excluded_phrases markers (next :: rest).
Proof. intros H. now rewrite recognized_cons, H. Qed.

(** When the loop is through, what it wrote are the lines of the
    segments, and every time was formatted. *)
Lemma srt_chunks_bodies segments : forall count chunks,
  srt_chunks count segments = (chunks, None) ->
  chunks = List.map with_lf (srt_bodies count segments)
  /\ Forall written segments.
Proof.
  induction segments as [|sg rest IH]; intros count chunks H.
  - injection H as <-. split; [reflexivity|constructor].
  - cbn [srt_chunks] in H. unfold srt_block in H.
    destruct (format_timestamp_from_float (seg_start sg)) as [t1|c|x] eqn:E1;
      cbn [mbind result_bind] in H;
      [|now apply format_timestamp_no_exit in E1|discriminate].
    destruct (format_timestamp_from_float (seg_end sg)) as [t2|c|x] eqn:E2;
      cbn [mbind result_bind] in H;
      [|now apply format_timestamp_no_exit in E2|discriminate].
    destruct (srt_chunks (S count) rest) as [chunks' e] eqn:Er.
    injection H as <- ->.
    destruct (IH (S count) chunks' Er) as [-> Hw].
    apply format_timestamp_formatted in E1 as [F1 S1], E2 as [F2 S2].
    split; [|constructor; [now split|exact Hw]].
    cbn [srt_bodies List.map List.app]. unfold with_lf, timing_line.
    now rewrite S1, S2, !str_app_assoc.
Qed.

Lemma srt_bodies_one_line segments : forall count,
  Forall written segments ->
  forallb (fun sg => one_line (PyText.strip (seg_text sg))) segments = true ->
  forallb one_line (srt_bodies count segments) = true.
Proof.
  induction segments as [|sg rest IH]; intros count Hw H; [reflexivity|].
  cbn [forallb] in H. apply andb_true_iff in H as [Ht H].
  inversion Hw as [|? ? [F1 F2] Hw']; subst.
  cbn [srt_bodies forallb]. rewrite Ht, (IH _ Hw' H).
  rewrite (timecode_chars_one_line _ (str_timecode_chars _)).
  destruct (formatted_stamp_of _ F1) as [u1 S1].
  destruct (formatted_stamp_of _ F2) as [u2 S2].
  unfold timing_line, one_line. rewrite S1, S2.
  rewrite !has_char_app, !format_timedelta_lacks by reflexivity.
  reflexivity.
Qed.

Lemma readlines_bodies bodies :
  forallb one_line bodies = true ->
  readlines (universal_newlines
               (String.concat EmptyString (List.map with_lf bodies)))
  = List.map with_lf bodies.
Proof.
  intros H. rewrite universal_newlines_id.
  2:{ apply has_char_lines; [reflexivity|].
      rewrite forallb_forall in H |- *. intros b Hb. apply H in Hb.
      unfold one_line in Hb. now apply andb_true_iff in Hb as [_ ->]. }
  induction bodies as [|b bodies IH]; [reflexivity|].
  cbn [forallb] in H. apply andb_true_iff in H as [Hb H].
  unfold one_line in Hb. apply andb_true_iff in Hb as [Hlf _].
  apply negb_true_iff in Hlf.
  rewrite concat_lines_cons, readlines_line by exact Hlf.
  cbn [List.map]. now rewrite IH.
Qed.

(** The recognized lines of a transcript are the lines of times of the
    heard segments. *)
Lemma recognized_transcript excluded_phrases markers segments :
  any_in markers LF = false ->
  Forall written segments ->
  forall count,
  recognized excluded_phrases markers
    (List.map with_lf (srt_bodies count segments))
  = List.map (fun sg => (segment_start sg, text_line sg))
      (List.filter (heard excluded_phrases markers) segments).
Proof.
  intros Hm Hw.
  induction Hw as [|sg rest [F1 F2] Hw IH]; intros count; [reflexivity|].
  cbn [srt_bodies List.map List.filter].
  rewrite recognized_skip_line.
  2:{ apply start_regexp_no_colon. unfold with_lf. rewrite has_char_app.
      replace (Z.of_nat count + 1) with (Z.of_nat (S count)) by lia.
      now rewrite (all_digits_has_char ":" _ (str_nat_digits _) eq_refl). }
  rewrite recognized_cons.
  replace (start_regexp (with_lf (timing_line sg)))
    with (Some (stamp_of (seg_start sg))).
  2:{ unfold with_lf, timing_line. rewrite !str_app_assoc.
      destruct (formatted_stamp_of _ F1) as [u1 ->].
      symmetry. apply start_regexp_timing_line. }
  assert (T : recognized excluded_phrases markers
                (with_lf (PyText.strip (seg_text sg)) :: with_lf EmptyString
                   :: List.map with_lf (srt_bodies (S count) rest))
              = List.map (fun sg => (segment_start sg, text_line sg))
                  (List.filter (heard excluded_phrases markers) rest)).
  { rewrite recognized_skip_next.
    2:{ unfold candidate. change (with_lf EmptyString) with LF.
        rewrite Hm. apply andb_false_r. }
    rewrite recognized_skip_line by reflexivity. apply IH. }
  rewrite T.
  change (candidate excluded_phrases markers
            (with_lf (PyText.strip (seg_text sg))))
    with (heard excluded_phrases markers sg).
  now destruct (heard excluded_phrases markers sg).
Qed.

Lemma written_filter (keep : segment -> bool) segments :
  Forall written segments -> Forall written (List.filter keep segments).
Proof.
  induction 1 as [|sg rest Hsg _ IH]; cbn [List.filter]; [constructor|].
  destruct (keep sg); [now constructor|exact IH].
Qed.

Lemma starts_at_of_starts later : forall rest,
  List.map start rest = List.map (fun sg => Some (segment_start sg)) later ->
  Forall written later ->
  Forall2 starts_at rest later.
Proof.
  induction later as [|sg later IH]; intros [|d rest] H Hw;
    try discriminate; [constructor|].
  cbn [List.map] in H. injection H as Hd Hrest.
  inversion Hw as [|? ? [[u Hu] _] Hw']; subst. constructor.
  - exists (format_timedelta (timedelta_of_us u)). split; [exact Hu|].
    rewrite Hd. unfold segment_start, stamp_of. now rewrite Hu.
  - now apply IH.
Qed.

(** X16. Take the transcript that [generate_timecodes] has written for
    segments whose texts are single lines, and a table of markers none of
    which is found in an empty line. What [parse_timecodes] returns for
    it has one dictionary for each segment whose text holds a marker and
    no excluded phrase, in their order: the first starts at zero, whatever
    the start of its segment, and each later one at the start of its
    segment, formatted and with a dot for the comma. *)
Theorem transcript_chapter_starts segments excluded_phrases markers text L :
  forallb (fun sg => one_line (PyText.strip (seg_text sg))) segments = true ->
  any_in markers LF = false ->
  srt_text segments = Ok text ->
  parse_timecodes (readlines (universal_newlines text))
    excluded_phrases markers = Ok L ->
  exists sg later d rest,
    List.filter (heard excluded_phrases markers) segments = sg :: later
    /\ L = d :: rest
    /\ start d = Some "00:00:00"
    /\ Forall2 starts_at rest later.
Proof.
  intros Ht Hm Hw H.
  unfold srt_text in Hw.
  destruct (srt_chunks 0 segments) as [chunks [x|]] eqn:Ec; [discriminate|].
  injection Hw as <-.
  destruct (srt_chunks_bodies segments 0 chunks Ec) as [-> Hwr].
  rewrite readlines_bodies in H by now apply srt_bodies_one_line.
  apply parse_timecodes_emitted in H as (new & He & Hf & Hne).
  rewrite (recognized_transcript _ _ _ Hm Hwr) in He.
  apply same_fields_start in Hf.
  rewrite (emitted_starts _ _ _ _ _ He) in Hf.
  pose proof (written_filter (heard excluded_phrases markers) _ Hwr) as Hl.
  destruct (List.filter (heard excluded_phrases markers) segments)
    as [|sg later].
  - destruct L; [contradiction|discriminate].
  - destruct L as [|d rest]; [contradiction|].
    exists sg, later, d, rest.
    cbn [List.map firstn List.tl List.app fst] in Hf.
    injection Hf as Hd Hrest. rewrite List.map_map in Hrest.
    repeat split; trivial.
    inversion Hl; subst. now apply starts_at_of_starts.
Qed.

Lemma transcript_chapter_starts_witness :
  exists sg later d rest,
    List.filter (heard en_excluded en_markers) sample_segments = sg :: later
    /\ [ {| start := Some "00:00:00"; chapter_type := Some "Chapter 01";
            end_ := Some "00:10:04.000" |};
         {| start := Some "00:10:05.000"; chapter_type := Some "Chapter 02";
            end_ := None |} ] = d :: rest
    /\ start d = Some "00:00:00"
    /\ Forall2 starts_at rest later.
Proof.
  eapply (transcript_chapter_starts sample_segments en_excluded en_markers);
    reflexivity.
Defined.

(** ** The second run of [main] *)

Lemma detector_keys_erase timecodes :
  detector_keys timecodes = true -> erase_last_end timecodes = timecodes.
Proof.
  induction timecodes as [|d rest IH]; intros H; [reflexivity|].
  cbn [detector_keys] in H.
  destruct (start d) as [s|] eqn:Hs; [|discriminate].
  destruct (chapter_type d) as [ct|] eqn:Hct; [|discriminate].
  destruct rest as [|d1 rest], (end_ d) as [e|] eqn:He; try discriminate.
  - cbn [erase_last_end]. destruct d. cbn in *. congruence.
  - change (erase_last_end (d :: d1 :: rest))
      with (d :: erase_last_end (d1 :: rest)).
    now rewrite (IH H).
Qed.

(** X17. A run of [main] that finds no sidecar, parses the transcript and
    writes the sidecar hands some list to [apply_chapters]. A second run
    on the files that it left reads the sidecar and hands over the same
    list, without reading the transcript and without writing: whatever
    the transcript, the language and the faults of the disk then are.
    This holds when no earlier start equals the last one, the markers of
    the language and the stem of the path being single lines. *)
Theorem main_second_run cue_path timecodes_file excluded_phrases markers
    (fs fs' : gmap string string) L
    timecodes_file' excluded_phrases' markers' fault' :
  forallb one_line markers = true ->
  one_line (stem cue_path) = true ->
  fs !! path_str cue_path = None ->
  main_timecodes (Some cue_path) timecodes_file excluded_phrases markers
    None fs = (Ok L, fs') ->
  last_start_fresh L = true ->
  main_timecodes (Some cue_path) timecodes_file' excluded_phrases' markers'
    fault' fs' = (Ok L, fs').
Proof.
  intros Hm Hstem Hfs H Hfresh.
  unfold main_timecodes in H. rewrite Hfs in H.
  destruct (fs !! timecodes_file) as [text|]; [|discriminate].
  destruct (parse_timecodes _ excluded_phrases markers) as [L0| |] eqn:Hp;
    try discriminate.
  destruct (print_table L0) as [u| |] eqn:Hpt; try discriminate.
  destruct (write_cue_file L0 cue_path None fs) as [[b| |] fs0] eqn:Hw;
    try discriminate.
  injection H as <- <-.
  destruct (sidecar_round_trip L0 cue_path fs) as [_ Hread]; trivial.
  - now destruct (parse_timecodes_inv _ _ _ _ Hp) as (_ & _ & _ & Hne).
  - now apply parse_timecodes_safe in Hp.
  - rewrite Hw in Hread. cbn [snd] in Hread.
    rewrite detector_keys_erase in Hread
      by now apply parse_timecodes_detector_keys in Hp.
    unfold main_timecodes.
    destruct (fs0 !! path_str cue_path) eqn:E.
    + now rewrite Hread, Hpt.
    + unfold read_cue_file in Hread. now rewrite E in Hread.
Qed.

Lemma main_second_run_witness :
  main_timecodes (Some cue_book) "/books/other.srt" [] [] (Some 0%nat)
    (snd (write_cue_file sample_timecodes cue_book None
            {[ "/books/book.srt" := text_of_lines sample_srt ]}))
  = (Ok sample_timecodes,
     snd (write_cue_file sample_timecodes cue_book None
            {[ "/books/book.srt" := text_of_lines sample_srt ]})).
Proof.
  apply (main_second_run cue_book "/books/book.srt" en_excluded en_markers
           {[ "/books/book.srt" := text_of_lines sample_srt ]});
    reflexivity.
Defined.

(** ** [read_cue_file], the first line *)

(** X18. [read_cue_file] never looks at the first line of the sidecar:
    the [FILE] line that [write_cue_file] puts there can be anything. *)
Theorem read_cue_content_ignores_first_line first first' rest :
  read_cue_content (first :: rest) = read_cue_content (first' :: rest).
Proof.
  unfold read_cue_content. cbn [List.length List.tl].
  now destruct rest.
Qed.

(** ** [apply_chapters] on what [parse_timecodes] returns *)







(** ** [main], the metadata *)

(** X20. The three cases that [main] tells apart when it combines the
    metadata of the file with that of the command line come to one rule:
    under every key the value of the command line is taken when there is
    one, and the value extracted from the file otherwise. *)
Theorem main_metadata_lookup parsed_metadata in_metadata k :
  main_metadata parsed_metadata in_metadata !! k
  = match in_metadata !! k with
    | Some v => Some v
    | None => parsed_metadata !! k
    end.
Proof.
  unfold main_metadata, dict_true.
  destruct (bool_decide_reflect (parsed_metadata = ∅)) as [->|Hp];
    destruct (bool_decide_reflect (in_metadata = ∅)) as [->|Hi];
    cbn [negb andb].
  - now rewrite lookup_empty.
  - rewrite lookup_empty. now destruct (in_metadata !! k).
  - now rewrite lookup_empty.
  - rewrite lookup_union. now destruct (in_metadata !! k), (parsed_metadata !! k).
Qed.
